(** * pyRMS: pairwise RMS statistics across the states of a PyMOL object

    A shallow embedding of [rms_calculator.py] (function
    [calculate_rms_stats] with its nested helpers [_p], [compute_mode],
    [summarize] and [format_report_lines]) and the properties of its
    aggregation, report and export logic.

    Conventions of the embedding.
    - A Python [float] is an IEEE binary64 value, represented by the
      Standard Library's [spec_float] at precision 53 and exponent bound
      1024.  Theorems quantify over every [spec_float], hence over every
      binary64 value.
    - A Python [str] is a [string] whose characters are the code points
      U+0000 to U+00FF (one [ascii] per code point), so that [isalnum],
      [strip] and [lower] can be given by their complete tables.
    - A Python [int] is a [Z]; a [dict] keyed by state index is a
      [gmap Z _]; [None] is [option]'s [None].
    - PyMOL's [cmd], [pathlib], [datetime] and [os] are a record of host
      operations over an abstract host state; every call is logged.
    - Exceptions, the console and the host state are threaded by a small
      state-and-exception monad. *)

From Stdlib Require Import ZArith QArith String Ascii List Lia Bool.
From Stdlib Require Import Floats.SpecFloat DecimalString.
From stdpp Require Import base gmap list strings.

Local Open Scope string_scope.
Local Open Scope list_scope.
Local Open Scope Z_scope.

(** ** Exceptions *)

(** The exception classes that occur.  All derive from Python's
    [Exception], so an [except Exception] clause catches each of them;
    the payload is what [str(exc)] gives. *)
Inductive exn : Type :=
| ValueError (msg : string)
| OverflowError (msg : string)
| AttributeError (msg : string)
| StatisticsError (msg : string)
| TypeError (msg : string)
| HostError (msg : string).

Definition exn_str (e : exn) : string :=
  match e with
  | ValueError m | OverflowError m | AttributeError m
  | StatisticsError m | TypeError m | HostError m => m
  end.

Inductive res (A : Type) : Type :=
| Ok (a : A)
| Raise (e : exn).
Arguments Ok {A} a.
Arguments Raise {A} e.

(** ** Python floats *)

Module PyFloat.

Definition float : Type := spec_float.
Definition prec : Z := 53.
Definition emax : Z := 1024.

(** [math.nan] *)
Definition nan : float := S754_nan.

(** [math.isnan] *)
Definition isnan (x : float) : bool :=
  match x with S754_nan => true | _ => false end.

Definition isfinite (x : float) : bool :=
  match x with S754_zero _ | S754_finite _ _ _ => true | _ => false end.

(** The float written [m * 2^e], rounded to nearest-even. *)
Definition lit (m e : Z) : float := binary_normalize prec emax m e false.

(** [x >= y] on floats: false as soon as one side is a NaN. *)
Definition ge (x y : float) : bool := SFleb y x.

(** [x < y] on floats. *)
Definition lt (x y : float) : bool := SFltb x y.

(** [float(z)] for an int [z]: correctly rounded; [None] stands for the
    [OverflowError] of an int too large for a float. *)
Definition of_int (z : Z) : option float :=
  match binary_normalize prec emax z 0 false with
  | S754_infinity _ => None
  | r => Some r
  end.

(** [a / b] on ints with [b > 0]: the correctly rounded quotient.
    CPython raises [OverflowError] where this yields an infinity. *)
Definition int_truediv (a : Z) (b : positive) : float :=
  match a with
  | Z0 => S754_zero false
  | Zpos p => SFdiv prec emax (S754_finite false p 0) (S754_finite false b 0)
  | Zneg p => SFdiv prec emax (S754_finite true p 0) (S754_finite false b 0)
  end.

(** The rational [z * 2^e]. *)
Definition dyadic (z e : Z) : Q :=
  match e with
  | Zneg p => z # Pos.shiftl 1 (Npos p)
  | _ => (z * 2 ^ e) # 1
  end.

(** [x.as_integer_ratio()] as a fraction, for a finite [x]. *)
Definition exact (x : float) : Q :=
  match x with
  | S754_finite s m e => dyadic (cond_Zopp s (Zpos m)) e
  | _ => 0%Q
  end.

(** [float(Fraction)]: numerator over denominator in lowest terms. *)
Definition of_Q (v : Q) : float :=
  int_truediv (Qnum (Qred v)) (Qden (Qred v)).

End PyFloat.
Export PyFloat.

(** ** The [statistics] module (CPython 3.12)

    [mean] and [stdev] sum exactly, as fractions, and round once at the
    end.  Data that holds an infinity or a NaN takes the module's
    non-finite path. *)

Module Statistics.

(** [partials[None]] of [_sum] and [_ss]: the float sum of the items
    that are not finite, [None] when every item is finite. *)
Definition nonfinite_total (data : list float) : option float :=
  fold_left
    (fun acc x =>
       if isfinite x then acc
       else Some (match acc with
                  | None => x
                  | Some t => SFadd prec emax t x
                  end))
    data None.

(** The exact sum of finite data. *)
Definition exact_sum (data : list float) : Q :=
  fold_left (fun acc x => (acc + exact x)%Q) data 0%Q.

(** The exact sum of the squares of finite data. *)
Definition exact_sum_sq (data : list float) : Q :=
  fold_left (fun acc x => (acc + exact x * exact x)%Q) data 0%Q.

Definition count (data : list float) : Z := Z.of_nat (length data).

(** [statistics.mean] *)
Definition mean (data : list float) : res float :=
  match data with
  | [] => Raise (StatisticsError "mean requires at least one data point")
  | _ =>
      match nonfinite_total data with
      | Some total => Ok total
      | None => Ok (of_Q (exact_sum data / inject_Z (count data))%Q)
      end
  end.

(** [int.bit_length] *)
Definition bit_length (z : Z) : Z :=
  if z =? 0 then 0 else Z.log2 (Z.abs z) + 1.

(** [_integer_sqrt_of_frac_rto]: the square root of [n/m] rounded to
    an integer, to odd. *)
Definition integer_sqrt_of_frac_rto (n m : Z) : Z :=
  let a := Z.sqrt (n / m) in
  Z.lor a (if a * a * m =? n then 0 else 1).

(** [_sqrt_bit_width = 2 * sys.float_info.mant_dig + 3] *)
Definition sqrt_bit_width : Z := 2 * 53 + 3.

(** [_float_sqrt_of_frac]: the square root of [n/m] as a float,
    correctly rounded. *)
Definition float_sqrt_of_frac (n : Z) (m : positive) : float :=
  let q := (bit_length n - bit_length (Zpos m) - sqrt_bit_width) / 2 in
  if 0 <=? q then
    let numerator :=
      Z.shiftl (integer_sqrt_of_frac_rto n (Z.shiftl (Zpos m) (2 * q))) q in
    int_truediv numerator 1
  else
    let numerator := integer_sqrt_of_frac_rto (Z.shiftl n (- 2 * q)) (Zpos m) in
    int_truediv numerator (Pos.shiftl 1 (Z.to_N (- q))).

(** The mean of the squared deviations over [N - 1], as [_ss] and
    [stdev] compute it: [(N * sxx - sx * sx) / N / (N - 1)]. *)
Definition mss (data : list float) : Q :=
  let n := inject_Z (count data) in
  let sx := exact_sum data in
  let sxx := exact_sum_sq data in
  ((n * sxx - sx * sx) / n / (n - 1))%Q.

(** The square root of a fraction, taken in lowest terms. *)
Definition sqrt_of_Q (v : Q) : float :=
  float_sqrt_of_frac (Qnum (Qred v)) (Qden (Qred v)).

(** [statistics.stdev] *)
Definition stdev (data : list float) : res float :=
  if count data <? 2 then
    Raise (StatisticsError "stdev requires at least two data points")
  else
    match nonfinite_total data with
    | Some _ =>
        Raise (AttributeError "'float' object has no attribute 'numerator'")
    | None => Ok (sqrt_of_Q (mss data))
    end.

End Statistics.

(** ** Python strings *)

Module PyStr.

(** The code point of a character. *)
Definition code (c : ascii) : Z := Z.of_N (N_of_ascii c).

Definition between (lo hi n : Z) : bool := (lo <=? n) && (n <=? hi).

(** [c.isalnum()] on U+0000..U+00FF: the decimal digits, the ASCII
    letters, and the letters and numeric characters of Latin-1
    (U+00AA, U+00B2, U+00B3, U+00B5, U+00B9, U+00BA, U+00BC..U+00BE,
    U+00C0..U+00D6, U+00D8..U+00F6, U+00F8..U+00FF). *)
Definition isalnum (c : ascii) : bool :=
  let n := code c in
  between 48 57 n || between 65 90 n || between 97 122 n
  || (n =? 170) || (n =? 178) || (n =? 179) || (n =? 181) || (n =? 185)
  || (n =? 186) || between 188 190 n
  || between 192 214 n || between 216 246 n || between 248 255 n.

(** The characters [str.strip()] removes, on U+0000..U+00FF. *)
Definition isspace (c : ascii) : bool :=
  let n := code c in
  between 9 13 n || between 28 32 n || (n =? 133) || (n =? 160).

(** [c.lower()] on U+0000..U+00FF. *)
Definition lower_char (c : ascii) : ascii :=
  let n := code c in
  if between 65 90 n || (between 192 222 n && negb (n =? 215))
  then ascii_of_N (Z.to_N (n + 32))
  else c.

Fixpoint map_chars (f : ascii -> ascii) (s : string) : string :=
  match s with
  | EmptyString => EmptyString
  | String c r => String (f c) (map_chars f r)
  end.

(** [s.lower()] *)
Definition lower (s : string) : string := map_chars lower_char s.

Fixpoint lstrip_by (p : ascii -> bool) (s : string) : string :=
  match s with
  | EmptyString => EmptyString
  | String c r => if p c then lstrip_by p r else s
  end.

Fixpoint rstrip_by (p : ascii -> bool) (s : string) : string :=
  match s with
  | EmptyString => EmptyString
  | String c r =>
      match rstrip_by p r with
      | EmptyString => if p c then EmptyString else String c EmptyString
      | r' => String c r'
      end
  end.

Definition strip_by (p : ascii -> bool) (s : string) : string :=
  rstrip_by p (lstrip_by p s).

(** [s.strip()] *)
Definition strip (s : string) : string := strip_by isspace s.

Definition is_underscore (c : ascii) : bool := Ascii.eqb c "_".

(** [s.strip("_")] *)
Definition strip_underscores (s : string) : string := strip_by is_underscore s.

(** [s[:n]] *)
Fixpoint take (n : nat) (s : string) : string :=
  match n, s with
  | S n', String c r => String c (take n' r)
  | _, _ => EmptyString
  end.

(** ["__" in s] *)
Fixpoint has_double_underscore (s : string) : bool :=
  match s with
  | EmptyString => false
  | String c r =>
      match r with
      | EmptyString => false
      | String d _ =>
          (is_underscore c && is_underscore d) || has_double_underscore r
      end
  end.

(** [s.replace("__", "_")]: the occurrences are taken from the left
    and do not overlap. *)
Fixpoint replace_double_underscore (s : string) : string :=
  match s with
  | EmptyString => EmptyString
  | String c r =>
      match r with
      | EmptyString => String c EmptyString
      | String d r' =>
          if is_underscore c && is_underscore d
          then String "_" (replace_double_underscore r')
          else String c (replace_double_underscore r)
      end
  end.

(** [c * n] for a one-character string [c]. *)
Fixpoint repeat_char (c : ascii) (n : nat) : string :=
  match n with
  | O => EmptyString
  | S n' => String c (repeat_char c n')
  end.

(** [s.ljust(w)], the f-string alignment [{s:<w}]. *)
Definition ljust (w : nat) (s : string) : string :=
  s +:+ repeat_char " " (w - String.length s).

(** [s.rjust(w)], the f-string alignment [{s:>w}]. *)
Definition rjust (w : nat) (s : string) : string :=
  repeat_char " " (w - String.length s) +:+ s.

(** [str(z)] for an int. *)
Definition str_of_int (z : Z) : string := NilZero.string_of_int (Z.to_int z).

(** A non-negative int in decimal, zero-padded to [w] digits. *)
Definition zfill (w : nat) (z : Z) : string :=
  repeat_char "0" (w - String.length (str_of_int z)) +:+ str_of_int z.

(** The line feed. *)
Definition nl : string := String "010" EmptyString.

(** [sep.join(lines)] *)
Definition join (sep : string) (lines : list string) : string :=
  String.concat sep lines.

(** [num / den] rounded to the nearest integer, ties to even. *)
Definition round_half_even (num den : Z) : Z :=
  let q := num / den in
  match 2 * (num mod den) ?= den with
  | Lt => q
  | Eq => if Z.even q then q else q + 1
  | Gt => q + 1
  end.

(** [f"{x:.3f}"]: the decimal expansion of [x] correctly rounded to
    three places. *)
Definition format_3f (x : float) : string :=
  match x with
  | S754_nan => "nan"
  | S754_infinity s => if s then "-inf" else "inf"
  | S754_zero s => if s then "-0.000" else "0.000"
  | S754_finite s m e =>
      let thousandths :=
        match e with
        | Zneg p => round_half_even (Zpos m * 1000) (2 ^ Zpos p)
        | _ => Zpos m * 1000 * 2 ^ e
        end in
      (if s then "-" else "")
      +:+ str_of_int (thousandths / 1000) +:+ "."
      +:+ zfill 3 (thousandths mod 1000)
  end.

End PyStr.
Export PyStr.

(** ** The result dictionaries *)

(** [result["modes"][mode]] *)
Record ModeResult : Type := {
  per_state_means : gmap Z float;
  per_state_pairs : gmap Z (list float);
  all_rms : list float;
  overall_mean : float;
  overall_sd : float;
}.

Definition set_per_state_means (d : ModeResult) (v : gmap Z float) : ModeResult :=
  {| per_state_means := v; per_state_pairs := per_state_pairs d;
     all_rms := all_rms d; overall_mean := overall_mean d;
     overall_sd := overall_sd d |}.
Definition set_per_state_pairs (d : ModeResult) (v : gmap Z (list float)) : ModeResult :=
  {| per_state_means := per_state_means d; per_state_pairs := v;
     all_rms := all_rms d; overall_mean := overall_mean d;
     overall_sd := overall_sd d |}.
Definition set_all_rms (d : ModeResult) (v : list float) : ModeResult :=
  {| per_state_means := per_state_means d; per_state_pairs := per_state_pairs d;
     all_rms := v; overall_mean := overall_mean d;
     overall_sd := overall_sd d |}.
Definition set_overall_mean (d : ModeResult) (v : float) : ModeResult :=
  {| per_state_means := per_state_means d; per_state_pairs := per_state_pairs d;
     all_rms := all_rms d; overall_mean := v;
     overall_sd := overall_sd d |}.
Definition set_overall_sd (d : ModeResult) (v : float) : ModeResult :=
  {| per_state_means := per_state_means d; per_state_pairs := per_state_pairs d;
     all_rms := all_rms d; overall_mean := overall_mean d;
     overall_sd := v |}.

(** The dictionary [calculate_rms_stats] returns after an analysis. *)
Module Result.
Record t : Type := {
  modes_all : ModeResult;
  modes_no_hydrogen : ModeResult;
  selection : option string;
  atom_counts_all : option Z;
  atom_counts_no_hydrogen : option Z;
  states : Z;
  report_file : option string;
  error : option string;
}.

Definition set_modes_all (r : t) (v : ModeResult) : t :=
  {| modes_all := v; modes_no_hydrogen := modes_no_hydrogen r;
     selection := selection r; atom_counts_all := atom_counts_all r;
     atom_counts_no_hydrogen := atom_counts_no_hydrogen r;
     states := states r; report_file := report_file r; error := error r |}.
Definition set_modes_no_hydrogen (r : t) (v : ModeResult) : t :=
  {| modes_all := modes_all r; modes_no_hydrogen := v;
     selection := selection r; atom_counts_all := atom_counts_all r;
     atom_counts_no_hydrogen := atom_counts_no_hydrogen r;
     states := states r; report_file := report_file r; error := error r |}.
Definition set_selection (r : t) (v : option string) : t :=
  {| modes_all := modes_all r; modes_no_hydrogen := modes_no_hydrogen r;
     selection := v; atom_counts_all := atom_counts_all r;
     atom_counts_no_hydrogen := atom_counts_no_hydrogen r;
     states := states r; report_file := report_file r; error := error r |}.
Definition set_atom_counts_all (r : t) (v : option Z) : t :=
  {| modes_all := modes_all r; modes_no_hydrogen := modes_no_hydrogen r;
     selection := selection r; atom_counts_all := v;
     atom_counts_no_hydrogen := atom_counts_no_hydrogen r;
     states := states r; report_file := report_file r; error := error r |}.
Definition set_atom_counts_no_hydrogen (r : t) (v : option Z) : t :=
  {| modes_all := modes_all r; modes_no_hydrogen := modes_no_hydrogen r;
     selection := selection r; atom_counts_all := atom_counts_all r;
     atom_counts_no_hydrogen := v;
     states := states r; report_file := report_file r; error := error r |}.
Definition set_states (r : t) (v : Z) : t :=
  {| modes_all := modes_all r; modes_no_hydrogen := modes_no_hydrogen r;
     selection := selection r; atom_counts_all := atom_counts_all r;
     atom_counts_no_hydrogen := atom_counts_no_hydrogen r;
     states := v; report_file := report_file r; error := error r |}.
Definition set_report_file (r : t) (v : option string) : t :=
  {| modes_all := modes_all r; modes_no_hydrogen := modes_no_hydrogen r;
     selection := selection r; atom_counts_all := atom_counts_all r;
     atom_counts_no_hydrogen := atom_counts_no_hydrogen r;
     states := states r; report_file := v; error := error r |}.
Definition set_error (r : t) (v : option string) : t :=
  {| modes_all := modes_all r; modes_no_hydrogen := modes_no_hydrogen r;
     selection := selection r; atom_counts_all := atom_counts_all r;
     atom_counts_no_hydrogen := atom_counts_no_hydrogen r;
     states := states r; report_file := report_file r; error := v |}.
End Result.

(** The mode entry the result starts with (lines 97-110). *)
Definition empty_mode : ModeResult :=
  {| per_state_means := ∅; per_state_pairs := ∅; all_rms := [];
     overall_mean := nan; overall_sd := nan |}.

(** The result dictionary as initialised (lines 95-117). *)
Definition initial_result : Result.t :=
  {| Result.modes_all := empty_mode;
     Result.modes_no_hydrogen := empty_mode;
     Result.selection := None;
     Result.atom_counts_all := None;
     Result.atom_counts_no_hydrogen := None;
     Result.states := 0;
     Result.report_file := None;
     Result.error := None |}.

(** What [calculate_rms_stats] returns: [{"help": text}] or the result
    dictionary. *)
Inductive retval : Type :=
| Help (help : string)
| Analysis (result : Result.t).

(** ** The host: PyMOL, the file system, the clock *)

(** What [cmd.intra_fit] may hand back: [None], a number, a sequence
    whose items are numbers or objects [float()] rejects, or an object
    that is neither a number nor iterable. *)
Inductive item : Type :=
| IFloat (x : float)
| IInt (z : Z)
| IOther.

Inductive rms_return : Type :=
| RmsNone
| RmsInt (z : Z)
| RmsFloat (x : float)
| RmsSeq (xs : list item)
| RmsOpaque.

(** [datetime.datetime] *)
Record datetime : Type := {
  year : Z; month : Z; day : Z; hour : Z; minute : Z; second : Z;
}.

(** The operations of the host over its state [Env]; each returns its
    outcome and the next state.  A path is the string it was built
    from. *)
Record Host (Env : Type) : Type := {
  cmd_count_states : string -> Env -> res Z * Env;
  cmd_count_atoms : string -> Env -> res Z * Env;
  cmd_intra_fit : string -> Z -> Env -> res rms_return * Env;
  path_exists : string -> Env -> res bool * Env;
  path_is_dir : string -> Env -> res bool * Env;
  path_join : string -> string -> string;
  path_parent : string -> string;
  path_mkdir : string -> Env -> res unit * Env;
  path_write_text : string -> string -> Env -> res unit * Env;
  path_resolve : string -> Env -> res string * Env;
  datetime_now : Env -> datetime * Env;
  os_getcwd : Env -> res string * Env;
}.
Arguments cmd_count_states {Env} _ _ _.
Arguments cmd_count_atoms {Env} _ _ _.
Arguments cmd_intra_fit {Env} _ _ _ _.
Arguments path_exists {Env} _ _ _.
Arguments path_is_dir {Env} _ _ _.
Arguments path_join {Env} _ _ _.
Arguments path_parent {Env} _ _.
Arguments path_mkdir {Env} _ _ _.
Arguments path_write_text {Env} _ _ _ _.
Arguments path_resolve {Env} _ _ _.
Arguments datetime_now {Env} _ _.
Arguments os_getcwd {Env} _ _.

(** The log of host calls. *)
Inductive call : Type :=
| CountStates (obj : string)
| CountAtoms (sel : string)
| IntraFit (sel : string) (state : Z)
| PathExists (p : string)
| PathIsDir (p : string)
| PathMkdir (p : string)
| PathWriteText (p content : string)
| PathResolve (p : string)
| DatetimeNow
| OsGetcwd.

(** The state a run threads: the host's state, the calls made so far
    and what was printed, one entry per [print]. *)
Record world (Env : Type) : Type := {
  host_state : Env;
  calls : list call;
  stdout : list string;
}.
Arguments host_state {Env} _.
Arguments calls {Env} _.
Arguments stdout {Env} _.
Arguments Build_world {Env} _ _ _.

(** ** The monad of a run *)

Definition M (Env A : Type) : Type := world Env -> res A * world Env.

Definition ret {Env A} (a : A) : M Env A := fun w => (Ok a, w).

Definition bind {Env A B} (c : M Env A) (k : A -> M Env B) : M Env B :=
  fun w =>
    match c w with
    | (Ok a, w') => k a w'
    | (Raise e, w') => (Raise e, w')
    end.

Definition raise {Env A} (e : exn) : M Env A := fun w => (Raise e, w).

(** A pure computation that may raise. *)
Definition lift {Env A} (r : res A) : M Env A := fun w => (r, w).

(** The body of a [try]: its outcome as a value. *)
Definition attempt {Env A} (c : M Env A) : M Env (res A) :=
  fun w => let '(r, w') := c w in (Ok r, w').

(** A logged host call. *)
Definition host_call {Env A} (c : call) (op : Env -> res A * Env) : M Env A :=
  fun w =>
    let '(r, e') := op (host_state w) in
    (r, {| host_state := e'; calls := calls w ++ [c]; stdout := stdout w |}).

(** A logged host call that cannot fail. *)
Definition host_query {Env A} (c : call) (op : Env -> A * Env) : M Env A :=
  fun w =>
    let '(a, e') := op (host_state w) in
    (Ok a, {| host_state := e'; calls := calls w ++ [c]; stdout := stdout w |}).

(** [print(s)] *)
Definition print {Env} (s : string) : M Env unit :=
  fun w =>
    (Ok tt, {| host_state := host_state w; calls := calls w;
               stdout := stdout w ++ [s] |}).

Notation "'let*' x ':=' c 'in' k" := (bind c (fun x => k))
  (at level 10, x pattern, c at level 100, k at level 200).

(** [for x in xs: acc = body(acc, x)] *)
Fixpoint for_each {Env A B} (xs : list A) (body : B -> A -> M Env B) (acc : B)
  : M Env B :=
  match xs with
  | [] => ret acc
  | x :: xs' => bind (body acc x) (for_each xs' body)
  end.

(** [range(1, n + 1)] *)
Definition range1 (n : Z) : list Z := seqZ 1 n.

(** ** Conversions of what the provider returns *)

(** [float(z)] for an int. *)
Definition float_of_int (z : Z) : res float :=
  match of_int z with
  | Some x => Ok x
  | None => Raise (OverflowError "int too large to convert to float")
  end.

(** [float(x)] for an item of a returned sequence. *)
Definition float_of_item (x : item) : res float :=
  match x with
  | IFloat f => Ok f
  | IInt z => float_of_int z
  | IOther => Raise (TypeError "float() argument must be a string or a real number")
  end.

(** [[float(x) for x in xs]] *)
Fixpoint floats_of_items (xs : list item) : res (list float) :=
  match xs with
  | [] => Ok []
  | x :: xs' =>
      match float_of_item x with
      | Raise e => Raise e
      | Ok f =>
          match floats_of_items xs' with
          | Raise e => Raise e
          | Ok fs => Ok (f :: fs)
          end
      end
  end.

(** Lines 167-175 of [compute_mode]: the returned value as a list of
    floats.  Only the conversion of a sequence is inside a [try]. *)
Definition normalize (rms_values : rms_return) : res (list float) :=
  match rms_values with
  | RmsNone => Ok []
  | RmsInt z =>
      match float_of_int z with
      | Ok x => Ok [x]
      | Raise e => Raise e
      end
  | RmsFloat x => Ok [x]
  | RmsSeq xs =>
      match floats_of_items xs with
      | Ok l => Ok l
      | Raise _ => Ok []
      end
  | RmsOpaque => Ok []
  end.

(** The float [0.0], to which [x >= 0] compares. *)
Definition zero : float := S754_zero false.

(** [[x for x in rms_values if x >= 0]] *)
Definition keep_non_negative (rms_values : list float) : list float :=
  List.filter (fun x => ge x zero) rms_values.

(** ** [summarize] (lines 196-206) *)

Definition summarize (mode_dict : ModeResult) (per_state : gmap Z float)
    (rms_list : list float) (per_state_pairs : gmap Z (list float))
  : res ModeResult :=
  let mode_dict := set_per_state_means mode_dict per_state in
  let mode_dict := set_per_state_pairs mode_dict per_state_pairs in
  let mode_dict := set_all_rms mode_dict rms_list in
  match rms_list with
  | _ :: _ =>
      match Statistics.mean rms_list with
      | Raise e => Raise e
      | Ok m =>
          let mode_dict := set_overall_mean mode_dict m in
          if (1 <? length rms_list)%nat then
            match Statistics.stdev rms_list with
            | Raise e => Raise e
            | Ok sd => Ok (set_overall_sd mode_dict sd)
            end
          else Ok (set_overall_sd mode_dict nan)
      end
  | [] =>
      let mode_dict := set_overall_mean mode_dict nan in
      Ok (set_overall_sd mode_dict nan)
  end.

(** ** [format_report_lines] (lines 212-335) *)

(** [fmt_num] *)
Definition fmt_num (x : float) : string :=
  if negb (isnan x) then format_3f x else "nan".

(** [str(n) if n is not None else "?"] *)
Definition count_str (n : option Z) : string :=
  match n with
  | Some n => str_of_int n
  | None => "?"
  end.

(** [str(selection)] *)
Definition str_of_selection (selection : option string) : string :=
  match selection with
  | Some s => s
  | None => "None"
  end.

(** Line 235. *)
Definition selection_provided (selection : option string) : bool :=
  match selection with
  | None => false
  | Some s =>
      negb (String.eqb (strip s) "")
      && negb (String.eqb (lower (strip s)) "all")
  end.

(** [enumerate(xs, start)] *)
Fixpoint enumerate {A} (start : Z) (xs : list A) : list (Z * A) :=
  match xs with
  | [] => []
  | x :: xs' => (start, x) :: enumerate (start + 1) xs'
  end.

Definition rule60 : string := repeat_char "-" 60.

(** The header of a per-state table (lines 283 and 292). *)
Definition per_state_header : string :=
  rjust 5 "State" +:+ " " +:+ rjust 12 "Mean RMS" +:+ " " +:+ rjust 10 "#pairs".

(** The header of a per-pair table (lines 306 and 317). *)
Definition per_pair_header : string :=
  rjust 7 "Pair #" +:+ " " +:+ rjust 12 "RMS".

(** A row of a per-state table (lines 286-288 and 295-297). *)
Definition per_state_row (mode : ModeResult) (state_idx : Z) : string :=
  let m := default nan (per_state_means mode !! state_idx) in
  let n_pairs := Z.of_nat (length (default [] (per_state_pairs mode !! state_idx))) in
  rjust 5 (str_of_int state_idx) +:+ " " +:+ rjust 12 (fmt_num m)
  +:+ " " +:+ rjust 10 (str_of_int n_pairs).

(** The rows of a per-pair table, or its placeholder (lines 308-313
    and 319-324). *)
Definition per_pair_rows (pairs : list float) : list string :=
  match pairs with
  | _ :: _ =>
      map (fun '(i, val) => rjust 7 (str_of_int i) +:+ " " +:+ rjust 12 (fmt_num val))
          (enumerate 1 pairs)
  | [] => ["   (no pair RMS values)"]
  end.

(** Lines 304-325: the detail of one state. *)
Definition state_detail (result : Result.t) (state_idx : Z) : list string :=
  let all := Result.modes_all result in
  let noh := Result.modes_no_hydrogen result in
  [ "";
    "State " +:+ str_of_int state_idx +:+ " - All atoms (mean = "
      +:+ fmt_num (default nan (per_state_means all !! state_idx)) +:+ ")";
    per_pair_header;
    repeat_char "-" 22 ]
  ++ per_pair_rows (default [] (per_state_pairs all !! state_idx))
  ++ [ "";
       "State " +:+ str_of_int state_idx +:+ " - Heavy atoms (mean = "
         +:+ fmt_num (default nan (per_state_means noh !! state_idx)) +:+ ")";
       per_pair_header;
       repeat_char "-" 22 ]
  ++ per_pair_rows (default [] (per_state_pairs noh !! state_idx))
  ++ [ rule60 ].

(** A row of the summary table (lines 272-274). *)
Definition summary_row (name : string) (natoms : option Z) (mode : ModeResult)
  : string :=
  ljust 16 name +:+ " " +:+ rjust 7 (count_str natoms)
  +:+ " " +:+ rjust 9 (str_of_int (Z.of_nat (length (all_rms mode))))
  +:+ " " +:+ rjust 10 (fmt_num (overall_mean mode))
  +:+ " " +:+ rjust 10 (fmt_num (overall_sd mode)).

Definition format_report_lines (display_level : Z) (selection : option string)
    (base_selection : string) (states : Z) (result : Result.t) : list string :=
  let display_level_str :=
    if display_level =? 0 then "0 (average values only)"
    else if display_level =? 1 then "1 (global average and per-state means included)"
    else "2 (full detail)" in
  [ "";
    "*****************************";
    "* RMS Statistics Calculator *";
    "*****************************";
    "";
    "The level of detail in this report has been set to => " +:+ display_level_str;
    "";
    "############ Data selection ############" ]
  ++ (if negb (selection_provided selection) then
        [ "Note: no explicit selection was provided, so the script selected all atoms in the object.";
          "If you want a subset (for example only chain A), pass a selection string via the 'selection' argument, e.g.: selection='chain A'";
          "It is not necessary to explicitely exlude hydrogen atoms. RMS statistics are calculated both including and excluding hydrogens automatically.";
          "" ]
      else [])
  ++ [ "";
       "xxxxxxxxxxxxxxxxxxxxxxxxxxxxxxxxxxxxxxxx";
       "Resolved selection: " +:+ base_selection;
       "States inspected: " +:+ str_of_int states;
       "Atoms selected:";
       "  All: " +:+ count_str (Result.atom_counts_all result);
       "  Heavy (no H): " +:+ count_str (Result.atom_counts_no_hydrogen result);
       "xxxxxxxxxxxxxxxxxxxxxxxxxxxxxxxxxxxxxxxx";
       "";
       "########################################";
       "";
       "======================== RMS Summary ========================";
       ljust 16 "Mode" +:+ " " +:+ rjust 7 "#atoms" +:+ " " +:+ rjust 9 "#values"
         +:+ " " +:+ rjust 10 "mean" +:+ " " +:+ rjust 10 "sd";
       rule60;
       summary_row "All atoms" (Result.atom_counts_all result) (Result.modes_all result);
       summary_row "Heavy atoms" (Result.atom_counts_no_hydrogen result)
         (Result.modes_no_hydrogen result);
       rule60 ]
  ++ (if 1 <=? display_level then
        [ "Average RMS per state (showing NaN where unavailable):";
          "";
          "All atoms:";
          per_state_header;
          repeat_char "-" 34 ]
        ++ map (per_state_row (Result.modes_all result)) (range1 states)
        ++ [ "";
             "Heavy atoms (no H):";
             per_state_header;
             repeat_char "-" 34 ]
        ++ map (per_state_row (Result.modes_no_hydrogen result)) (range1 states)
        ++ [ rule60 ]
      else [])
  ++ (if 2 <=? display_level then
        [ "Detailed per-state individual pair RMS values:" ]
        ++ concat (map (state_detail result) (range1 states))
      else if display_level =? 0 then
        [ "(Average RMS per state and detailed per-pair output suppressed; set display_level>=1 to enable per-state means or display_level==2 for full detail)" ]
      else if display_level =? 1 then
        [ "(Detailed per-pair output suppressed; set display_level==2 to enable)" ]
      else [])
  ++ [ "========================================================";
       "" ].

(** ** The name of the exported report (lines 349-366) *)

(** [c if c.isalnum() or c in ("-", "_") else "_"] *)
Definition safe_char (c : ascii) : ascii :=
  if isalnum c || Ascii.eqb c "-" || Ascii.eqb c "_" then c else "_"%char.

(** Lines 358-359: [while "__" in s: s = s.replace("__", "_")].  A
    round that finds ["__"] shortens the string, so [fuel] rounds with
    [fuel] the length of the string are enough (see
    [collapse_underscores_done]). *)
Fixpoint collapse_loop (fuel : nat) (s : string) : string :=
  match fuel with
  | O => s
  | S fuel' =>
      if has_double_underscore s
      then collapse_loop fuel' (replace_double_underscore s)
      else s
  end.

Definition collapse_underscores (s : string) : string :=
  collapse_loop (String.length s) s.

(** Line 354. *)
Definition include_sel (sel_str : string) : bool :=
  negb (String.eqb (strip sel_str) "")
  && negb (String.eqb (lower (strip sel_str)) "all").

(** [strftime("%Y%m%d_%H%M%S")]; the year is written with four digits,
    on which the platforms agree from the year 1000 on. *)
Definition strftime (t : datetime) : string :=
  zfill 4 (year t) +:+ zfill 2 (month t) +:+ zfill 2 (day t) +:+ "_"
  +:+ zfill 2 (hour t) +:+ zfill 2 (minute t) +:+ zfill 2 (second t).

Definition report_filename (obj_to_fit : string) (selection : option string)
    (timestamp : string) : string :=
  let safe_obj := map_chars safe_char obj_to_fit in
  let safe_obj := take 30 safe_obj in
  let sel_str := match selection with None => "" | Some s => s end in
  let sel_part :=
    if include_sel sel_str then
      let safe_sel := map_chars safe_char sel_str in
      let safe_sel := collapse_underscores safe_sel in
      let safe_sel := take 40 (strip_underscores safe_sel) in
      "_sel_" +:+ safe_sel
    else "" in
  "rms_report_" +:+ safe_obj +:+ sel_part +:+ "_" +:+ timestamp +:+ ".txt".

(** Lines 69-86. *)
Definition help_lines : list string :=
  [ "";
    "calculate_rms_stats usage:";
    "  calculate_rms_stats(obj_to_fit, selection='all', quiet=False, display_level=1, export_report=False, report_path='.')";
    "";
    "Arguments:";
    "  obj_to_fit   : (required) object name or selection to analyze. If omitted, this help is returned.";
    "  selection    : additional PyMOL selection (default: 'all')";
    "  quiet        : suppress printing when True";
    "  display_level: 0 -> summary only, 1 -> include per-state means, 2 -> full per-pair detail (default 1)";
    "  export_report: write report to file when True (default False)";
    "  report_path  : file path or directory for exported report, defaults to current working directory (default '.')";
    "";
    "Behavior:";
    "  The function computes RMS statistics twice: including all (selected) atoms, and excluding hydrogens.";
    "  Returns a dict with the analysis when run; when called with no obj_to_fit, returns this help:";
    "" ].

(** ** [calculate_rms_stats] *)

Section CalculateRmsStats.

Context {Env : Type} (host : Host Env).

(** [_p] (lines 122-124) *)
Definition _p (quiet : bool) (s : string) : M Env unit :=
  if negb quiet then print s else ret tt.

Definition count_states (obj : string) : M Env Z :=
  host_call (CountStates obj) (cmd_count_states host obj).

Definition count_atoms (sel : string) : M Env Z :=
  host_call (CountAtoms sel) (cmd_count_atoms host sel).

Definition intra_fit (sel : string) (state : Z) : M Env rms_return :=
  host_call (IntraFit sel state) (cmd_intra_fit host sel state).

(** What [compute_mode] accumulates: [per_state_means], [all_rms]
    and [per_state_pairs]. *)
Definition mode_acc : Type := gmap Z float * list float * gmap Z (list float).

(** The body of the loop of [compute_mode] (lines 159-187). *)
Definition compute_state (quiet : bool) (selection_string : string)
    (acc : mode_acc) (state_idx : Z) : M Env mode_acc :=
  let '(per_state_means, all_rms, per_state_pairs) := acc in
  let* r := attempt (intra_fit selection_string state_idx) in
  match r with
  | Raise exc =>
      let* _ := _p quiet ("Warning: intra_fit failed for state "
                          +:+ str_of_int state_idx +:+ " on selection '"
                          +:+ selection_string +:+ "': " +:+ exn_str exc) in
      ret (<[state_idx := nan]> per_state_means, all_rms,
           <[state_idx := []]> per_state_pairs)
  | Ok rms_values =>
      let* rms_values := lift (normalize rms_values) in
      let rms_filtered := keep_non_negative rms_values in
      let per_state_pairs := <[state_idx := rms_filtered]> per_state_pairs in
      match rms_filtered with
      | _ :: _ =>
          let* m := lift (Statistics.mean rms_filtered) in
          ret (<[state_idx := m]> per_state_means, all_rms ++ rms_filtered,
               per_state_pairs)
      | [] =>
          ret (<[state_idx := nan]> per_state_means, all_rms, per_state_pairs)
      end
  end.

(** [compute_mode] (lines 153-189) *)
Definition compute_mode (quiet : bool) (states : Z) (selection_string : string)
  : M Env mode_acc :=
  for_each (range1 states) (compute_state quiet selection_string) (∅, [], ∅).

(** Lines 347-370: the path of the file to write. *)
Definition report_file_path (obj_to_fit : string) (selection : option string)
    (report_path : string) : M Env string :=
  let target := report_path in
  let* there := host_call (PathExists target) (path_exists host target) in
  let* is_dir :=
    if there : bool
    then host_call (PathIsDir target) (path_is_dir host target)
    else ret false in
  if is_dir : bool then
    let* now := host_query DatetimeNow (datetime_now host) in
    let filename := report_filename obj_to_fit selection (strftime now) in
    ret (path_join host target filename)
  else ret target.

(** The [try] block of the export (lines 347-379); it yields the
    resolved path of the file written. *)
Definition write_report (quiet : bool) (obj_to_fit : string)
    (selection : option string) (report_path : string)
    (report_lines : list string) : M Env string :=
  let* file_path := report_file_path obj_to_fit selection report_path in
  let parent := path_parent host file_path in
  let* parent_there := host_call (PathExists parent) (path_exists host parent) in
  let* _ :=
    if negb parent_there
    then host_call (PathMkdir parent) (path_mkdir host parent)
    else ret tt in
  let content := join nl report_lines +:+ nl in
  let* _ := host_call (PathWriteText file_path content)
                      (path_write_text host file_path content) in
  let* resolved := host_call (PathResolve file_path) (path_resolve host file_path) in
  let* _ :=
    if negb quiet
    then _p quiet ("Report exported to: " +:+ resolved)
    else ret tt in
  ret resolved.

(** Lines 345-387: the export, or the hint on how to ask for it. *)
Definition export_or_hint (quiet export_report : bool) (obj_to_fit : string)
    (selection : option string) (report_path : string)
    (report_lines : list string) (result : Result.t) : M Env Result.t :=
  if export_report then
    let* r := attempt (write_report quiet obj_to_fit selection report_path
                                    report_lines) in
    match r with
    | Ok resolved => ret (Result.set_report_file result (Some resolved))
    | Raise exc =>
        let err := "Failed to write report to '" +:+ report_path +:+ "': "
                   +:+ exn_str exc in
        let result :=
          Result.set_error result
            (Some match Result.error result with
                  | None => err
                  | Some e => e +:+ "; " +:+ err
                  end) in
        let* _ := _p quiet err in
        ret result
    end
  else
    let* _ := _p quiet "To export the report to a file, set export_report=True" in
    let* _ := _p quiet "Set a specified path with the 'report_path' argument." in
    let* cwd := host_call OsGetcwd (os_getcwd host) in
    let* _ := _p quiet ("In absence of a specified path, the report will be saved in the current working directory: " +:+ cwd) in
    ret result.

(** [display_level in (0, 1, 2)] *)
Definition valid_display_level (display_level : Z) : bool :=
  (display_level =? 0) || (display_level =? 1) || (display_level =? 2).

(** Lines 141-151: one atom count, [None] when the query fails. *)
Definition try_count_atoms (quiet : bool) (sel : string) : M Env (option Z) :=
  let* r := attempt (count_atoms sel) in
  match r with
  | Ok n => ret (Some n)
  | Raise exc =>
      let* _ := _p quiet ("Warning: failed to count atoms for selection '"
                          +:+ sel +:+ "': " +:+ exn_str exc) in
      ret None
  end.

Definition calculate_rms_stats (obj_to_fit : option string)
    (selection : option string) (quiet : bool) (display_level : Z)
    (export_report : bool) (report_path : string) : M Env retval :=
  match obj_to_fit with
  | None =>
      let help_text := join nl help_lines in
      let* _ := if negb quiet then print help_text else ret tt in
      ret (Help help_text)
  | Some obj =>
      if negb (valid_display_level display_level) then
        raise (ValueError "display_level must be 0, 1, or 2")
      else
        let result := initial_result in
        let base_selection :=
          "(" +:+ obj +:+ ") and (" +:+ str_of_selection selection +:+ ")" in
        let result := Result.set_selection result (Some base_selection) in
        let* r := attempt (count_states obj) in
        match r with
        | Raise exc =>
            let err := "Failed to determine states for '" +:+ obj +:+ "': "
                       +:+ exn_str exc in
            let result := Result.set_error result (Some err) in
            let* _ := _p quiet err in
            ret (Analysis result)
        | Ok states =>
            let result := Result.set_states result states in
            let sel_all := base_selection in
            let sel_no_h := base_selection +:+ " and (not hydro)" in
            let* n_all := try_count_atoms quiet sel_all in
            let result := Result.set_atom_counts_all result n_all in
            let* n_no_h := try_count_atoms quiet sel_no_h in
            let result := Result.set_atom_counts_no_hydrogen result n_no_h in
            let* (per_all, all_rms_all, per_pairs_all) :=
              compute_mode quiet states sel_all in
            let* (per_no_h, all_rms_no_h, per_pairs_no_h) :=
              compute_mode quiet states sel_no_h in
            let* m_all := lift (summarize (Result.modes_all result) per_all
                                          all_rms_all per_pairs_all) in
            let result := Result.set_modes_all result m_all in
            let* m_no_h := lift (summarize (Result.modes_no_hydrogen result)
                                           per_no_h all_rms_no_h per_pairs_no_h) in
            let result := Result.set_modes_no_hydrogen result m_no_h in
            let report_lines :=
              format_report_lines display_level selection base_selection
                                  states result in
            let* _ := for_each report_lines (fun _ ln => _p quiet ln) tt in
            let* result := export_or_hint quiet export_report obj selection
                                          report_path report_lines result in
            ret (Analysis result)
        end
  end.

End CalculateRmsStats.


(** ** A scripted host, for running the model *)

(** The directory part of a path written with [/]. *)
Fixpoint dirname_aux (s : string) : option string :=
  match s with
  | EmptyString => None
  | String c r =>
      match dirname_aux r with
      | Some d => Some (String c d)
      | None => if Ascii.eqb c "/" then Some EmptyString else None
      end
  end.

Definition dirname (s : string) : string :=
  match dirname_aux s with
  | Some EmptyString => "/"
  | Some d => d
  | None => "."
  end.

(** A host without state: the answers are fixed functions of the
    arguments, the paths in [dirs] are the existing directories, no
    other path exists, writing a file gives [write], and the clock
    stands still. *)
Definition scripted_host (n_states : res Z) (n_atoms : string -> res Z)
    (rms : string -> Z -> res rms_return) (dirs : list string)
    (write : res unit) (now : datetime) : Host unit :=
  {| cmd_count_states := fun _ e => (n_states, e);
     cmd_count_atoms := fun sel e => (n_atoms sel, e);
     cmd_intra_fit := fun sel i e => (rms sel i, e);
     path_exists := fun p e => (Ok (existsb (String.eqb p) dirs), e);
     path_is_dir := fun p e => (Ok (existsb (String.eqb p) dirs), e);
     path_join := fun d f => d +:+ "/" +:+ f;
     path_parent := dirname;
     path_mkdir := fun _ e => (Ok tt, e);
     path_write_text := fun _ _ e => (write, e);
     path_resolve := fun p e => (Ok ("/home/user/" +:+ p), e);
     datetime_now := fun e => (now, e);
     os_getcwd := fun e => (Ok "/home/user", e) |}.

(** The world before a run: nothing called, nothing printed. *)
Definition start : world unit :=
  {| host_state := tt; calls := []; stdout := [] |}.

(** 7 March 2024, 09:05:00. *)
Definition demo_now : datetime :=
  {| year := 2024; month := 3; day := 7; hour := 9; minute := 5; second := 0 |}.

(** The floats [1.0], [1.5], [2.0], [3.0] and [-1.0]. *)
Definition f1_0 : float := lit 1 0.
Definition f1_5 : float := lit 3 (-1).
Definition f2_0 : float := lit 2 0.
Definition f3_0 : float := lit 3 0.
Definition fm1_0 : float := lit (-1) 0.

(** A provider for three states: two pairs, none, one pair. *)
Definition demo_rms (sel : string) (state_idx : Z) : res rms_return :=
  if state_idx =? 1 then Ok (RmsSeq [IFloat f1_0; IFloat f2_0])
  else if state_idx =? 2 then Ok (RmsSeq [])
  else Ok (RmsSeq [IFloat f3_0]).

Definition demo_host : Host unit :=
  scripted_host (Ok 3) (fun _ => Ok 42) demo_rms ["reports"] (Ok tt) demo_now.

(** A provider whose first state holds a negative value between two
    valid ones, and whose second state is a lone negative number. *)
Definition negative_rms (sel : string) (state_idx : Z) : res rms_return :=
  if state_idx =? 1 then Ok (RmsSeq [IFloat f1_0; IFloat fm1_0; IFloat f2_0])
  else Ok (RmsFloat fm1_0).

Definition negative_host : Host unit :=
  scripted_host (Ok 2) (fun _ => Ok 42) negative_rms ["reports"] (Ok tt)
                demo_now.

(** A host whose state count fails. *)
Definition failing_host : Host unit :=
  scripted_host (Raise (HostError "Invalid object")) (fun _ => Ok 42)
                demo_rms ["reports"] (Ok tt) demo_now.

(** A provider that fails on state 2. *)
Definition flaky_rms (sel : string) (state_idx : Z) : res rms_return :=
  if state_idx =? 2 then Raise (HostError "fit failed")
  else demo_rms sel state_idx.

(** A host that counts three states and then fails wherever it can: no
    atom count, no RMS for state 2, no room on the disk. *)
Definition flaky_host : Host unit :=
  scripted_host (Ok 3) (fun _ => Raise (HostError "Invalid selection"))
                flaky_rms ["reports"]
                (Raise (HostError "No space left on device")) demo_now.

(** ** Specification vocabulary *)

(** What [compute_mode] records for one state: the pairs kept are all
    [>= 0], and the mean is [statistics.mean] of them, or NaN when there
    are none. *)
Definition state_entry (m : float) (pairs : list float) : Prop :=
  Forall (fun x => ge x zero = true) pairs
  /\ (pairs = [] -> m = nan)
  /\ (pairs <> [] -> Statistics.mean pairs = Ok m).

(** The shape of [result["modes"][mode]] after [states] states: every
    state from 1 to [states] has its entry, no other state has one,
    [all_rms] is the per-state pairs in ascending state order, and the
    overall figures are those of [summarize]. *)
Definition aggregated (states : Z) (m : ModeResult) : Prop :=
  all_rms m
  = concat (map (fun s => default [] (per_state_pairs m !! s)) (range1 states))
  /\ (forall k, k ∈ range1 states ->
        exists mk pk, per_state_means m !! k = Some mk
                      /\ per_state_pairs m !! k = Some pk
                      /\ state_entry mk pk)
  /\ (forall k, k ∉ range1 states ->
        per_state_means m !! k = None /\ per_state_pairs m !! k = None)
  /\ (all_rms m = [] -> overall_mean m = nan /\ overall_sd m = nan)
  /\ (all_rms m <> [] -> Statistics.mean (all_rms m) = Ok (overall_mean m))
  /\ ((2 <= length (all_rms m))%nat ->
      Statistics.stdev (all_rms m) = Ok (overall_sd m))
  /\ ((length (all_rms m) < 2)%nat -> overall_sd m = nan).

(** The resolved selection string (line 119). *)
Definition base_selection_of (obj : string) (selection : option string) : string :=
  "(" +:+ obj +:+ ") and (" +:+ str_of_selection selection +:+ ")".

(** The result returned when the state count fails (lines 128-132). *)
Definition failed_result (obj : string) (selection : option string) (exc : exn)
  : Result.t :=
  Result.set_error
    (Result.set_selection initial_result (Some (base_selection_of obj selection)))
    (Some ("Failed to determine states for '" +:+ obj +:+ "': " +:+ exn_str exc)).

(** The sum of a list of fractions. *)
Definition Qsum (l : list Q) : Q := fold_right Qplus 0%Q l.

(** The arithmetic mean of finite data, as an exact fraction: the sum of
    the values over their number. *)
Definition arithmetic_mean (data : list float) : Q :=
  (Qsum (map exact data) / inject_Z (Z.of_nat (length data)))%Q.

(** The sample variance of finite data, as an exact fraction: the sum
    of the squared deviations from the mean over [N - 1]. *)
Definition sample_variance (data : list float) : Q :=
  (Qsum (map (fun x => (exact x - arithmetic_mean data)
                       * (exact x - arithmetic_mean data)) data)
   / (inject_Z (Z.of_nat (length data)) - 1))%Q.

(** [float(x)] succeeds on the item and gives a value strictly below
    zero. *)
Definition is_negative_item (x : item) : bool :=
  match float_of_item x with
  | Ok f => lt f zero
  | Raise _ => false
  end.

(** A returned value with its strictly negative RMS values taken out. *)
Definition drop_negatives (r : rms_return) : rms_return :=
  match r with
  | RmsSeq xs => RmsSeq (List.filter (fun x => negb (is_negative_item x)) xs)
  | RmsFloat x => if lt x zero then RmsNone else r
  | RmsInt z => if is_negative_item (IInt z) then RmsNone else r
  | _ => r
  end.

(** The host whose RMS provider hands back what [host]'s does, minus
    the strictly negative values. *)
Definition without_negatives {Env : Type} (host : Host Env) : Host Env :=
  {| cmd_count_states := cmd_count_states host;
     cmd_count_atoms := cmd_count_atoms host;
     cmd_intra_fit := fun sel i e =>
       let '(r, e') := cmd_intra_fit host sel i e in
       (match r with
        | Ok v => Ok (drop_negatives v)
        | Raise exc => Raise exc
        end, e');
     path_exists := path_exists host;
     path_is_dir := path_is_dir host;
     path_join := path_join host;
     path_parent := path_parent host;
     path_mkdir := path_mkdir host;
     path_write_text := path_write_text host;
     path_resolve := path_resolve host;
     datetime_now := datetime_now host;
     os_getcwd := os_getcwd host |}.

(** The demonstration run: three states, level 1, no export, quiet. *)
Definition demo_run : res retval * world unit :=
  calculate_rms_stats demo_host (Some "1A1T") (Some "all") true 1 false "." start.

Definition demo_result : Result.t :=
  match fst demo_run with
  | Ok (Analysis r) => r
  | _ => initial_result
  end.

(** A returned value from which no library call downstream raises: an
    int that fits a float, and no positive infinity among the floats
    (on which [statistics.stdev] fails). *)
Definition is_pos_inf (x : float) : bool :=
  match x with
  | S754_infinity false => true
  | _ => false
  end.

Definition tame_item (x : item) : bool :=
  match x with
  | IFloat f => negb (is_pos_inf f)
  | _ => true
  end.

Definition tame_return (v : rms_return) : bool :=
  match v with
  | RmsInt z => match of_int z with Some _ => true | None => false end
  | RmsFloat x => negb (is_pos_inf x)
  | RmsSeq xs => forallb tame_item xs
  | _ => true
  end.

(** The provider of [host] only ever returns tame values.  It may
    still raise. *)
Definition tame_provider {Env : Type} (host : Host Env) : Prop :=
  forall sel i e v e',
    cmd_intra_fit host sel i e = (Ok v, e') -> tame_return v = true.

(** [os.getcwd()] succeeds in every state of the host. *)
Definition getcwd_succeeds {Env : Type} (host : Host Env) : Prop :=
  forall e, exists cwd e', os_getcwd host e = (Ok cwd, e').

(** Two worlds that differ in the console at most. *)
Definition same_effects {Env : Type} (w1 w2 : world Env) : Prop :=
  host_state w1 = host_state w2 /\ calls w1 = calls w2.

(** Two computations that, from such worlds, have the same outcome and
    lead to such worlds again. *)
Definition console_apart {Env A : Type} (c1 c2 : M Env A) : Prop :=
  forall w1 w2, same_effects w1 w2 ->
    fst (c1 w1) = fst (c2 w2) /\ same_effects (snd (c1 w1)) (snd (c2 w2)).

(** A computation that leaves the console as it found it. *)
Definition silent {Env A : Type} (c : M Env A) : Prop :=
  forall w, stdout (snd (c w)) = stdout w.

(** ** The file name in the spec's words *)

(** A character of the class [[A-Za-z0-9_-]]. *)
Definition in_safe_class (c : ascii) : bool :=
  let n := code c in
  between 48 57 n || between 65 90 n || between 97 122 n
  || (n =? 95) || (n =? 45).

(** Every character outside [[A-Za-z0-9_-]] replaced by an underscore. *)
Definition spec_sanitize (s : string) : string :=
  map_chars (fun c => if in_safe_class c then c else "_"%char) s.

(** Consecutive underscores collapsed into one, in a single pass: an
    underscore that another underscore follows is dropped. *)
Fixpoint spec_collapse (s : string) : string :=
  match s with
  | EmptyString => EmptyString
  | String c r =>
      match r with
      | EmptyString => String c EmptyString
      | String d _ =>
          if is_underscore c && is_underscore d
          then spec_collapse r
          else String c (spec_collapse r)
      end
  end.

(** The string begins with an underscore. *)
Definition starts_with_underscore (s : string) : bool :=
  match s with
  | String c _ => is_underscore c
  | EmptyString => false
  end.

(** The file name as the spec words it. *)
Definition spec_report_filename (obj_to_fit : string) (selection : option string)
    (timestamp : string) : string :=
  let sel_str := match selection with None => "" | Some s => s end in
  "rms_report_" +:+ take 30 (spec_sanitize obj_to_fit)
  +:+ (if include_sel sel_str
       then "_sel_" +:+ take 40 (strip_underscores
                                   (spec_collapse (spec_sanitize sel_str)))
       else "")
  +:+ "_" +:+ timestamp +:+ ".txt".

(** Every character is below U+0080. *)
Fixpoint ascii_only (s : string) : bool :=
  match s with
  | EmptyString => true
  | String c r => (code c <? 128) && ascii_only r
  end.

Definition is_digit (c : ascii) : bool := between 48 57 (code c).

(** Two decimal digits. *)
Definition two_digits (s : string) : bool :=
  match s with
  | String a (String b EmptyString) => is_digit a && is_digit b
  | _ => false
  end.

(** Four decimal digits. *)
Definition four_digits (s : string) : bool :=
  match s with
  | String a (String b (String c (String d EmptyString))) =>
      is_digit a && is_digit b && is_digit c && is_digit d
  | _ => false
  end.

(** The shape [YYYYMMDD_HHMMSS]: eight digits, an underscore, six
    digits. *)
Definition timestamp_shape (s : string) : bool :=
  four_digits (substring 0 4 s) && two_digits (substring 4 2 s)
  && two_digits (substring 6 2 s) && String.eqb (substring 8 1 s) "_"
  && two_digits (substring 9 2 s) && two_digits (substring 11 2 s)
  && two_digits (substring 13 2 s) && (String.length s =? 15)%nat.

(** A date and time of the years 1000 to 9999. *)
Definition valid_datetime (t : datetime) : Prop :=
  1000 <= year t <= 9999 /\ 1 <= month t <= 12 /\ 1 <= day t <= 31
  /\ 0 <= hour t <= 23 /\ 0 <= minute t <= 59 /\ 0 <= second t <= 59.

(** The object name [e-acute], one character, U+00E9. *)
Definition e_acute : string := String "233" EmptyString.

(** ** The parts of a report *)

(** Line 230: the line that names the level of detail. *)
Definition level_line (display_level : Z) : string :=
  "The level of detail in this report has been set to => "
  +:+ (if display_level =? 0 then "0 (average values only)"
       else if display_level =? 1
            then "1 (global average and per-state means included)"
            else "2 (full detail)").

(** Lines 218-232: the banner, the level line and the title of the
    selection block. *)
Definition report_opening (display_level : Z) : list string :=
  [ "";
    "*****************************";
    "* RMS Statistics Calculator *";
    "*****************************";
    "";
    level_line display_level;
    "";
    "############ Data selection ############" ].

(** Lines 239-276: the note on a trivial selection, the metadata and
    the summary table.  The level of detail does not occur in it. *)
Definition report_body (selection : option string) (base_selection : string)
    (states : Z) (result : Result.t) : list string :=
  (if negb (selection_provided selection) then
     [ "Note: no explicit selection was provided, so the script selected all atoms in the object.";
       "If you want a subset (for example only chain A), pass a selection string via the 'selection' argument, e.g.: selection='chain A'";
       "It is not necessary to explicitely exlude hydrogen atoms. RMS statistics are calculated both including and excluding hydrogens automatically.";
       "" ]
   else [])
  ++ [ "";
       "xxxxxxxxxxxxxxxxxxxxxxxxxxxxxxxxxxxxxxxx";
       "Resolved selection: " +:+ base_selection;
       "States inspected: " +:+ str_of_int states;
       "Atoms selected:";
       "  All: " +:+ count_str (Result.atom_counts_all result);
       "  Heavy (no H): " +:+ count_str (Result.atom_counts_no_hydrogen result);
       "xxxxxxxxxxxxxxxxxxxxxxxxxxxxxxxxxxxxxxxx";
       "";
       "########################################";
       "";
       "======================== RMS Summary ========================";
       ljust 16 "Mode" +:+ " " +:+ rjust 7 "#atoms" +:+ " " +:+ rjust 9 "#values"
         +:+ " " +:+ rjust 10 "mean" +:+ " " +:+ rjust 10 "sd";
       rule60;
       summary_row "All atoms" (Result.atom_counts_all result) (Result.modes_all result);
       summary_row "Heavy atoms" (Result.atom_counts_no_hydrogen result)
         (Result.modes_no_hydrogen result);
       rule60 ].

(** A per-state table: its title, its header, a rule, and one row per
    state from 1 to [states]. *)
Definition per_state_table (title : string) (mode : ModeResult) (states : Z)
  : list string :=
  [ title; per_state_header; repeat_char "-" 34 ]
  ++ map (per_state_row mode) (range1 states).

(** Lines 280-298: the two per-state tables, one per mode. *)
Definition per_state_block (states : Z) (result : Result.t) : list string :=
  [ "Average RMS per state (showing NaN where unavailable):"; "" ]
  ++ per_state_table "All atoms:" (Result.modes_all result) states
  ++ [ "" ]
  ++ per_state_table "Heavy atoms (no H):" (Result.modes_no_hydrogen result) states
  ++ [ rule60 ].

(** Lines 302-325: the per-pair detail of every state. *)
Definition detail_block (states : Z) (result : Result.t) : list string :=
  [ "Detailed per-state individual pair RMS values:" ]
  ++ concat (map (state_detail result) (range1 states)).

(** Lines 328 and 330: what levels 0 and 1 say instead of the detail. *)
Definition note_level_0 : string :=
  "(Average RMS per state and detailed per-pair output suppressed; set display_level>=1 to enable per-state means or display_level==2 for full detail)".
Definition note_level_1 : string :=
  "(Detailed per-pair output suppressed; set display_level==2 to enable)".

(** Lines 332-333. *)
Definition report_closing : list string :=
  [ "========================================================"; "" ].

(** How often a line occurs among lines. *)
Definition count_lines (x : string) (lines : list string) : nat :=
  length (List.filter (String.eqb x) lines).

(** The characters of [str(z)]: digits and the minus sign. *)
Definition is_int_char (c : ascii) : bool := is_digit c || Ascii.eqb c "-".

(** The characters of a right-justified int: those, and the blank. *)
Definition is_number_char (c : ascii) : bool :=
  is_int_char c || Ascii.eqb c " ".

Fixpoint all_chars (p : ascii -> bool) (s : string) : bool :=
  match s with
  | EmptyString => true
  | String c r => p c && all_chars p r
  end.

(** The level-0 and level-1 reports of a run that found no state. *)
Definition empty_report (display_level : Z) : list string :=
  format_report_lines display_level (Some "all") "(1A1T) and (all)" 0
                      initial_result.

(** ** Hosts on which a later failure escapes *)

(** [host] with a working directory that is gone: [os.getcwd()] raises
    [exc]. *)
Definition without_cwd {Env : Type} (host : Host Env) (exc : exn) : Host Env :=
  {| cmd_count_states := cmd_count_states host;
     cmd_count_atoms := cmd_count_atoms host;
     cmd_intra_fit := cmd_intra_fit host;
     path_exists := path_exists host;
     path_is_dir := path_is_dir host;
     path_join := path_join host;
     path_parent := path_parent host;
     path_mkdir := path_mkdir host;
     path_write_text := path_write_text host;
     path_resolve := path_resolve host;
     datetime_now := datetime_now host;
     os_getcwd := fun e => (Raise exc, e) |}.

(** The demonstration host, started in a directory that was removed
    since. *)
Definition no_cwd_host : Host unit :=
  without_cwd demo_host (HostError "[Errno 2] No such file or directory").

(** A provider that returns, as a bare number, an int beyond the range
    of a float. *)
Definition huge_host : Host unit :=
  scripted_host (Ok 1) (fun _ => Ok 42) (fun _ _ => Ok (RmsInt (2 ^ 1024)))
                ["reports"] (Ok tt) demo_now.

(** [float("inf")] *)
Definition inf : float := S754_infinity false.

(** A provider that returns the bare number [inf] for each of two
    states. *)
Definition infinite_host : Host unit :=
  scripted_host (Ok 2) (fun _ => Ok 42) (fun _ _ => Ok (RmsFloat inf))
                ["reports"] (Ok tt) demo_now.

(** ** The footprint of a run *)

(** A call to PyMOL's [cmd]. *)
Definition is_cmd_call (c : call) : bool :=
  match c with
  | CountStates _ | CountAtoms _ | IntraFit _ _ => true
  | _ => false
  end.

(** A call that reaches the file system or the clock. *)
Definition touches_files (c : call) : bool :=
  match c with
  | PathExists _ | PathIsDir _ | PathMkdir _ | PathWriteText _ _
  | PathResolve _ | DatetimeNow => true
  | _ => false
  end.

(** Whatever its outcome, the computation keeps what a list [field] of
    the world held (the log of calls, or the console) and appends
    entries of the class [P] only. *)
Definition appends {Env A X : Type} (field : world Env -> list X)
    (P : X -> Prop) (c : M Env A) : Prop :=
  forall w, exists t, field (snd (c w)) = field w ++ t /\ Forall P t.

(** The result as it stands when the report is formatted (line 338):
    everything but [report_file] and [error], which the export sets. *)
Definition result_before_export (sel_all : string) (states : Z)
    (n_all n_no_h : option Z) (m_all m_no_h : ModeResult) : Result.t :=
  {| Result.modes_all := m_all;
     Result.modes_no_hydrogen := m_no_h;
     Result.selection := Some sel_all;
     Result.atom_counts_all := n_all;
     Result.atom_counts_no_hydrogen := n_no_h;
     Result.states := states;
     Result.report_file := None;
     Result.error := None |}.

(** The world after the report was sent to [_p] line by line. *)
Definition after_report {Env : Type} (quiet : bool) (lines : list string)
    (w : world Env) : world Env :=
  {| host_state := host_state w; calls := calls w;
     stdout := if quiet then stdout w else stdout w ++ lines |}.

(** The call that writes a file. *)
Definition is_write (c : call) : bool :=
  match c with
  | PathWriteText _ _ => true
  | _ => false
  end.

(** What the export may write: the given content, at the destination
    itself or at a report name inside it. *)
Definition writes_report_at {Env : Type} (host : Host Env) (obj : string)
    (selection : option string) (report_path content : string) (c : call)
  : Prop :=
  match c with
  | PathWriteText p text =>
      text = content
      /\ (p = report_path
          \/ exists now : datetime,
               p = path_join host report_path
                     (report_filename obj selection (strftime now)))
  | _ => True
  end.

(** A run with export: level 2, the selection [chain A], the existing
    directory [reports], not quiet. *)
Definition export_demo_run : res retval * world unit :=
  calculate_rms_stats demo_host (Some "1A1T") (Some "chain A") false 2 true
                      "reports" start.

Definition export_demo_result : Result.t :=
  match fst export_demo_run with
  | Ok (Analysis r) => r
  | _ => initial_result
  end.

(** The same on the host that fails wherever it can. *)
Definition flaky_demo_run : res retval * world unit :=
  calculate_rms_stats flaky_host (Some "1A1T") (Some "all") false 1 true
                      "reports" start.

Definition flaky_demo_result : Result.t :=
  match fst flaky_demo_run with
  | Ok (Analysis r) => r
  | _ => initial_result
  end.

(** A host that finds no state. *)
Definition stateless_host : Host unit :=
  scripted_host (Ok 0) (fun _ => Ok 0) demo_rms ["reports"] (Ok tt) demo_now.

Definition stateless_run : res retval * world unit :=
  calculate_rms_stats stateless_host (Some "empty") None true 1 false "." start.

Definition stateless_result : Result.t :=
  match fst stateless_run with
  | Ok (Analysis r) => r
  | _ => initial_result
  end.

(** ** Vocabulary for the file name *)

(** The characters an export file name is made of: what [str.isalnum]
    accepts, the hyphen, the underscore and the dot. *)
Definition is_filename_char (c : ascii) : bool :=
  isalnum c || Ascii.eqb c "-" || Ascii.eqb c "_" || Ascii.eqb c ".".

(** A path separator or a white space character. *)
Definition is_separator_or_space (c : ascii) : bool :=
  Ascii.eqb c "/" || Ascii.eqb c "\" || isspace c.

(** The string ends with an underscore. *)
Fixpoint ends_with_underscore (s : string) : bool :=
  match s with
  | EmptyString => false
  | String c EmptyString => is_underscore c
  | String _ r => ends_with_underscore r
  end.

(** Line 240: the first line of the note on a missing selection. *)
Definition selection_note : string :=
  "Note: no explicit selection was provided, so the script selected all atoms in the object.".

(** ** Vocabulary for what the provider returns *)

(** [float(x)] raises on the item. *)
Definition rejected_by_float (x : item) : bool :=
  match float_of_item x with
  | Raise _ => true
  | Ok _ => false
  end.

(** A provider whose one state holds an item that is no number between
    two valid values. *)
Definition mixed_host : Host unit :=
  scripted_host (Ok 1) (fun _ => Ok 42)
                (fun _ _ => Ok (RmsSeq [IFloat f1_0; IOther; IFloat f2_0]))
                ["reports"] (Ok tt) demo_now.

(** * Properties *)

(** ** The help branch and the validation of [display_level] *)

(** C9.  Without an object ([obj_to_fit = None]) the function returns
    the help dictionary, whatever [display_level] and the other arguments
    are: it does not raise, it calls nothing of the host, and it prints
    the help text exactly when [quiet] is false. *)
Theorem help_before_validation :
  forall (Env : Type) (host : Host Env) (selection : option string)
         (quiet : bool) (display_level : Z) (export_report : bool)
         (report_path : string) (w : world Env),
    calculate_rms_stats host None selection quiet display_level
                        export_report report_path w
    = (Ok (Help (join nl help_lines)),
       {| host_state := host_state w;
          calls := calls w;
          stdout := if quiet then stdout w
                    else stdout w ++ [join nl help_lines] |}).
Proof.
  intros Env host selection quiet display_level export_report report_path w.
  unfold calculate_rms_stats, bind.
  destruct quiet, w; reflexivity.
Qed.

(** C6, amended.  With an object given and [display_level] outside
    {0, 1, 2} the function raises [ValueError] at once: the world is
    unchanged, so no host operation was called and nothing was printed. *)
Theorem invalid_display_level_raises :
  forall (Env : Type) (host : Host Env) (obj : string)
         (selection : option string) (quiet : bool) (display_level : Z)
         (export_report : bool) (report_path : string) (w : world Env),
    display_level <> 0 -> display_level <> 1 -> display_level <> 2 ->
    calculate_rms_stats host (Some obj) selection quiet display_level
                        export_report report_path w
    = (Raise (ValueError "display_level must be 0, 1, or 2"), w).
Proof.
  intros Env host obj selection quiet display_level export_report
         report_path w H0 H1 H2.
  unfold calculate_rms_stats, valid_display_level.
  apply Z.eqb_neq in H0, H1, H2.
  rewrite H0, H1, H2. reflexivity.
Qed.

(** Witness of [invalid_display_level_raises]: [display_level = 3] on
    the demonstration host. *)
Lemma invalid_display_level_raises_witness :
  calculate_rms_stats demo_host (Some "1A1T") (Some "all") false 3 false "." start
  = (Raise (ValueError "display_level must be 0, 1, or 2"), start).
Proof.
  apply (invalid_display_level_raises unit demo_host "1A1T" (Some "all")
           false 3 false "." start); lia.
Defined.

(** C6 as stated fails: [display_level = 3] is outside {0, 1, 2}, yet
    the call without an object does not raise; it returns the help. *)
Lemma invalid_display_level_counterexample :
  ~ (exists e : exn,
        fst (calculate_rms_stats demo_host None (Some "all") true 3 false "." start)
        = Raise e).
Proof.
  intros [e He]. vm_compute in He. discriminate He.
Qed.

(** ** Running the monad *)

Section RunLemmas.

Context {Env : Type}.

Lemma bind_inv {A B : Type} (c : M Env A) (k : A -> M Env B) w b w' :
  bind c k w = (Ok b, w') ->
  exists a w1, c w = (Ok a, w1) /\ k a w1 = (Ok b, w').
Proof.
  unfold bind. destruct (c w) as [[a|e] w1]; intros H.
  - exists a, w1. split; [reflexivity | exact H].
  - discriminate H.
Qed.

Lemma bind_ok {A B : Type} (c : M Env A) (k : A -> M Env B) w a w1 :
  c w = (Ok a, w1) -> bind c k w = k a w1.
Proof. unfold bind. intros ->. reflexivity. Qed.

Lemma bind_raise {A B : Type} (c : M Env A) (k : A -> M Env B) w e w1 :
  c w = (Raise e, w1) -> bind c k w = (Raise e, w1).
Proof. unfold bind. intros ->. reflexivity. Qed.

Lemma attempt_run {A : Type} (c : M Env A) w :
  attempt c w = (Ok (fst (c w)), snd (c w)).
Proof. unfold attempt. destruct (c w); reflexivity. Qed.

Lemma lift_inv {A : Type} (r : res A) (w : world Env) a w' :
  lift r w = (Ok a, w') -> r = Ok a /\ w' = w.
Proof. unfold lift. intros H. inversion H. split; reflexivity. Qed.

Lemma ret_inv {A : Type} (a b : A) (w w' : world Env) :
  ret a w = (Ok b, w') -> b = a /\ w' = w.
Proof. unfold ret. intros H. inversion H. split; reflexivity. Qed.

(** [_p] never raises; it touches the console only, and only when not
    quiet. *)
Lemma _p_run (quiet : bool) (s : string) (w : world Env) :
  _p quiet s w
  = (Ok tt, {| host_state := host_state w; calls := calls w;
               stdout := if quiet then stdout w else stdout w ++ [s] |}).
Proof. unfold _p, print, ret. destruct quiet, w; reflexivity. Qed.

End RunLemmas.

(** ** The per-state loop of [compute_mode] *)

Lemma keep_non_negative_Forall (l : list float) :
  Forall (fun x => ge x zero = true) (keep_non_negative l).
Proof.
  unfold keep_non_negative. apply List.Forall_forall.
  intros x Hx. apply List.filter_In in Hx. tauto.
Qed.

Section ComputeMode.

Context {Env : Type} (host : Host Env).

(** One round of the loop: the state gets its entry in both maps, and
    its pairs are appended to [all_rms]. *)
Lemma compute_state_ok quiet sel m a p k w m' a' p' w' :
  compute_state host quiet sel (m, a, p) k w = (Ok (m', a', p'), w') ->
  exists mk pk,
    m' = <[k := mk]> m /\ p' = <[k := pk]> p /\ a' = a ++ pk
    /\ state_entry mk pk.
Proof.
  unfold compute_state. intros H.
  apply bind_inv in H as (r & w1 & Hr & H).
  destruct r as [rms_values | exc].
  - apply bind_inv in H as (vals & w2 & Hv & H).
    pose proof (keep_non_negative_Forall vals) as Hall.
    destruct (keep_non_negative vals) as [|x l] eqn:Hf.
    + apply ret_inv in H as [H _]. inversion H; subst.
      exists nan, []. rewrite List.app_nil_r.
      repeat split; try reflexivity; [constructor | congruence].
    + apply bind_inv in H as (mk & w3 & Hm & H).
      apply lift_inv in Hm as [Hm _].
      apply ret_inv in H as [H _]. inversion H; subst.
      exists mk, (x :: l).
      repeat split; try reflexivity; [exact Hall | discriminate | intros _; exact Hm].
  - apply bind_inv in H as (u & w2 & _ & H).
    apply ret_inv in H as [H _]. inversion H; subst.
    exists nan, []. rewrite List.app_nil_r.
    repeat split; try reflexivity; [constructor | congruence].
Qed.

(** The invariant of the loop over states [l], none of them twice. *)
Lemma for_each_compute_state quiet sel (l : list Z) :
  NoDup l ->
  forall m a p w m' a' p' w',
    for_each l (compute_state host quiet sel) (m, a, p) w = (Ok (m', a', p'), w') ->
    a' = a ++ concat (map (fun s => default [] (p' !! s)) l)
    /\ (forall k, k ∉ l -> m' !! k = m !! k /\ p' !! k = p !! k)
    /\ (forall k, k ∈ l ->
          exists mk pk, m' !! k = Some mk /\ p' !! k = Some pk
                        /\ state_entry mk pk).
Proof.
  induction l as [|k l IH]; intros Hnd m a p w m' a' p' w' H.
  - apply ret_inv in H as [H _]. inversion H; subst. simpl.
    rewrite List.app_nil_r. repeat split; try reflexivity.
    intros k Hk. inversion Hk.
  - simpl in H. apply bind_inv in H as ([[m1 a1] p1] & w1 & Hstep & H).
    apply NoDup_cons in Hnd as [Hk Hnd].
    apply compute_state_ok in Hstep as (mk & pk & -> & -> & -> & Hentry).
    apply (IH Hnd) in H as (Ha & Hout & Hin).
    destruct (Hout k Hk) as [Hmk Hpk].
    rewrite lookup_insert_eq in Hmk. rewrite lookup_insert_eq in Hpk.
    repeat split.
    + simpl. rewrite Hpk. simpl. rewrite Ha, <- List.app_assoc. reflexivity.
    + destruct (Hout k0) as [E _].
      { intros Hc. apply H. right. exact Hc. }
      rewrite E. apply lookup_insert_ne. intros ->. apply H. left.
    + destruct (Hout k0) as [_ E].
      { intros Hc. apply H. right. exact Hc. }
      rewrite E. apply lookup_insert_ne. intros ->. apply H. left.
    + intros j Hj. apply elem_of_cons in Hj as [-> | Hj].
      * exists mk, pk. auto.
      * apply Hin. exact Hj.
Qed.

End ComputeMode.

(** ** Rounding never produces a NaN *)

Lemma shr_1_nonneg (mrs : shr_record) :
  0 <= shr_m mrs -> 0 <= shr_m (shr_1 mrs).
Proof.
  destruct mrs as [m r s]. destruct m as [|p|p]; simpl; intros H.
  - lia.
  - destruct p; simpl; lia.
  - lia.
Qed.

Lemma iter_pos_shr_1_nonneg (p : positive) :
  forall mrs, 0 <= shr_m mrs -> 0 <= shr_m (SpecFloat.iter_pos shr_1 p mrs).
Proof.
  induction p as [p IH | p IH |]; intros mrs H; simpl.
  - apply IH, IH, shr_1_nonneg, H.
  - apply IH, IH, H.
  - apply shr_1_nonneg, H.
Qed.

Lemma shr_record_of_loc_m (m : Z) (l : location) :
  shr_m (shr_record_of_loc m l) = m.
Proof. destruct l as [|[]]; reflexivity. Qed.

Lemma shr_fexp_nonneg (m e : Z) (l : location) :
  0 <= m -> 0 <= shr_m (fst (shr_fexp prec emax m e l)).
Proof.
  intros H. unfold shr_fexp, shr.
  destruct (fexp prec emax (Zdigits2 m + e) - e) as [|p|p]; simpl;
    try (rewrite shr_record_of_loc_m; exact H).
  apply iter_pos_shr_1_nonneg. rewrite shr_record_of_loc_m. exact H.
Qed.

Lemma round_nearest_even_nonneg (m : Z) (l : location) :
  0 <= m -> 0 <= round_nearest_even m l.
Proof.
  intros H. destruct l as [|[]]; simpl; try lia.
  destruct (Z.even m); lia.
Qed.

Lemma binary_round_aux_not_nan (sx : bool) (mx ex : Z) (lx : location) :
  0 <= mx -> isnan (binary_round_aux prec emax sx mx ex lx) = false.
Proof.
  intros H. unfold binary_round_aux.
  pose proof (shr_fexp_nonneg mx ex lx H) as H1.
  destruct (shr_fexp prec emax mx ex lx) as [mrs' e'].
  simpl in H1.
  pose proof (shr_fexp_nonneg _ e' loc_Exact
                (round_nearest_even_nonneg _ (loc_of_shr_record mrs') H1)) as H2.
  destruct (shr_fexp prec emax
              (round_nearest_even (shr_m mrs') (loc_of_shr_record mrs')) e'
              loc_Exact) as [mrs'' e''].
  simpl in H2.
  destruct (shr_m mrs'') as [|m|m].
  - reflexivity.
  - destruct (e'' <=? emax - prec); reflexivity.
  - lia.
Qed.

Lemma SFdiv_finite_not_nan (sx sy : bool) (mx my : positive) (ex ey : Z) :
  isnan (SFdiv prec emax (S754_finite sx mx ex) (S754_finite sy my ey)) = false.
Proof.
  unfold SFdiv, SFdiv_core_binary.
  set (e' := Z.min _ _). set (m' := match ex - ey - e' with 0 => _ | _ => _ end).
  assert (Hm : 0 <= m').
  { subst m'. destruct (ex - ey - e') as [|p|p]; try lia.
    apply Z.shiftl_nonneg. lia. }
  pose proof (Z.div_pos m' (Zpos my) Hm ltac:(lia)) as Hq.
  unfold Z.div in Hq.
  destruct (Z.div_eucl m' (Zpos my)) as [q r].
  apply binary_round_aux_not_nan. exact Hq.
Qed.

(** An int quotient is never a NaN. *)
Lemma int_truediv_not_nan (a : Z) (b : positive) :
  isnan (int_truediv a b) = false.
Proof.
  destruct a as [|p|p]; unfold int_truediv.
  - reflexivity.
  - apply SFdiv_finite_not_nan.
  - apply SFdiv_finite_not_nan.
Qed.

(** ** [statistics.mean] on values that passed the filter *)

(** What [x >= 0] lets through: a zero, a positive finite float or
    the positive infinity. *)
Lemma ge_zero_cases (x : float) :
  ge x zero = true ->
  (exists s, x = S754_zero s) \/ x = S754_infinity false
  \/ (exists m e, x = S754_finite false m e).
Proof.
  destruct x as [s|s| |s m e]; unfold ge, zero, SFleb; simpl.
  - intros _. left. exists s. reflexivity.
  - destruct s; [discriminate|]. intros _. right. left. reflexivity.
  - discriminate.
  - destruct s; [discriminate|]. intros _. right. right. exists m, e. reflexivity.
Qed.

(** A value the filter keeps is not strictly below zero, and is not a
    NaN. *)
Lemma ge_zero_not_lt (x : float) : ge x zero = true -> lt x zero = false.
Proof.
  intros H. destruct (ge_zero_cases x H) as [[s ->] | [-> | (m & e & ->)]];
    reflexivity.
Qed.

Lemma ge_zero_not_nan (x : float) : ge x zero = true -> isnan x = false.
Proof.
  intros H. destruct (ge_zero_cases x H) as [[s ->] | [-> | (m & e & ->)]];
    reflexivity.
Qed.

(** A strictly negative value does not pass the filter. *)
Lemma lt_zero_not_ge (x : float) : lt x zero = true -> ge x zero = false.
Proof.
  destruct (ge x zero) eqn:H; [|reflexivity].
  rewrite (ge_zero_not_lt x H). discriminate.
Qed.

Lemma nonfinite_total_fold (l : list float) :
  Forall (fun x => ge x zero = true) l ->
  forall acc,
    acc = None \/ acc = Some (S754_infinity false) ->
    let r := fold_left
               (fun acc x =>
                  if isfinite x then acc
                  else Some (match acc with
                             | None => x
                             | Some t => SFadd prec emax t x
                             end)) l acc in
    r = None \/ r = Some (S754_infinity false).
Proof.
  induction 1 as [|x l Hx Hl IH]; intros acc Hacc; simpl.
  - exact Hacc.
  - apply IH.
    destruct (ge_zero_cases x Hx) as [[s ->] | [-> | (m & e & ->)]]; simpl.
    + exact Hacc.
    + right. destruct Hacc as [-> | ->]; reflexivity.
    + exact Hacc.
Qed.

(** On a non-empty list of values that passed the filter,
    [statistics.mean] returns, and what it returns is not a NaN. *)
Lemma mean_of_kept (l : list float) :
  l <> [] ->
  Forall (fun x => ge x zero = true) l ->
  exists m, Statistics.mean l = Ok m /\ isnan m = false.
Proof.
  intros Hne Hall. unfold Statistics.mean.
  destruct l as [|x l]; [congruence|].
  assert (H : Statistics.nonfinite_total (x :: l) = None
              \/ Statistics.nonfinite_total (x :: l) = Some (S754_infinity false)).
  { apply (nonfinite_total_fold (x :: l) Hall None). left. reflexivity. }
  destruct H as [H | H]; rewrite H.
  - eexists. split; [reflexivity|]. apply int_truediv_not_nan.
  - eexists. split; reflexivity.
Qed.

(** ** [summarize] *)

Lemma summarize_ok md per_state rms_list pairs md' :
  summarize md per_state rms_list pairs = Ok md' ->
  per_state_means md' = per_state
  /\ per_state_pairs md' = pairs
  /\ all_rms md' = rms_list
  /\ (rms_list = [] -> overall_mean md' = nan /\ overall_sd md' = nan)
  /\ (rms_list <> [] -> Statistics.mean rms_list = Ok (overall_mean md'))
  /\ ((2 <= length rms_list)%nat ->
      Statistics.stdev rms_list = Ok (overall_sd md'))
  /\ ((length rms_list < 2)%nat -> overall_sd md' = nan).
Proof.
  unfold summarize. destruct rms_list as [|x l].
  - intros H. inversion H; subst; simpl.
    repeat split; try reflexivity; try congruence. intros Hl. simpl in Hl. lia.
  - destruct (Statistics.mean (x :: l)) as [m|e] eqn:Hm; [|discriminate].
    destruct (1 <? length (x :: l))%nat eqn:Hlen.
    + destruct (Statistics.stdev (x :: l)) as [sd|e] eqn:Hsd; [|discriminate].
      intros H. inversion H; subst; simpl.
      repeat split; try reflexivity; try discriminate.
      apply Nat.ltb_lt in Hlen. simpl in Hlen. intros Hl. lia.
    + intros H. inversion H; subst; simpl.
      apply Nat.ltb_ge in Hlen. simpl in Hlen.
      repeat split; try reflexivity; try discriminate.
      intros Hl. lia.
Qed.

(** ** What a completed run holds for a mode *)

Lemma aggregated_empty_mode : aggregated 0 empty_mode.
Proof.
  unfold aggregated, empty_mode; simpl.
  repeat split; try reflexivity; try congruence.
  - intros k Hk. inversion Hk.
  - intros H. simpl in H. lia.
Qed.

Section Inversion.

Context {Env : Type} (host : Host Env).

Lemma compute_mode_aggregated quiet n sel w m a p w' md :
  compute_mode host quiet n sel w = (Ok (m, a, p), w') ->
  summarize empty_mode m a p = Ok md ->
  aggregated n md.
Proof.
  unfold compute_mode. intros Hc Hs.
  apply for_each_compute_state in Hc as (Ha & Hout & Hin).
  2: { unfold range1. apply NoDup_seqZ. }
  apply summarize_ok in Hs as (Em & Ep & Ea & H1 & H2 & H3 & H4).
  unfold aggregated. rewrite Em, Ep, Ea.
  repeat apply conj; auto.
Qed.

(** The export step leaves the statistics alone. *)
Lemma export_or_hint_frame quiet export_report obj selection report_path
      report_lines r w r' w' :
  export_or_hint host quiet export_report obj selection report_path
                 report_lines r w = (Ok r', w') ->
  Result.modes_all r' = Result.modes_all r
  /\ Result.modes_no_hydrogen r' = Result.modes_no_hydrogen r
  /\ Result.states r' = Result.states r
  /\ Result.selection r' = Result.selection r
  /\ Result.atom_counts_all r' = Result.atom_counts_all r
  /\ Result.atom_counts_no_hydrogen r' = Result.atom_counts_no_hydrogen r.
Proof.
  unfold export_or_hint. destruct export_report; intros H.
  - apply bind_inv in H as (a & w1 & _ & H). destruct a as [resolved|exc].
    + apply ret_inv in H as [-> _]. simpl. auto 10.
    + apply bind_inv in H as (u & w2 & _ & H).
      apply ret_inv in H as [-> _]. simpl. auto 10.
  - apply bind_inv in H as (u1 & w1 & _ & H).
    apply bind_inv in H as (u2 & w2 & _ & H).
    apply bind_inv in H as (cwd & w3 & _ & H).
    apply bind_inv in H as (u3 & w4 & _ & H).
    apply ret_inv in H as [-> _]. auto 10.
Qed.

(** A run that returns an analysis either stopped at a failed state
    count, or went through both modes and [summarize]. *)
Lemma calculate_rms_stats_inv obj_to_fit selection quiet display_level
      export_report report_path w r w' :
  calculate_rms_stats host obj_to_fit selection quiet display_level
                      export_report report_path w = (Ok (Analysis r), w') ->
  exists obj,
    obj_to_fit = Some obj
    /\ valid_display_level display_level = true
    /\ ((exists exc e1,
           cmd_count_states host obj (host_state w) = (Raise exc, e1)
           /\ r = failed_result obj selection exc)
        \/ (exists n e1 w2 w3 w4 acc_all acc_no_h,
              cmd_count_states host obj (host_state w) = (Ok n, e1)
              /\ Result.states r = n
              /\ compute_mode host quiet n (base_selection_of obj selection) w2
                 = (Ok acc_all, w3)
              /\ compute_mode host quiet n
                   (base_selection_of obj selection +:+ " and (not hydro)") w3
                 = (Ok acc_no_h, w4)
              /\ summarize empty_mode (fst (fst acc_all)) (snd (fst acc_all))
                           (snd acc_all) = Ok (Result.modes_all r)
              /\ summarize empty_mode (fst (fst acc_no_h)) (snd (fst acc_no_h))
                           (snd acc_no_h) = Ok (Result.modes_no_hydrogen r))).
Proof.
  unfold calculate_rms_stats. intros H.
  destruct obj_to_fit as [obj|].
  2: { apply bind_inv in H as (u & w1 & _ & H). apply ret_inv in H as [H _].
       discriminate H. }
  exists obj. split; [reflexivity|].
  destruct (valid_display_level display_level); [|discriminate H].
  split; [reflexivity|]. simpl in H.
  apply bind_inv in H as (rs & w1 & Hrs & H).
  rewrite attempt_run in Hrs. unfold count_states, host_call in Hrs.
  destruct (cmd_count_states host obj (host_state w)) as [rs0 e1] eqn:Hcs.
  simpl in Hrs. inversion Hrs; subst rs0 w1; clear Hrs.
  destruct rs as [n|exc].
  - right.
    apply bind_inv in H as (n_all & w2 & _ & H).
    apply bind_inv in H as (n_no_h & w3 & _ & H).
    apply bind_inv in H as ([[per_all all_rms_all] per_pairs_all] & w4 & Hall & H).
    apply bind_inv in H as ([[per_no_h all_rms_no_h] per_pairs_no_h] & w5 & Hnoh & H).
    apply bind_inv in H as (m_all & w6 & Hsa & H).
    apply lift_inv in Hsa as [Hsa ->].
    apply bind_inv in H as (m_no_h & w7 & Hsn & H).
    apply lift_inv in Hsn as [Hsn ->].
    apply bind_inv in H as (u & w8 & _ & H).
    apply bind_inv in H as (r1 & w9 & Hexp & H).
    apply ret_inv in H as [H _]. inversion H; subst r1; clear H.
    apply export_or_hint_frame in Hexp as (E1 & E2 & E3 & _).
    simpl in E1, E2, E3.
    exists n, e1, w3, w4, w5, (per_all, all_rms_all, per_pairs_all),
      (per_no_h, all_rms_no_h, per_pairs_no_h).
    rewrite E1, E2, E3. simpl. auto 10.
  - left. exists exc, e1. split; [reflexivity|].
    apply bind_inv in H as (u & w2 & _ & H).
    apply ret_inv in H as [H _]. inversion H. reflexivity.
Qed.

(** After a completed analysis both modes have the aggregated shape. *)
Lemma calculate_rms_stats_aggregated obj_to_fit selection quiet display_level
      export_report report_path w r w' :
  calculate_rms_stats host obj_to_fit selection quiet display_level
                      export_report report_path w = (Ok (Analysis r), w') ->
  aggregated (Result.states r) (Result.modes_all r)
  /\ aggregated (Result.states r) (Result.modes_no_hydrogen r).
Proof.
  intros H.
  apply calculate_rms_stats_inv in H as (obj & _ & _ & [H | H]).
  - destruct H as (exc & e1 & _ & ->). simpl.
    split; apply aggregated_empty_mode.
  - destruct H as (n & e1 & w2 & w3 & w4 & [[m1 a1] p1] & [[m2 a2] p2]
                   & _ & <- & Hc1 & Hc2 & Hs1 & Hs2).
    simpl in Hs1, Hs2. split.
    + exact (compute_mode_aggregated _ _ _ _ _ _ _ _ _ Hc1 Hs1).
    + exact (compute_mode_aggregated _ _ _ _ _ _ _ _ _ Hc2 Hs2).
Qed.

End Inversion.

(** ** Exact sums *)

Lemma fold_left_Qplus {A : Type} (f : A -> Q) (l : list A) (acc : Q) :
  (fold_left (fun a x => a + f x) l acc == acc + Qsum (map f l))%Q.
Proof.
  revert acc. induction l as [|x l IH]; intros acc; simpl.
  - ring.
  - rewrite IH. ring.
Qed.

Lemma exact_sum_Qsum (data : list float) :
  (Statistics.exact_sum data == Qsum (map exact data))%Q.
Proof.
  unfold Statistics.exact_sum. rewrite (fold_left_Qplus exact). ring.
Qed.

Lemma exact_sum_sq_Qsum (data : list float) :
  (Statistics.exact_sum_sq data
   == Qsum (map (fun x => exact x * exact x) data))%Q.
Proof.
  unfold Statistics.exact_sum_sq.
  rewrite (fold_left_Qplus (fun x => exact x * exact x)%Q). ring.
Qed.

(** The sum of the squared deviations from [c], expanded. *)
Lemma Qsum_sq_dev (c : Q) (data : list float) :
  (Qsum (map (fun x => (exact x - c) * (exact x - c)) data)
   == Qsum (map (fun x => exact x * exact x) data)
      - (2 # 1) * c * Qsum (map exact data)
      + inject_Z (Z.of_nat (length data)) * c * c)%Q.
Proof.
  induction data as [|x l IH].
  - simpl. ring.
  - simpl map. simpl Qsum. rewrite IH.
    replace (Z.of_nat (length (x :: l))) with (Z.of_nat (length l) + 1)
      by (simpl length; lia).
    rewrite inject_Z_plus. ring.
Qed.

(** [_ss]'s one-pass formula is the sample variance. *)
Lemma mss_sample_variance (data : list float) :
  (2 <= length data)%nat ->
  (Statistics.mss data == sample_variance data)%Q.
Proof.
  intros Hlen. unfold Statistics.mss, sample_variance, arithmetic_mean,
    Statistics.count.
  rewrite Qsum_sq_dev, exact_sum_Qsum, exact_sum_sq_Qsum.
  set (n := inject_Z (Z.of_nat (length data))).
  assert (Hn : ~ (n == 0)%Q).
  { unfold n. intros H. unfold Qeq in H. simpl in H. lia. }
  assert (Hn1 : ~ (n - 1 == 0)%Q).
  { unfold n. intros H. unfold Qeq in H. simpl in H. lia. }
  field. split; assumption.
Qed.

Lemma of_Q_proper (p q : Q) : (p == q)%Q -> of_Q p = of_Q q.
Proof. intros H. unfold of_Q. rewrite (Qred_complete p q H). reflexivity. Qed.

Lemma sqrt_of_Q_proper (p q : Q) :
  (p == q)%Q -> Statistics.sqrt_of_Q p = Statistics.sqrt_of_Q q.
Proof.
  intros H. unfold Statistics.sqrt_of_Q.
  rewrite (Qred_complete p q H). reflexivity.
Qed.

Lemma nonfinite_total_finite (data : list float) :
  Forall (fun x => isfinite x = true) data ->
  Statistics.nonfinite_total data = None.
Proof.
  unfold Statistics.nonfinite_total.
  induction 1 as [|x l Hx Hl IH]; simpl.
  - reflexivity.
  - rewrite Hx. exact IH.
Qed.

(** On finite data [statistics.mean] is the arithmetic mean, rounded
    once. *)
Lemma mean_finite (data : list float) :
  data <> [] ->
  Forall (fun x => isfinite x = true) data ->
  Statistics.mean data = Ok (of_Q (arithmetic_mean data)).
Proof.
  intros Hne Hfin. unfold Statistics.mean.
  destruct data as [|x l]; [congruence|].
  rewrite (nonfinite_total_finite _ Hfin). f_equal.
  apply of_Q_proper. unfold arithmetic_mean, Statistics.count.
  rewrite exact_sum_Qsum. reflexivity.
Qed.

(** On finite data [statistics.stdev] is the square root of the sample
    variance, rounded once. *)
Lemma stdev_finite (data : list float) :
  (2 <= length data)%nat ->
  Forall (fun x => isfinite x = true) data ->
  Statistics.stdev data = Ok (Statistics.sqrt_of_Q (sample_variance data)).
Proof.
  intros Hlen Hfin. unfold Statistics.stdev, Statistics.count.
  destruct (Z.of_nat (length data) <? 2) eqn:Hc.
  - apply Z.ltb_lt in Hc. lia.
  - rewrite (nonfinite_total_finite _ Hfin). f_equal.
    apply sqrt_of_Q_proper, mss_sample_variance, Hlen.
Qed.

(** ** Aggregation: [all_rms], the overall mean and deviation *)

Lemma Forall_concat_map {A B : Type} (P : B -> Prop) (f : A -> list B)
      (l : list A) :
  (forall k, k ∈ l -> Forall P (f k)) -> Forall P (concat (map f l)).
Proof.
  induction l as [|k l IH]; intros H; simpl.
  - constructor.
  - apply Forall_app. split.
    + apply H. left.
    + apply IH. intros j Hj. apply H. right. exact Hj.
Qed.

Lemma length_concat_map {A B : Type} (f : A -> list B) (l : list A) :
  length (concat (map f l)) = sum_list (map (fun k => length (f k)) l).
Proof.
  induction l as [|k l IH]; simpl.
  - reflexivity.
  - rewrite length_app, IH. reflexivity.
Qed.

(** Every value of [all_rms] passed the filter [x >= 0]. *)
Lemma aggregated_all_kept (n : Z) (m : ModeResult) :
  aggregated n m -> Forall (fun x => ge x zero = true) (all_rms m).
Proof.
  intros (Ha & Hin & _). rewrite Ha.
  apply Forall_concat_map. intros k Hk.
  destruct (Hin k Hk) as (mk & pk & _ & -> & Hall & _). exact Hall.
Qed.

(** The pairs stored for any state passed the filter [x >= 0]. *)
Lemma aggregated_pairs_kept (n : Z) (m : ModeResult) (k : Z) (pairs : list float) :
  aggregated n m -> per_state_pairs m !! k = Some pairs ->
  Forall (fun x => ge x zero = true) pairs.
Proof.
  intros (_ & Hin & Hout & _) Hk.
  destruct (decide (k ∈ range1 n)) as [Hr | Hr].
  - destruct (Hin k Hr) as (mk & pk & _ & Hpk & Hall & _).
    rewrite Hk in Hpk. inversion Hpk. exact Hall.
  - destruct (Hout k Hr) as [_ E]. rewrite E in Hk. discriminate Hk.
Qed.

Lemma kept_finite (l : list float) :
  Forall (fun x => ge x zero = true) l ->
  Forall (fun x => x <> S754_infinity false) l ->
  Forall (fun x => isfinite x = true) l.
Proof.
  intros H1 H2. induction H1 as [|x l Hx Hl IH]; constructor.
  - apply Forall_cons in H2 as [Hninf _].
    destruct (ge_zero_cases x Hx) as [[s ->] | [-> | (m & e & ->)]];
      try reflexivity. congruence.
  - apply IH. apply Forall_cons in H2 as [_ H2]. exact H2.
Qed.

(** C2.  After a completed analysis, in each mode [all_rms] is the
    concatenation of [per_state_pairs[s]] for [s] from 1 to [states] in
    ascending order; its length is the sum of the lengths of these
    lists; and [per_state_pairs] has an entry for exactly the states 1 to
    [states], so nothing is counted twice and nothing comes from
    elsewhere. *)
Theorem all_rms_is_concatenation :
  forall (Env : Type) (host : Host Env) (obj_to_fit selection : option string)
         (quiet : bool) (display_level : Z) (export_report : bool)
         (report_path : string) (w : world Env) (r : Result.t) (w' : world Env),
    calculate_rms_stats host obj_to_fit selection quiet display_level
                        export_report report_path w = (Ok (Analysis r), w') ->
    forall m : ModeResult,
      m = Result.modes_all r \/ m = Result.modes_no_hydrogen r ->
      all_rms m
      = concat (map (fun s => default [] (per_state_pairs m !! s))
                    (seqZ 1 (Result.states r)))
      /\ length (all_rms m)
         = sum_list (map (fun s => length (default [] (per_state_pairs m !! s)))
                         (seqZ 1 (Result.states r)))
      /\ (forall k : Z,
            is_Some (per_state_pairs m !! k) <-> 1 <= k <= Result.states r).
Proof.
  intros Env host obj_to_fit selection quiet display_level export_report
         report_path w r w' Hrun m Hm.
  apply calculate_rms_stats_aggregated in Hrun as [Hall Hnoh].
  assert (Hagg : aggregated (Result.states r) m) by (destruct Hm; subst; assumption).
  clear Hall Hnoh Hm.
  destruct Hagg as (Ha & Hin & Hout & _). unfold range1 in *.
  split; [exact Ha|]. split.
  - rewrite Ha at 1. apply length_concat_map.
  - intros k. split.
    + intros Hs. destruct (decide (k ∈ seqZ 1 (Result.states r))) as [Hk|Hk].
      * apply elem_of_seqZ in Hk. lia.
      * destruct (Hout k Hk) as [_ E]. rewrite E in Hs.
        destruct Hs as [x Hx]. discriminate Hx.
    + intros Hk. destruct (Hin k) as (mk & pk & _ & -> & _).
      * apply elem_of_seqZ. lia.
      * eexists. reflexivity.
Qed.

(** C1.  After a completed analysis, in each mode: [overall_mean] is a
    NaN exactly when [all_rms] is empty, and otherwise it is
    [statistics.mean] of [all_rms], which on finite values is their
    arithmetic mean rounded once; [overall_sd] is [statistics.stdev] of
    [all_rms] when it has two values or more, which on finite values is
    the square root of the sample variance (denominator [N - 1]) rounded
    once, and it is the NaN when [all_rms] has fewer than two values. *)
Theorem overall_mean_and_sd :
  forall (Env : Type) (host : Host Env) (obj_to_fit selection : option string)
         (quiet : bool) (display_level : Z) (export_report : bool)
         (report_path : string) (w : world Env) (r : Result.t) (w' : world Env),
    calculate_rms_stats host obj_to_fit selection quiet display_level
                        export_report report_path w = (Ok (Analysis r), w') ->
    forall m : ModeResult,
      m = Result.modes_all r \/ m = Result.modes_no_hydrogen r ->
      (isnan (overall_mean m) = true <-> all_rms m = [])
      /\ (all_rms m = [] -> overall_mean m = nan)
      /\ (all_rms m <> [] -> Statistics.mean (all_rms m) = Ok (overall_mean m))
      /\ (all_rms m <> [] ->
          Forall (fun x => x <> S754_infinity false) (all_rms m) ->
          overall_mean m = of_Q (arithmetic_mean (all_rms m)))
      /\ ((2 <= length (all_rms m))%nat ->
          Statistics.stdev (all_rms m) = Ok (overall_sd m))
      /\ ((2 <= length (all_rms m))%nat ->
          Forall (fun x => x <> S754_infinity false) (all_rms m) ->
          overall_sd m = Statistics.sqrt_of_Q (sample_variance (all_rms m)))
      /\ ((length (all_rms m) < 2)%nat -> overall_sd m = nan).
Proof.
  intros Env host obj_to_fit selection quiet display_level export_report
         report_path w r w' Hrun m Hm.
  apply calculate_rms_stats_aggregated in Hrun as [Hall Hnoh].
  assert (Hagg : aggregated (Result.states r) m) by (destruct Hm; subst; assumption).
  clear Hall Hnoh Hm.
  pose proof (aggregated_all_kept _ _ Hagg) as Hkept.
  destruct Hagg as (_ & _ & _ & Hempty & Hmean & Hsd & Hshort).
  repeat apply conj.
  - intros Hnan. destruct (all_rms m) as [|x l] eqn:E; [reflexivity|].
    destruct (mean_of_kept (x :: l)) as (mu & Hmu & Hnn);
      [discriminate | exact Hkept |].
    rewrite Hmean in Hmu by discriminate. inversion Hmu; subst mu.
    rewrite Hnn in Hnan. discriminate Hnan.
  - intros E. destruct (Hempty E) as [-> _]. reflexivity.
  - intros E. apply Hempty, E.
  - exact Hmean.
  - intros Hne Hninf.
    pose proof (mean_finite _ Hne (kept_finite _ Hkept Hninf)) as Hf.
    rewrite (Hmean Hne) in Hf. inversion Hf. reflexivity.
  - exact Hsd.
  - intros Hlen Hninf.
    pose proof (stdev_finite _ Hlen (kept_finite _ Hkept Hninf)) as Hf.
    rewrite (Hsd Hlen) in Hf. inversion Hf. reflexivity.
  - exact Hshort.
Qed.

(** The demonstration run completes with [demo_result]. *)
Lemma demo_run_completes :
  demo_run = (Ok (Analysis demo_result), snd demo_run).
Proof. vm_compute. reflexivity. Qed.

(** Witness of [all_rms_is_concatenation]: the demonstration run, mode
    "all", whose three states hold two pairs, none and one. *)
Lemma all_rms_is_concatenation_witness :
  calculate_rms_stats demo_host (Some "1A1T") (Some "all") true 1 false "." start
  = (Ok (Analysis demo_result), snd demo_run)
  /\ all_rms (Result.modes_all demo_result)
     = concat (map (fun s => default []
                               (per_state_pairs (Result.modes_all demo_result) !! s))
                   (seqZ 1 (Result.states demo_result)))
  /\ length (all_rms (Result.modes_all demo_result))
     = sum_list (map (fun s => length
                                 (default []
                                    (per_state_pairs (Result.modes_all demo_result) !! s)))
                     (seqZ 1 (Result.states demo_result)))
  /\ (forall k : Z,
        is_Some (per_state_pairs (Result.modes_all demo_result) !! k)
        <-> 1 <= k <= Result.states demo_result).
Proof.
  split.
  - exact demo_run_completes.
  - exact (all_rms_is_concatenation unit demo_host (Some "1A1T") (Some "all")
             true 1 false "." start demo_result (snd demo_run)
             demo_run_completes (Result.modes_all demo_result)
             (or_introl eq_refl)).
Defined.

(** Witness of [overall_mean_and_sd]: the demonstration run, mode
    "all". *)
Lemma overall_mean_and_sd_witness :
  calculate_rms_stats demo_host (Some "1A1T") (Some "all") true 1 false "." start
  = (Ok (Analysis demo_result), snd demo_run)
  /\ all_rms (Result.modes_all demo_result) = [f1_0; f2_0; f3_0]
  /\ Statistics.mean (all_rms (Result.modes_all demo_result))
     = Ok (overall_mean (Result.modes_all demo_result))
  /\ Statistics.stdev (all_rms (Result.modes_all demo_result))
     = Ok (overall_sd (Result.modes_all demo_result)).
Proof.
  pose proof (overall_mean_and_sd unit demo_host (Some "1A1T") (Some "all")
                true 1 false "." start demo_result (snd demo_run)
                demo_run_completes (Result.modes_all demo_result)
                (or_introl eq_refl)) as (_ & _ & Hmean & _ & Hsd & _).
  split; [exact demo_run_completes|].
  split; [vm_compute; reflexivity|].
  split.
  - apply Hmean. vm_compute. discriminate.
  - apply Hsd. vm_compute. lia.
Defined.

(** ** Negative values *)

Lemma floats_of_items_drop (xs : list item) :
  match floats_of_items xs with
  | Ok l =>
      floats_of_items (List.filter (fun x => negb (is_negative_item x)) xs)
      = Ok (List.filter (fun f => negb (lt f zero)) l)
  | Raise _ =>
      exists e', floats_of_items
                   (List.filter (fun x => negb (is_negative_item x)) xs)
                 = Raise e'
  end.
Proof.
  induction xs as [|x xs IH]; simpl.
  - reflexivity.
  - destruct (float_of_item x) as [f|e] eqn:Hx.
    + assert (Hneg : is_negative_item x = lt f zero).
      { unfold is_negative_item. rewrite Hx. reflexivity. }
      rewrite Hneg.
      destruct (floats_of_items xs) as [l|e]; simpl.
      * destruct (lt f zero); simpl.
        -- exact IH.
        -- rewrite Hx, IH. reflexivity.
      * destruct IH as [e' IH]. destruct (lt f zero); simpl.
        -- exists e'. exact IH.
        -- rewrite Hx, IH. exists e'. reflexivity.
    + assert (Hneg : is_negative_item x = false).
      { unfold is_negative_item. rewrite Hx. reflexivity. }
      rewrite Hneg. simpl. rewrite Hx. exists e. reflexivity.
Qed.

Lemma keep_non_negative_not_lt (l : list float) :
  keep_non_negative (List.filter (fun f => negb (lt f zero)) l)
  = keep_non_negative l.
Proof.
  unfold keep_non_negative. induction l as [|f l IH]; simpl.
  - reflexivity.
  - destruct (lt f zero) eqn:Hlt; simpl.
    + rewrite (lt_zero_not_ge f Hlt). exact IH.
    + destruct (ge f zero); rewrite IH; reflexivity.
Qed.

(** Taking the negative values out of what the provider returned
    changes neither whether the conversion raises nor what the filter
    keeps. *)
Lemma normalize_drop_negatives (v : rms_return) :
  match normalize v with
  | Ok l =>
      exists l', normalize (drop_negatives v) = Ok l'
                 /\ keep_non_negative l' = keep_non_negative l
  | Raise e => normalize (drop_negatives v) = Raise e
  end.
Proof.
  destruct v as [|z|x|xs|]; simpl.
  - exists []. split; reflexivity.
  - unfold is_negative_item. simpl.
    destruct (float_of_int z) as [f|e] eqn:Hz.
    + destruct (lt f zero) eqn:Hlt; simpl.
      * exists []. split; [reflexivity|].
        unfold keep_non_negative. simpl.
        rewrite (lt_zero_not_ge f Hlt). reflexivity.
      * rewrite Hz. exists [f]. split; reflexivity.
    + simpl. rewrite Hz. reflexivity.
  - destruct (lt x zero) eqn:Hlt; simpl.
    + exists []. split; [reflexivity|].
      unfold keep_non_negative. simpl.
      rewrite (lt_zero_not_ge x Hlt). reflexivity.
    + exists [x]. split; reflexivity.
  - pose proof (floats_of_items_drop xs) as H.
    destruct (floats_of_items xs) as [l|e].
    + rewrite H. eexists. split; [reflexivity|].
      apply keep_non_negative_not_lt.
    + destruct H as [e' ->]. exists []. split; reflexivity.
  - exists []. split; reflexivity.
Qed.

Section WithoutNegatives.

Context {Env : Type} (host : Host Env).

Lemma bind_cong {A B : Type} (c1 c2 : M Env A) (k1 k2 : A -> M Env B) w :
  c1 w = c2 w ->
  (forall a w', k1 a w' = k2 a w') ->
  bind c1 k1 w = bind c2 k2 w.
Proof.
  intros Hc Hk. unfold bind. rewrite Hc.
  destruct (c2 w) as [[a|e] w1]; [apply Hk | reflexivity].
Qed.

Lemma for_each_ext {A B : Type} (f g : B -> A -> M Env B) (l : list A) :
  (forall acc x w, f acc x w = g acc x w) ->
  forall acc w, for_each l f acc w = for_each l g acc w.
Proof.
  intros H. induction l as [|x l IH]; intros acc w; simpl.
  - reflexivity.
  - apply bind_cong; [apply H | apply IH].
Qed.

Lemma compute_state_without_negatives quiet sel acc k w :
  compute_state (without_negatives host) quiet sel acc k w
  = compute_state host quiet sel acc k w.
Proof.
  destruct acc as [[m a] p].
  unfold compute_state, bind, attempt, intra_fit, host_call, lift.
  cbn [cmd_intra_fit without_negatives].
  destruct (cmd_intra_fit host sel k (host_state w)) as [[v|exc] e'].
  - pose proof (normalize_drop_negatives v) as H.
    destruct (normalize v) as [l|e].
    + destruct H as (l' & -> & ->). reflexivity.
    + rewrite H. reflexivity.
  - reflexivity.
Qed.

Lemma compute_mode_without_negatives quiet states sel w :
  compute_mode (without_negatives host) quiet states sel w
  = compute_mode host quiet states sel w.
Proof.
  unfold compute_mode. apply for_each_ext.
  intros acc x w0. apply compute_state_without_negatives.
Qed.

Lemma calculate_rms_stats_without_negatives obj_to_fit selection quiet
      display_level export_report report_path w :
  calculate_rms_stats (without_negatives host) obj_to_fit selection quiet
                      display_level export_report report_path w
  = calculate_rms_stats host obj_to_fit selection quiet display_level
                        export_report report_path w.
Proof.
  unfold calculate_rms_stats.
  destruct obj_to_fit as [obj|]; [|reflexivity].
  destruct (valid_display_level display_level); [|reflexivity].
  cbn [negb].
  apply bind_cong; [reflexivity|]. intros [n|exc] w1; [|reflexivity].
  apply bind_cong; [reflexivity|]. intros n_all w2.
  apply bind_cong; [reflexivity|]. intros n_no_h w3.
  apply bind_cong; [apply compute_mode_without_negatives|].
  intros [[per_all all_rms_all] per_pairs_all] w4.
  apply bind_cong; [apply compute_mode_without_negatives|].
  intros [[per_no_h all_rms_no_h] per_pairs_no_h] w5.
  reflexivity.
Qed.

End WithoutNegatives.

(** C3.  Strictly negative RMS values never get past the filter: after
    a completed analysis no value of [all_rms] and no value of any
    [per_state_pairs] list is below zero, in either mode; and the whole
    run (returned result, host state, calls, console) is the same as on
    the host whose provider hands back the same values without the
    negative ones, so these influence no mean and no deviation. *)
Theorem negatives_are_filtered_out :
  forall (Env : Type) (host : Host Env) (obj_to_fit selection : option string)
         (quiet : bool) (display_level : Z) (export_report : bool)
         (report_path : string) (w : world Env),
    (forall (r : Result.t) (w' : world Env),
        calculate_rms_stats host obj_to_fit selection quiet display_level
                            export_report report_path w = (Ok (Analysis r), w') ->
        forall m : ModeResult,
          m = Result.modes_all r \/ m = Result.modes_no_hydrogen r ->
          Forall (fun x => lt x zero = false) (all_rms m)
          /\ (forall (k : Z) (pairs : list float),
                per_state_pairs m !! k = Some pairs ->
                Forall (fun x => lt x zero = false) pairs))
    /\ calculate_rms_stats (without_negatives host) obj_to_fit selection quiet
                           display_level export_report report_path w
       = calculate_rms_stats host obj_to_fit selection quiet display_level
                             export_report report_path w.
Proof.
  intros Env host obj_to_fit selection quiet display_level export_report
         report_path w.
  split.
  - intros r w' Hrun m Hm.
    apply calculate_rms_stats_aggregated in Hrun as [Hall Hnoh].
    assert (Hagg : aggregated (Result.states r) m)
      by (destruct Hm; subst; assumption).
    split.
    + eapply Forall_impl; [exact (aggregated_all_kept _ _ Hagg)|].
      intros x Hx. apply ge_zero_not_lt, Hx.
    + intros k pairs Hk.
      eapply Forall_impl; [exact (aggregated_pairs_kept _ _ _ _ Hagg Hk)|].
      intros x Hx. apply ge_zero_not_lt, Hx.
  - apply calculate_rms_stats_without_negatives.
Qed.

(** Witness of [negatives_are_filtered_out]: a provider that returns
    [[1.0, -1.0, 2.0]] for state 1 and [-1.0] for state 2; the run keeps
    [[1.0, 2.0]], and is the run of the host without the negative
    values. *)
Lemma negatives_are_filtered_out_witness :
  (forall r w',
      calculate_rms_stats negative_host (Some "1A1T") (Some "all") true 1 false
                          "." start = (Ok (Analysis r), w') ->
      all_rms (Result.modes_all r) = [f1_0; f2_0]
      /\ Forall (fun x => lt x zero = false) (all_rms (Result.modes_all r)))
  /\ calculate_rms_stats (without_negatives negative_host) (Some "1A1T")
                         (Some "all") true 1 false "." start
     = calculate_rms_stats negative_host (Some "1A1T") (Some "all") true 1 false
                           "." start.
Proof.
  pose proof (negatives_are_filtered_out unit negative_host (Some "1A1T")
                (Some "all") true 1 false "." start) as [Hkept Hsame].
  split; [|exact Hsame].
  intros r w' Hrun. split.
  - vm_compute in Hrun. inversion Hrun. reflexivity.
  - exact (proj1 (Hkept r w' Hrun (Result.modes_all r) (or_introl eq_refl))).
Defined.

(** ** A worked example *)

Section Example.

Context {Env : Type} (host : Host Env).

(** One round of the loop when the provider returns a value that
    converts. *)
Lemma compute_state_returns quiet sel m a p k (w : world Env) v e' l :
  cmd_intra_fit host sel k (host_state w) = (Ok v, e') ->
  normalize v = Ok l ->
  compute_state host quiet sel (m, a, p) k w
  = (match keep_non_negative l with
     | [] => Ok (<[k := nan]> m, a, <[k := []]> p)
     | kept =>
         match Statistics.mean kept with
         | Ok mu => Ok (<[k := mu]> m, a ++ kept, <[k := kept]> p)
         | Raise e => Raise e
         end
     end,
     {| host_state := e'; calls := calls w ++ [IntraFit sel k];
        stdout := stdout w |}).
Proof.
  intros Hv Hl.
  unfold compute_state, bind, attempt, intra_fit, host_call, lift.
  rewrite Hv, Hl.
  destruct (keep_non_negative l) as [|x kept]; [reflexivity|].
  destruct (Statistics.mean (x :: kept)); reflexivity.
Qed.

End Example.

(** C4.  With three states and a provider that yields the pair lists
    [[1.0, 2.0]], [[]] and [[3.0]] for a mode's selection, [compute_mode]
    gives the per-state means [{1: 1.5, 2: nan, 3: 3.0}] and
    [all_rms = [1.0, 2.0, 3.0]], and [summarize] then stores the overall
    mean [2.0] and the overall deviation [1.0]. *)
Theorem three_state_example :
  forall (Env : Type) (host : Host Env) (quiet : bool) (sel : string)
         (w : world Env) (e1 e2 e3 : Env),
    cmd_intra_fit host sel 1 (host_state w)
    = (Ok (RmsSeq [IFloat f1_0; IFloat f2_0]), e1) ->
    cmd_intra_fit host sel 2 e1 = (Ok (RmsSeq []), e2) ->
    cmd_intra_fit host sel 3 e2 = (Ok (RmsSeq [IFloat f3_0]), e3) ->
    let means : gmap Z float := {[1 := f1_5; 2 := nan; 3 := f3_0]} in
    let pairs : gmap Z (list float) :=
      {[1 := [f1_0; f2_0]; 2 := []; 3 := [f3_0]]} in
    fst (compute_mode host quiet 3 sel w) = Ok (means, [f1_0; f2_0; f3_0], pairs)
    /\ summarize empty_mode means [f1_0; f2_0; f3_0] pairs
       = Ok {| per_state_means := means;
               per_state_pairs := pairs;
               all_rms := [f1_0; f2_0; f3_0];
               overall_mean := f2_0;
               overall_sd := f1_0 |}.
Proof.
  intros Env host quiet sel w e1 e2 e3 H1 H2 H3 means pairs.
  split.
  - unfold compute_mode, range1.
    change (seqZ 1 3) with [1; 2; 3]. cbn [for_each].
    unfold bind at 1.
    rewrite (compute_state_returns host quiet sel _ _ _ 1 w _ e1
               [f1_0; f2_0] H1 eq_refl).
    change (keep_non_negative [f1_0; f2_0]) with [f1_0; f2_0].
    cbv beta iota zeta.
    change (Statistics.mean [f1_0; f2_0]) with (@Ok float f1_5).
    cbv beta iota zeta. unfold bind at 1.
    rewrite (compute_state_returns host quiet sel _ _ _ 2 (Build_world e1 _ _)
               _ e2 [] H2 eq_refl).
    change (keep_non_negative []) with (@nil float).
    cbv beta iota zeta. unfold bind at 1.
    rewrite (compute_state_returns host quiet sel _ _ _ 3 (Build_world e2 _ _)
               _ e3 [f3_0] H3 eq_refl).
    change (keep_non_negative [f3_0]) with [f3_0].
    cbv beta iota zeta.
    change (Statistics.mean [f3_0]) with (@Ok float f3_0).
    cbv beta iota zeta. unfold ret. cbn [fst]. f_equal.
  - vm_compute. reflexivity.
Qed.

(** Witness of [three_state_example]: the demonstration host, whose
    provider yields exactly these lists. *)
Lemma three_state_example_witness :
  fst (compute_mode demo_host true 3 "(1A1T) and (all)" start)
  = Ok ({[1 := f1_5; 2 := nan; 3 := f3_0]}, [f1_0; f2_0; f3_0],
        {[1 := [f1_0; f2_0]; 2 := []; 3 := [f3_0]]})
  /\ summarize empty_mode {[1 := f1_5; 2 := nan; 3 := f3_0]} [f1_0; f2_0; f3_0]
               {[1 := [f1_0; f2_0]; 2 := []; 3 := [f3_0]]}
     = Ok {| per_state_means := {[1 := f1_5; 2 := nan; 3 := f3_0]};
             per_state_pairs := {[1 := [f1_0; f2_0]; 2 := []; 3 := [f3_0]]};
             all_rms := [f1_0; f2_0; f3_0];
             overall_mean := f2_0;
             overall_sd := f1_0 |}.
Proof.
  exact (three_state_example unit demo_host true "(1A1T) and (all)" start
           tt tt tt eq_refl eq_refl eq_refl).
Defined.

(** ** Failures of the host *)

Lemma of_int_not_inf (z : Z) (f : float) :
  of_int z = Some f -> is_pos_inf f = false.
Proof.
  unfold of_int.
  destruct (binary_normalize prec emax z 0 false) as [s|s| |s m e];
    intros H; inversion H; reflexivity.
Qed.

Lemma floats_of_items_tame (xs : list item) (l : list float) :
  forallb tame_item xs = true ->
  floats_of_items xs = Ok l ->
  Forall (fun x => is_pos_inf x = false) l.
Proof.
  revert l. induction xs as [|x xs IH]; intros l Ht H; simpl in *.
  - inversion H. constructor.
  - apply andb_true_iff in Ht as [Hx Ht].
    destruct (float_of_item x) as [f|e] eqn:Hf; [|discriminate H].
    destruct (floats_of_items xs) as [fs|e]; [|discriminate H].
    inversion H; subst l. constructor.
    + destruct x as [g|z|]; simpl in Hf.
      * inversion Hf; subst. simpl in Hx. apply negb_true_iff in Hx. exact Hx.
      * unfold float_of_int in Hf. destruct (of_int z) as [g|] eqn:Hz;
          [|discriminate Hf]. inversion Hf; subst.
        apply (of_int_not_inf z), Hz.
      * discriminate Hf.
    + apply IH; [exact Ht | reflexivity].
Qed.

(** A tame value converts, and to floats that are not the positive
    infinity. *)
Lemma normalize_tame (v : rms_return) :
  tame_return v = true ->
  exists l, normalize v = Ok l /\ Forall (fun x => is_pos_inf x = false) l.
Proof.
  destruct v as [|z|x|xs|]; simpl; intros Ht.
  - exists []. split; [reflexivity | constructor].
  - unfold float_of_int. destruct (of_int z) as [f|] eqn:Hz; [|discriminate Ht].
    exists [f]. split; [reflexivity|].
    constructor; [apply (of_int_not_inf z), Hz | constructor].
  - exists [x]. split; [reflexivity|].
    constructor; [apply negb_true_iff, Ht | constructor].
  - destruct (floats_of_items xs) as [l|e] eqn:Hl.
    + exists l. split; [reflexivity|]. apply (floats_of_items_tame xs); assumption.
    + exists []. split; [reflexivity | constructor].
  - exists []. split; [reflexivity | constructor].
Qed.

Lemma keep_non_negative_finite (l : list float) :
  Forall (fun x => is_pos_inf x = false) l ->
  Forall (fun x => isfinite x = true) (keep_non_negative l).
Proof.
  intros H. apply kept_finite.
  - apply keep_non_negative_Forall.
  - unfold keep_non_negative. apply List.Forall_forall. intros x Hx.
    apply List.filter_In in Hx as [Hx _].
    rewrite List.Forall_forall in H. specialize (H x Hx).
    intros ->. discriminate H.
Qed.

Section Totality.

Context {Env : Type} (host : Host Env).

(** An atom count never raises: a failure becomes [None]. *)
Lemma try_count_atoms_total quiet sel (w : world Env) :
  exists n w', try_count_atoms host quiet sel w = (Ok n, w').
Proof.
  unfold try_count_atoms, bind. rewrite attempt_run.
  destruct (fst (count_atoms host sel w)) as [n|exc].
  - eexists _, _. reflexivity.
  - rewrite _p_run. eexists _, _. reflexivity.
Qed.

(** With a tame provider one round of the loop always completes,
    whether the provider raises or not, and keeps [all_rms] finite. *)
Lemma compute_state_total quiet sel m a p k (w : world Env) :
  tame_provider host ->
  Forall (fun x => isfinite x = true) a ->
  exists m' a' p' w',
    compute_state host quiet sel (m, a, p) k w = (Ok (m', a', p'), w')
    /\ Forall (fun x => isfinite x = true) a'.
Proof.
  intros Htame Ha.
  unfold compute_state, bind. rewrite attempt_run.
  unfold intra_fit, host_call.
  destruct (cmd_intra_fit host sel k (host_state w)) as [[v|exc] e'] eqn:Hv;
    cbn [fst snd].
  - destruct (normalize_tame v (Htame _ _ _ _ _ Hv)) as (l & Hl & Hninf).
    unfold lift. rewrite Hl.
    pose proof (keep_non_negative_finite l Hninf) as Hfin.
    pose proof (keep_non_negative_Forall l) as Hkept.
    destruct (keep_non_negative l) as [|x kept] eqn:Hk.
    + eexists _, _, _, _. split; [reflexivity | exact Ha].
    + destruct (mean_of_kept (x :: kept)) as (mu & -> & _);
        [discriminate | exact Hkept |].
      eexists _, _, _, _. split; [reflexivity|].
      apply Forall_app. split; assumption.
  - rewrite _p_run. eexists _, _, _, _. split; [reflexivity | exact Ha].
Qed.

Lemma for_each_compute_state_total quiet sel (l : list Z) :
  tame_provider host ->
  forall m a p (w : world Env),
    Forall (fun x => isfinite x = true) a ->
    exists m' a' p' w',
      for_each l (compute_state host quiet sel) (m, a, p) w = (Ok (m', a', p'), w')
      /\ Forall (fun x => isfinite x = true) a'.
Proof.
  intros Htame. induction l as [|k l IH]; intros m a p w Ha; simpl.
  - eexists _, _, _, _. split; [reflexivity | exact Ha].
  - destruct (compute_state_total quiet sel m a p k w Htame Ha)
      as (m1 & a1 & p1 & w1 & Hstep & Ha1).
    rewrite (bind_ok _ _ _ _ _ Hstep). apply IH. exact Ha1.
Qed.

(** With a tame provider a mode always completes, and its [all_rms] is
    finite. *)
Lemma compute_mode_total quiet states sel (w : world Env) :
  tame_provider host ->
  exists m a p w',
    compute_mode host quiet states sel w = (Ok (m, a, p), w')
    /\ Forall (fun x => isfinite x = true) a.
Proof.
  intros Htame. unfold compute_mode.
  apply for_each_compute_state_total; [exact Htame | constructor].
Qed.

(** On finite values [summarize] completes. *)
Lemma summarize_total md per_state rms_list pairs :
  Forall (fun x => isfinite x = true) rms_list ->
  exists md', summarize md per_state rms_list pairs = Ok md'.
Proof.
  intros Hfin. unfold summarize.
  destruct rms_list as [|x l].
  - eexists. reflexivity.
  - rewrite (mean_finite (x :: l)) by (discriminate || exact Hfin).
    destruct (1 <? length (x :: l))%nat eqn:Hlen.
    + apply Nat.ltb_lt in Hlen.
      rewrite (stdev_finite (x :: l)) by (lia || exact Hfin).
      eexists. reflexivity.
    + eexists. reflexivity.
Qed.

(** Printing the report never raises. *)
Lemma print_lines_total quiet (lines : list string) (w : world Env) :
  exists w', for_each lines (fun _ ln => _p quiet ln) tt w = (Ok tt, w').
Proof.
  revert w. induction lines as [|ln lines IH]; intros w; simpl.
  - eexists. reflexivity.
  - unfold bind. rewrite _p_run. apply IH.
Qed.

(** The export never raises, whatever the file system does; the hint
    raises only if [os.getcwd()] does. *)
Lemma export_or_hint_total quiet export_report obj selection report_path
      report_lines r (w : world Env) :
  export_report = true \/ getcwd_succeeds host ->
  exists r' w',
    export_or_hint host quiet export_report obj selection report_path
                   report_lines r w = (Ok r', w').
Proof.
  intros H. unfold export_or_hint. destruct export_report.
  - unfold bind. rewrite attempt_run. cbn [fst snd].
    destruct (fst (write_report host quiet obj selection report_path
                                report_lines w)) as [resolved|exc].
    + eexists _, _. reflexivity.
    + rewrite _p_run. eexists _, _. reflexivity.
  - destruct H as [H | H]; [discriminate H|].
    unfold bind. rewrite !_p_run. unfold host_call. cbn [host_state].
    destruct (H (host_state w)) as (cwd & e' & ->).
    rewrite _p_run. eexists _, _. reflexivity.
Qed.

(** Once the state count is known, no failure of the atom counts, of
    the RMS provider or of the file system stops the analysis. *)
Lemma calculate_rms_stats_total obj selection quiet display_level
      export_report report_path (w : world Env) n e1 :
  valid_display_level display_level = true ->
  cmd_count_states host obj (host_state w) = (Ok n, e1) ->
  tame_provider host ->
  export_report = true \/ getcwd_succeeds host ->
  exists r w',
    calculate_rms_stats host (Some obj) selection quiet display_level
                        export_report report_path w = (Ok (Analysis r), w')
    /\ Result.states r = n.
Proof.
  intros Hvalid Hcs Htame Hexp.
  unfold calculate_rms_stats. rewrite Hvalid. cbn [negb].
  unfold bind at 1. rewrite attempt_run.
  unfold count_states, host_call. rewrite Hcs. cbn [fst snd].
  unfold bind at 1.
  match goal with |- context [try_count_atoms host quiet ?s ?w0] =>
    destruct (try_count_atoms_total quiet s w0) as (n_all & w2 & H2) end.
  rewrite H2. unfold bind at 1.
  match goal with |- context [try_count_atoms host quiet ?s ?w0] =>
    destruct (try_count_atoms_total quiet s w0) as (n_no_h & w3 & H3) end.
  rewrite H3. unfold bind at 1.
  match goal with |- context [compute_mode host quiet n ?s ?w0] =>
    destruct (compute_mode_total quiet n s w0 Htame)
      as (m1 & a1 & p1 & w4 & H4 & Hf1) end.
  rewrite H4. unfold bind at 1.
  match goal with |- context [compute_mode host quiet n ?s ?w0] =>
    destruct (compute_mode_total quiet n s w0 Htame)
      as (m2 & a2 & p2 & w5 & H5 & Hf2) end.
  rewrite H5.
  match goal with |- context [summarize ?md m1 a1 p1] =>
    destruct (summarize_total md m1 a1 p1 Hf1) as (md1 & Hs1) end.
  unfold bind at 1. unfold lift at 1. rewrite Hs1.
  match goal with |- context [summarize ?md m2 a2 p2] =>
    destruct (summarize_total md m2 a2 p2 Hf2) as (md2 & Hs2) end.
  unfold bind at 1. unfold lift at 1. rewrite Hs2.
  unfold bind at 1.
  match goal with |- context [for_each ?ls (fun _ ln => _p quiet ln) tt ?w0] =>
    destruct (print_lines_total quiet ls w0) as (w6 & H6) end.
  rewrite H6. unfold bind at 1.
  match goal with
    |- context [export_or_hint host quiet export_report obj selection
                               report_path ?ls ?r0 ?w0] =>
    destruct (export_or_hint_total quiet export_report obj selection
                report_path ls r0 w0 Hexp) as (r' & w7 & H7);
    pose proof (export_or_hint_frame host _ _ _ _ _ _ _ _ _ _ H7)
      as (_ & _ & Hst & _)
  end.
  rewrite H7.
  exists r', w7. split; [reflexivity|]. rewrite Hst. reflexivity.
Qed.

End Totality.

(** X1.  What is contained.  With a valid [display_level]: (1) if the
    state count raises, the function does not raise; it returns the
    initial result, with [states = 0], both modes empty, and [error] set
    to a message that ends with the failure's own text, after one host
    call and nothing else; (2) if the state count succeeds, the provider
    is tame when it does return (an int that fits a float, no positive
    infinity), and the export is requested or [os.getcwd()] succeeds,
    then no failure of the atom counts, of the RMS query of a state or
    of the file system aborts the analysis: the function returns a
    result for all the states counted. *)
Theorem state_count_failure_short_circuits :
  forall (Env : Type) (host : Host Env) (obj : string)
         (selection : option string) (quiet : bool) (display_level : Z)
         (export_report : bool) (report_path : string) (w : world Env),
    display_level = 0 \/ display_level = 1 \/ display_level = 2 ->
    (forall (exc : exn) (e1 : Env),
        cmd_count_states host obj (host_state w) = (Raise exc, e1) ->
        let err := "Failed to determine states for '" +:+ obj +:+ "': "
                   +:+ exn_str exc in
        calculate_rms_stats host (Some obj) selection quiet display_level
                            export_report report_path w
        = (Ok (Analysis (failed_result obj selection exc)),
           {| host_state := e1;
              calls := calls w ++ [CountStates obj];
              stdout := if quiet then stdout w else stdout w ++ [err] |})
        /\ Result.states (failed_result obj selection exc) = 0
        /\ Result.modes_all (failed_result obj selection exc) = empty_mode
        /\ Result.modes_no_hydrogen (failed_result obj selection exc) = empty_mode
        /\ Result.error (failed_result obj selection exc) = Some err)
    /\ (forall (n : Z) (e1 : Env),
          cmd_count_states host obj (host_state w) = (Ok n, e1) ->
          tame_provider host ->
          export_report = true \/ getcwd_succeeds host ->
          exists (r : Result.t) (w' : world Env),
            calculate_rms_stats host (Some obj) selection quiet display_level
                                export_report report_path w
            = (Ok (Analysis r), w')
            /\ Result.states r = n).
Proof.
  intros Env host obj selection quiet display_level export_report
         report_path w Hlevel.
  assert (Hvalid : valid_display_level display_level = true).
  { unfold valid_display_level.
    destruct Hlevel as [-> | [-> | ->]]; reflexivity. }
  split.
  - intros exc e1 Hcs err. split; [|repeat split].
    unfold calculate_rms_stats. rewrite Hvalid. cbn [negb].
    unfold bind at 1. rewrite attempt_run.
    unfold count_states, host_call. rewrite Hcs. cbn [fst snd].
    unfold bind. rewrite _p_run. reflexivity.
  - intros n e1 Hcs Htame Hexp.
    apply (calculate_rms_stats_total host obj selection quiet display_level
             export_report report_path w n e1 Hvalid Hcs Htame Hexp).
Qed.

Lemma flaky_host_tame : tame_provider flaky_host.
Proof.
  intros sel i e v e' H. simpl in H. unfold flaky_rms, demo_rms in H.
  destruct (i =? 2); [discriminate H|].
  destruct (i =? 1); inversion H; reflexivity.
Qed.

(** Witness of [state_count_failure_short_circuits]: the host whose
    state count fails with "Invalid object"; and the host that counts
    three states and then fails at both atom counts, at the RMS of
    state 2 and at the write of the report, on which the run still
    returns a result for three states. *)
Lemma state_count_failure_short_circuits_witness :
  calculate_rms_stats failing_host (Some "1A1T") (Some "all") false 1 false "."
                      start
  = (Ok (Analysis (failed_result "1A1T" (Some "all") (HostError "Invalid object"))),
     {| host_state := tt;
        calls := [CountStates "1A1T"];
        stdout := ["Failed to determine states for '1A1T': Invalid object"] |})
  /\ exists (r : Result.t) (w' : world unit),
       calculate_rms_stats flaky_host (Some "1A1T") (Some "all") true 1 true
                           "reports" start
       = (Ok (Analysis r), w')
       /\ Result.states r = 3.
Proof.
  split.
  - exact (proj1 (proj1 (state_count_failure_short_circuits unit failing_host
                           "1A1T" (Some "all") false 1 false "." start
                           (or_intror (or_introl eq_refl)))
                        (HostError "Invalid object") tt eq_refl)).
  - exact (proj2 (state_count_failure_short_circuits unit flaky_host
                    "1A1T" (Some "all") true 1 true "reports" start
                    (or_intror (or_introl eq_refl)))
                 3 tt eq_refl flaky_host_tame (or_introl eq_refl)).
Defined.

(** What the run on the failing-everywhere host returns: no atom
    counts, a NaN mean for state 2, and the failed write in [error]. *)
Example flaky_run :
  match calculate_rms_stats flaky_host (Some "1A1T") (Some "all") true 1 true
                            "reports" start with
  | (Ok (Analysis r), _) =>
      Result.states r = 3
      /\ Result.atom_counts_all r = None
      /\ Result.atom_counts_no_hydrogen r = None
      /\ per_state_means (Result.modes_all r) !! 2 = Some nan
      /\ all_rms (Result.modes_all r) = [f1_0; f2_0; f3_0]
      /\ Result.report_file r = None
      /\ Result.error r
         = Some "Failed to write report to 'reports': No space left on device"
  | _ => False
  end.
Proof. vm_compute. repeat split; reflexivity. Qed.

(** ** The [quiet] flag *)

Section Quiet.

Context {Env : Type}.

Lemma console_apart_ret {A : Type} (a : A) : console_apart (@ret Env A a) (ret a).
Proof. intros w1 w2 H. split; [reflexivity | exact H]. Qed.

Lemma console_apart_raise {A : Type} (e : exn) :
  console_apart (@raise Env A e) (raise e).
Proof. intros w1 w2 H. split; [reflexivity | exact H]. Qed.

Lemma console_apart_lift {A : Type} (r : res A) :
  console_apart (@lift Env A r) (lift r).
Proof. intros w1 w2 H. split; [reflexivity | exact H]. Qed.

Lemma console_apart_bind {A B : Type} (c1 c2 : M Env A) (k1 k2 : A -> M Env B) :
  console_apart c1 c2 ->
  (forall a, console_apart (k1 a) (k2 a)) ->
  console_apart (bind c1 k1) (bind c2 k2).
Proof.
  intros Hc Hk w1 w2 H. unfold bind.
  destruct (Hc w1 w2 H) as [Hf Hs].
  destruct (c1 w1) as [r1 v1], (c2 w2) as [r2 v2]. simpl in Hf, Hs. subst r2.
  destruct r1 as [a|e].
  - apply Hk, Hs.
  - split; [reflexivity | exact Hs].
Qed.

Lemma console_apart_attempt {A : Type} (c1 c2 : M Env A) :
  console_apart c1 c2 -> console_apart (attempt c1) (attempt c2).
Proof.
  intros Hc w1 w2 H. rewrite !attempt_run. simpl.
  destruct (Hc w1 w2 H) as [-> Hs]. split; [reflexivity | exact Hs].
Qed.

Lemma console_apart_host_call {A : Type} (c : call) (op : Env -> res A * Env) :
  console_apart (host_call c op) (host_call c op).
Proof.
  intros w1 w2 [Hh Hc]. unfold host_call. rewrite Hh.
  destruct (op (host_state w2)) as [r e']. simpl.
  split; [reflexivity|]. split; simpl; [reflexivity | rewrite Hc; reflexivity].
Qed.

Lemma console_apart_host_query {A : Type} (c : call) (op : Env -> A * Env) :
  console_apart (host_query c op) (host_query c op).
Proof.
  intros w1 w2 [Hh Hc]. unfold host_query. rewrite Hh.
  destruct (op (host_state w2)) as [r e']. simpl.
  split; [reflexivity|]. split; simpl; [reflexivity | rewrite Hc; reflexivity].
Qed.

(** Printing or not, and whatever is printed, is the same apart from
    the console. *)
Lemma console_apart__p (q1 q2 : bool) (s1 s2 : string) :
  console_apart (@_p Env q1 s1) (_p q2 s2).
Proof.
  intros w1 w2 H. rewrite !_p_run. simpl. split; [reflexivity | exact H].
Qed.

Lemma console_apart_print_or_not (b1 b2 : bool) (s : string) :
  console_apart (if b1 then @print Env s else ret tt)
                (if b2 then print s else ret tt).
Proof.
  intros w1 w2 H. destruct b1, b2; simpl; split; try reflexivity; exact H.
Qed.

Lemma console_apart_for_each {A B : Type} (f g : B -> A -> M Env B) (l : list A) :
  (forall acc x, console_apart (f acc x) (g acc x)) ->
  forall acc, console_apart (for_each l f acc) (for_each l g acc).
Proof.
  intros H. induction l as [|x l IH]; intros acc; simpl.
  - apply console_apart_ret.
  - apply console_apart_bind; [apply H | exact IH].
Qed.

Lemma silent_ret {A : Type} (a : A) : silent (@ret Env A a).
Proof. intros w. reflexivity. Qed.

Lemma silent_raise {A : Type} (e : exn) : silent (@raise Env A e).
Proof. intros w. reflexivity. Qed.

Lemma silent_lift {A : Type} (r : res A) : silent (@lift Env A r).
Proof. intros w. reflexivity. Qed.

Lemma silent_bind {A B : Type} (c : M Env A) (k : A -> M Env B) :
  silent c -> (forall a, silent (k a)) -> silent (bind c k).
Proof.
  intros Hc Hk w. unfold bind. specialize (Hc w).
  destruct (c w) as [[a|e] w1]; simpl in Hc.
  - rewrite Hk. exact Hc.
  - exact Hc.
Qed.

Lemma silent_attempt {A : Type} (c : M Env A) : silent c -> silent (attempt c).
Proof. intros Hc w. rewrite attempt_run. simpl. apply Hc. Qed.

Lemma silent_host_call {A : Type} (c : call) (op : Env -> res A * Env) :
  silent (host_call c op).
Proof.
  intros w. unfold host_call. destruct (op (host_state w)). reflexivity.
Qed.

Lemma silent_host_query {A : Type} (c : call) (op : Env -> A * Env) :
  silent (host_query c op).
Proof.
  intros w. unfold host_query. destruct (op (host_state w)). reflexivity.
Qed.

Lemma silent__p (s : string) : silent (@_p Env true s).
Proof. intros w. rewrite _p_run. reflexivity. Qed.

Lemma silent_for_each {A B : Type} (f : B -> A -> M Env B) (l : list A) :
  (forall acc x, silent (f acc x)) -> forall acc, silent (for_each l f acc).
Proof.
  intros H. induction l as [|x l IH]; intros acc; simpl.
  - apply silent_ret.
  - apply silent_bind; [apply H | exact IH].
Qed.

End Quiet.

Section QuietRun.

Context {Env : Type} (host : Host Env).

Lemma console_apart_maybe__p (b1 b2 q1 q2 : bool) (s1 s2 : string) :
  console_apart (if b1 then @_p Env q1 s1 else ret tt)
                (if b2 then _p q2 s2 else ret tt).
Proof.
  intros w1 w2 H.
  destruct b1, b2; rewrite ?_p_run; simpl; split; try reflexivity; exact H.
Qed.

Lemma console_apart_try_count_atoms q1 q2 sel :
  console_apart (try_count_atoms host q1 sel) (try_count_atoms host q2 sel).
Proof.
  unfold try_count_atoms, count_atoms.
  apply console_apart_bind.
  - apply console_apart_attempt, console_apart_host_call.
  - intros [n|exc].
    + apply console_apart_ret.
    + apply console_apart_bind; [apply console_apart__p|].
      intros _. apply console_apart_ret.
Qed.

Lemma console_apart_compute_state q1 q2 sel acc k :
  console_apart (compute_state host q1 sel acc k) (compute_state host q2 sel acc k).
Proof.
  destruct acc as [[m a] p]. unfold compute_state, intra_fit.
  apply console_apart_bind.
  - apply console_apart_attempt, console_apart_host_call.
  - intros [v|exc].
    + apply console_apart_bind; [apply console_apart_lift|].
      intros l. destruct (keep_non_negative l).
      * apply console_apart_ret.
      * apply console_apart_bind; [apply console_apart_lift|].
        intros mu. apply console_apart_ret.
    + apply console_apart_bind; [apply console_apart__p|].
      intros _. apply console_apart_ret.
Qed.

Lemma console_apart_compute_mode q1 q2 states sel :
  console_apart (compute_mode host q1 states sel) (compute_mode host q2 states sel).
Proof.
  unfold compute_mode. apply console_apart_for_each.
  intros acc x. apply console_apart_compute_state.
Qed.

Lemma console_apart_report_file_path obj selection report_path :
  console_apart (report_file_path host obj selection report_path)
                (report_file_path host obj selection report_path).
Proof.
  unfold report_file_path.
  apply console_apart_bind; [apply console_apart_host_call|].
  intros there. apply console_apart_bind.
  - destruct there; [apply console_apart_host_call | apply console_apart_ret].
  - intros is_dir. destruct is_dir.
    + apply console_apart_bind; [apply console_apart_host_query|].
      intros now. apply console_apart_ret.
    + apply console_apart_ret.
Qed.

Lemma console_apart_write_report q1 q2 obj selection report_path report_lines :
  console_apart (write_report host q1 obj selection report_path report_lines)
                (write_report host q2 obj selection report_path report_lines).
Proof.
  unfold write_report.
  apply console_apart_bind; [apply console_apart_report_file_path|].
  intros file_path.
  apply console_apart_bind; [apply console_apart_host_call|].
  intros parent_there. apply console_apart_bind.
  - destruct parent_there; simpl;
      [apply console_apart_ret | apply console_apart_host_call].
  - intros _. apply console_apart_bind; [apply console_apart_host_call|].
    intros _. apply console_apart_bind; [apply console_apart_host_call|].
    intros resolved. apply console_apart_bind.
    + apply console_apart_maybe__p.
    + intros _. apply console_apart_ret.
Qed.

Lemma console_apart_export_or_hint q1 q2 export_report obj selection
      report_path report_lines r :
  console_apart
    (export_or_hint host q1 export_report obj selection report_path report_lines r)
    (export_or_hint host q2 export_report obj selection report_path report_lines r).
Proof.
  unfold export_or_hint. destruct export_report.
  - apply console_apart_bind.
    + apply console_apart_attempt, console_apart_write_report.
    + intros [resolved|exc].
      * apply console_apart_ret.
      * apply console_apart_bind; [apply console_apart__p|].
        intros _. apply console_apart_ret.
  - apply console_apart_bind; [apply console_apart__p|]. intros _.
    apply console_apart_bind; [apply console_apart__p|]. intros _.
    apply console_apart_bind; [apply console_apart_host_call|]. intros cwd.
    apply console_apart_bind; [apply console_apart__p|]. intros _.
    apply console_apart_ret.
Qed.

(** Apart from the console, a run does not depend on [quiet]. *)
Lemma console_apart_calculate_rms_stats q1 q2 obj_to_fit selection
      display_level export_report report_path :
  console_apart
    (calculate_rms_stats host obj_to_fit selection q1 display_level
                         export_report report_path)
    (calculate_rms_stats host obj_to_fit selection q2 display_level
                         export_report report_path).
Proof.
  unfold calculate_rms_stats. destruct obj_to_fit as [obj|].
  2: { apply console_apart_bind; [apply console_apart_print_or_not|].
       intros _. apply console_apart_ret. }
  destruct (valid_display_level display_level); cbn [negb];
    [|apply console_apart_raise].
  apply console_apart_bind.
  { unfold count_states. apply console_apart_attempt, console_apart_host_call. }
  intros [n|exc].
  2: { apply console_apart_bind; [apply console_apart__p|].
       intros _. apply console_apart_ret. }
  apply console_apart_bind; [apply console_apart_try_count_atoms|]. intros n_all.
  apply console_apart_bind; [apply console_apart_try_count_atoms|]. intros n_no_h.
  apply console_apart_bind; [apply console_apart_compute_mode|].
  intros [[per_all all_rms_all] per_pairs_all].
  apply console_apart_bind; [apply console_apart_compute_mode|].
  intros [[per_no_h all_rms_no_h] per_pairs_no_h].
  apply console_apart_bind; [apply console_apart_lift|]. intros m_all.
  apply console_apart_bind; [apply console_apart_lift|]. intros m_no_h.
  apply console_apart_bind.
  { apply console_apart_for_each. intros acc ln. apply console_apart__p. }
  intros _.
  apply console_apart_bind; [apply console_apart_export_or_hint|]. intros r.
  apply console_apart_ret.
Qed.

Lemma silent_try_count_atoms sel : silent (try_count_atoms host true sel).
Proof.
  unfold try_count_atoms, count_atoms. apply silent_bind.
  - apply silent_attempt, silent_host_call.
  - intros [n|exc]; [apply silent_ret|].
    apply silent_bind; [apply silent__p | intros _; apply silent_ret].
Qed.

Lemma silent_compute_mode states sel : silent (compute_mode host true states sel).
Proof.
  unfold compute_mode. apply silent_for_each.
  intros [[m a] p] k. unfold compute_state, intra_fit. apply silent_bind.
  - apply silent_attempt, silent_host_call.
  - intros [v|exc].
    + apply silent_bind; [apply silent_lift|].
      intros l. destruct (keep_non_negative l); [apply silent_ret|].
      apply silent_bind; [apply silent_lift | intros mu; apply silent_ret].
    + apply silent_bind; [apply silent__p | intros _; apply silent_ret].
Qed.

Lemma silent_write_report obj selection report_path report_lines :
  silent (write_report host true obj selection report_path report_lines).
Proof.
  unfold write_report, report_file_path.
  apply silent_bind.
  { apply silent_bind; [apply silent_host_call|]. intros there.
    apply silent_bind.
    - destruct there; [apply silent_host_call | apply silent_ret].
    - intros [|]; [|apply silent_ret].
      apply silent_bind; [apply silent_host_query | intros now; apply silent_ret]. }
  intros file_path. apply silent_bind; [apply silent_host_call|].
  intros parent_there. apply silent_bind.
  { destruct parent_there; simpl; [apply silent_ret | apply silent_host_call]. }
  intros _. apply silent_bind; [apply silent_host_call|].
  intros _. apply silent_bind; [apply silent_host_call|].
  intros resolved. simpl. apply silent_bind; [apply silent_ret|].
  intros _. apply silent_ret.
Qed.

(** A quiet run prints nothing. *)
Lemma silent_calculate_rms_stats obj_to_fit selection display_level
      export_report report_path :
  silent (calculate_rms_stats host obj_to_fit selection true display_level
                              export_report report_path).
Proof.
  unfold calculate_rms_stats. destruct obj_to_fit as [obj|].
  2: { simpl. apply silent_bind; [apply silent_ret | intros _; apply silent_ret]. }
  destruct (valid_display_level display_level); cbn [negb]; [|apply silent_raise].
  apply silent_bind.
  { unfold count_states. apply silent_attempt, silent_host_call. }
  intros [n|exc].
  2: { apply silent_bind; [apply silent__p | intros _; apply silent_ret]. }
  apply silent_bind; [apply silent_try_count_atoms|]. intros n_all.
  apply silent_bind; [apply silent_try_count_atoms|]. intros n_no_h.
  apply silent_bind; [apply silent_compute_mode|].
  intros [[per_all all_rms_all] per_pairs_all].
  apply silent_bind; [apply silent_compute_mode|].
  intros [[per_no_h all_rms_no_h] per_pairs_no_h].
  apply silent_bind; [apply silent_lift|]. intros m_all.
  apply silent_bind; [apply silent_lift|]. intros m_no_h.
  apply silent_bind.
  { apply silent_for_each. intros acc ln. apply silent__p. }
  intros _. apply silent_bind; [|intros r; apply silent_ret].
  unfold export_or_hint. destruct export_report.
  - apply silent_bind.
    + apply silent_attempt, silent_write_report.
    + intros [resolved|exc]; [apply silent_ret|].
      apply silent_bind; [apply silent__p | intros _; apply silent_ret].
  - apply silent_bind; [apply silent__p|]. intros _.
    apply silent_bind; [apply silent__p|]. intros _.
    apply silent_bind; [apply silent_host_call|]. intros cwd.
    apply silent_bind; [apply silent__p | intros _; apply silent_ret].
Qed.

End QuietRun.

(** C10.  For fixed arguments and a fixed host, the run with
    [quiet = True] and the run with [quiet = False] return the same value
    (or raise the same exception), leave the host in the same state and
    make the same host calls in the same order, the write of the report
    with its path and content among them; the quiet run prints nothing.
    So [quiet] decides what reaches the console, and nothing else. *)
Theorem quiet_changes_console_only :
  forall (Env : Type) (host : Host Env) (obj_to_fit selection : option string)
         (display_level : Z) (export_report : bool) (report_path : string)
         (w : world Env),
    let run quiet :=
      calculate_rms_stats host obj_to_fit selection quiet display_level
                          export_report report_path w in
    fst (run true) = fst (run false)
    /\ host_state (snd (run true)) = host_state (snd (run false))
    /\ calls (snd (run true)) = calls (snd (run false))
    /\ stdout (snd (run true)) = stdout w.
Proof.
  intros Env host obj_to_fit selection display_level export_report
         report_path w run.
  destruct (console_apart_calculate_rms_stats host true false obj_to_fit
              selection display_level export_report report_path w w)
    as (Hfst & Hhost & Hcalls).
  { split; reflexivity. }
  repeat split; try assumption.
  apply silent_calculate_rms_stats.
Qed.

(** ** The name of the exported file *)

(** On ASCII the characters kept are those of [[A-Za-z0-9_-]]. *)
Lemma safe_char_ascii (c : ascii) :
  (code c <? 128) = true ->
  safe_char c = (if in_safe_class c then c else "_"%char).
Proof.
  destruct c as [[] [] [] [] [] [] [] []]; intros H;
    first [discriminate H | vm_compute; reflexivity].
Qed.

Lemma map_safe_char_ascii (s : string) :
  ascii_only s = true -> map_chars safe_char s = spec_sanitize s.
Proof.
  unfold spec_sanitize. induction s as [|c r IH]; simpl; intros H.
  - reflexivity.
  - apply andb_true_iff in H as [Hc Hr].
    rewrite (safe_char_ascii c Hc), (IH Hr). reflexivity.
Qed.

(** A string without ["__"] is left alone by the collapse. *)
Lemma spec_collapse_fixed (s : string) :
  has_double_underscore s = false -> spec_collapse s = s.
Proof.
  induction s as [|c r IH]; simpl; intros H.
  - reflexivity.
  - destruct r as [|d r'].
    + reflexivity.
    + apply orb_false_iff in H as [Hcd Hr]. rewrite Hcd, (IH Hr). reflexivity.
Qed.

Lemma spec_collapse_cons (c : ascii) (r : string) :
  spec_collapse (String c r)
  = if is_underscore c && starts_with_underscore r
    then spec_collapse r
    else String c (spec_collapse r).
Proof.
  destruct r as [|d r']; simpl.
  - rewrite andb_false_r. reflexivity.
  - reflexivity.
Qed.

Lemma has_double_underscore_cons (c : ascii) (r : string) :
  has_double_underscore (String c r)
  = (is_underscore c && starts_with_underscore r) || has_double_underscore r.
Proof.
  destruct r as [|d r']; simpl.
  - rewrite andb_false_r. reflexivity.
  - reflexivity.
Qed.

Lemma starts_spec_collapse (s : string) :
  starts_with_underscore (spec_collapse s) = starts_with_underscore s.
Proof.
  induction s as [|c r IH].
  - reflexivity.
  - rewrite spec_collapse_cons.
    destruct (is_underscore c && starts_with_underscore r) eqn:H.
    + apply andb_true_iff in H as [Hc Hr]. rewrite IH, Hr. simpl. congruence.
    + reflexivity.
Qed.

(** The collapse leaves no ["__"]. *)
Lemma spec_collapse_done (s : string) :
  has_double_underscore (spec_collapse s) = false.
Proof.
  induction s as [|c r IH].
  - reflexivity.
  - rewrite spec_collapse_cons.
    destruct (is_underscore c && starts_with_underscore r) eqn:H.
    + exact IH.
    + rewrite has_double_underscore_cons, starts_spec_collapse, H, IH.
      reflexivity.
Qed.

Lemma starts_replace (s : string) :
  starts_with_underscore (replace_double_underscore s) = starts_with_underscore s.
Proof.
  destruct s as [|c [|d r']]; simpl; try reflexivity.
  destruct (is_underscore c && is_underscore d) eqn:H; simpl.
  - apply andb_true_iff in H as [Hc _]. rewrite Hc. reflexivity.
  - reflexivity.
Qed.

Lemma is_underscore_eq (c : ascii) : is_underscore c = true -> c = "_"%char.
Proof. unfold is_underscore. apply Ascii.eqb_eq. Qed.

Lemma replace_double_underscore_cons (c d : ascii) (r : string) :
  replace_double_underscore (String c (String d r))
  = if is_underscore c && is_underscore d
    then String "_" (replace_double_underscore r)
    else String c (replace_double_underscore (String d r)).
Proof. reflexivity. Qed.

(** One round of [replace("__", "_")] does not change what the
    collapse gives. *)
Lemma spec_collapse_replace (n : nat) :
  forall s, (String.length s <= n)%nat ->
            spec_collapse (replace_double_underscore s) = spec_collapse s.
Proof.
  induction n as [|n IH]; intros s Hlen.
  - destruct s; [reflexivity | simpl in Hlen; lia].
  - destruct s as [|c [|d r']]; try reflexivity.
    rewrite replace_double_underscore_cons.
    destruct (is_underscore c && is_underscore d) eqn:H.
    + apply andb_true_iff in H as [Hc Hd].
      rewrite (spec_collapse_cons c (String d r')).
      cbn [starts_with_underscore]. rewrite Hc, Hd. cbn [andb].
      rewrite !spec_collapse_cons. rewrite starts_replace.
      rewrite IH by (simpl in *; lia).
      rewrite (is_underscore_eq d Hd). reflexivity.
    + rewrite (spec_collapse_cons c (replace_double_underscore (String d r'))).
      rewrite (spec_collapse_cons c (String d r')).
      rewrite starts_replace. rewrite IH by (simpl in *; lia). reflexivity.
Qed.

(** A round that finds ["__"] shortens the string. *)
Lemma length_replace (n : nat) :
  forall s, (String.length s <= n)%nat ->
            (String.length (replace_double_underscore s) <= String.length s)%nat
            /\ (has_double_underscore s = true ->
                (String.length (replace_double_underscore s) < String.length s)%nat).
Proof.
  induction n as [|n IH]; intros s Hlen.
  - destruct s; [|cbn [String.length] in Hlen; lia].
    split; [simpl; lia | discriminate].
  - destruct s as [|c [|d r']].
    + split; [simpl; lia | discriminate].
    + split; [simpl; lia | discriminate].
    + rewrite replace_double_underscore_cons.
      cbn [String.length] in Hlen.
      destruct (is_underscore c && is_underscore d) eqn:H.
      * destruct (IH r') as [Hle _]; [lia|].
        cbn [String.length]. split; [lia | intros _; lia].
      * destruct (IH (String d r')) as [Hle Hlt];
          [cbn [String.length]; lia|].
        rewrite has_double_underscore_cons. cbn [starts_with_underscore].
        rewrite H. cbn [orb]. cbn [String.length] in *.
        split; [lia|]. intros Hdd. specialize (Hlt Hdd). lia.
Qed.

(** The loop of lines 358-359 computes the collapse, with fuel to
    spare. *)
Lemma collapse_loop_spec (fuel : nat) :
  forall s, (String.length s <= fuel)%nat -> collapse_loop fuel s = spec_collapse s.
Proof.
  induction fuel as [|fuel IH]; intros s Hlen.
  - destruct s; [reflexivity | simpl in Hlen; lia].
  - cbn [collapse_loop]. destruct (has_double_underscore s) eqn:H.
    + destruct (length_replace (String.length s) s (le_n _)) as [_ Hlt].
      rewrite IH by (specialize (Hlt H); lia).
      apply (spec_collapse_replace (String.length s)). lia.
    + symmetry. apply spec_collapse_fixed, H.
Qed.

Lemma collapse_underscores_spec (s : string) :
  collapse_underscores s = spec_collapse s.
Proof. apply collapse_loop_spec. lia. Qed.

(** When the loop stops, no ["__"] is left. *)
Lemma collapse_underscores_done (s : string) :
  has_double_underscore (collapse_underscores s) = false.
Proof. rewrite collapse_underscores_spec. apply spec_collapse_done. Qed.

(** *** The triviality test *)

Lemma lower_char_space (c : ascii) :
  isspace c = true -> isspace (lower_char c) = true.
Proof.
  destruct c as [[] [] [] [] [] [] [] []]; intros H;
    first [discriminate H | vm_compute; reflexivity].
Qed.

(** A string that lowers to ["all"] has no white space to strip. *)
Lemma lower_all_strip (s : string) : lower s = "all" -> strip s = s.
Proof.
  destruct s as [|c1 [|c2 [|c3 [|c4 r]]]]; unfold lower; cbn [map_chars];
    intros H; try discriminate H.
  injection H as H1 H2 H3.
  assert (S1 : isspace c1 = false).
  { destruct (isspace c1) eqn:E; [|reflexivity].
    apply lower_char_space in E. rewrite H1 in E. vm_compute in E.
    discriminate E. }
  assert (S3 : isspace c3 = false).
  { destruct (isspace c3) eqn:E; [|reflexivity].
    apply lower_char_space in E. rewrite H3 in E. vm_compute in E.
    discriminate E. }
  unfold strip, strip_by. cbn [lstrip_by]. rewrite S1.
  cbn [rstrip_by]. rewrite S3. reflexivity.
Qed.

(** The [_sel_] segment is only there for a selection that is not
    empty, not white space only, and not ["all"] in any case. *)
Lemma include_sel_nontrivial (sel_str : string) :
  include_sel sel_str = true ->
  sel_str <> "" /\ strip sel_str <> "" /\ lower sel_str <> "all".
Proof.
  unfold include_sel. intros H. apply andb_true_iff in H as [H1 H2].
  apply negb_true_iff in H1, H2.
  apply String.eqb_neq in H1. apply String.eqb_neq in H2.
  repeat split.
  - intros ->. apply H1. reflexivity.
  - exact H1.
  - intros Hall. apply H2. rewrite (lower_all_strip _ Hall). exact Hall.
Qed.

(** *** The time stamp *)

Lemma two_digits_zfill (z : Z) : 0 <= z <= 99 -> two_digits (zfill 2 z) = true.
Proof.
  intros Hz.
  assert (H : forallb (fun z => two_digits (zfill 2 z)) (seqZ 0 100) = true)
    by (vm_compute; reflexivity).
  rewrite List.forallb_forall in H. apply H.
  apply list_elem_of_In, elem_of_seqZ. lia.
Qed.

Lemma four_digits_zfill (z : Z) :
  1000 <= z <= 9999 -> four_digits (zfill 4 z) = true.
Proof.
  intros Hz.
  assert (H : forallb (fun z => four_digits (zfill 4 z)) (seqZ 1000 9000) = true)
    by (vm_compute; reflexivity).
  rewrite List.forallb_forall in H. apply H.
  apply list_elem_of_In, elem_of_seqZ. lia.
Qed.

(** For a date of the years 1000 to 9999 the time stamp is eight
    digits, an underscore and six digits. *)
Lemma strftime_shape (t : datetime) :
  valid_datetime t -> timestamp_shape (strftime t) = true.
Proof.
  intros (Hy & Hm & Hd & Hh & Hn & Hs). unfold strftime.
  pose proof (four_digits_zfill _ Hy) as Ey.
  pose proof (two_digits_zfill (month t) ltac:(lia)) as Em.
  pose proof (two_digits_zfill (day t) ltac:(lia)) as Ed.
  pose proof (two_digits_zfill (hour t) ltac:(lia)) as Eh.
  pose proof (two_digits_zfill (minute t) ltac:(lia)) as En.
  pose proof (two_digits_zfill (second t) ltac:(lia)) as Es.
  destruct (zfill 4 (year t)) as [|y1 [|y2 [|y3 [|y4 [|? ?]]]]]; try discriminate Ey.
  destruct (zfill 2 (month t)) as [|m1 [|m2 [|? ?]]]; try discriminate Em.
  destruct (zfill 2 (day t)) as [|d1 [|d2 [|? ?]]]; try discriminate Ed.
  destruct (zfill 2 (hour t)) as [|h1 [|h2 [|? ?]]]; try discriminate Eh.
  destruct (zfill 2 (minute t)) as [|n1 [|n2 [|? ?]]]; try discriminate En.
  destruct (zfill 2 (second t)) as [|s1 [|s2 [|? ?]]]; try discriminate Es.
  cbn [four_digits two_digits] in Ey, Em, Ed, Eh, En, Es.
  repeat match goal with
         | H : _ && _ = true |- _ => apply andb_true_iff in H as [? ?]
         end.
  unfold timestamp_shape. cbv -[is_digit].
  repeat match goal with
         | H : is_digit _ = true |- _ => rewrite H; clear H
         end.
  reflexivity.
Qed.

(** A character is kept when [isalnum] accepts it or it belongs to
    [[A-Za-z0-9_-]]; any other becomes an underscore. *)
Lemma safe_char_kept (c : ascii) :
  safe_char c = (if isalnum c || in_safe_class c then c else "_"%char).
Proof.
  destruct c as [[] [] [] [] [] [] [] []]; vm_compute; reflexivity.
Qed.

(** C8, amended.  When the destination is an existing directory, the
    file written is the directory joined with
    [rms_report_<object><_sel_<selection>>_<timestamp>.txt], where: the
    object is sanitized character by character and cut to 30 characters;
    a character is kept when [str.isalnum] accepts it or it is [-] or
    [_], which on ASCII text is exactly the class [[A-Za-z0-9_-]], so
    that there the name is the one the spec words; the [_sel_] segment
    is there only for a selection that is not empty, not white space
    only and not ["all"] in any case, sanitized the same way, with
    consecutive underscores collapsed, leading and trailing underscores
    trimmed, and cut to 40 characters; and the time stamp of a date of
    the years 1000 to 9999 has the shape [YYYYMMDD_HHMMSS]. *)
Theorem export_filename_shape :
  forall (Env : Type) (host : Host Env) (obj : string)
         (selection : option string) (report_path : string) (w : world Env)
         (e1 e2 e3 : Env) (now : datetime),
    path_exists host report_path (host_state w) = (Ok true, e1) ->
    path_is_dir host report_path e1 = (Ok true, e2) ->
    datetime_now host e2 = (now, e3) ->
    let sel_str := match selection with None => "" | Some s => s end in
    let name := report_filename obj selection (strftime now) in
    fst (report_file_path host obj selection report_path w)
    = Ok (path_join host report_path name)
    /\ name
       = "rms_report_" +:+ take 30 (map_chars safe_char obj)
         +:+ (if include_sel sel_str
              then "_sel_" +:+ take 40 (strip_underscores
                                          (spec_collapse
                                             (map_chars safe_char sel_str)))
              else "")
         +:+ "_" +:+ strftime now +:+ ".txt"
    /\ (forall c : ascii,
          safe_char c = if isalnum c || in_safe_class c then c else "_"%char)
    /\ (ascii_only obj = true -> ascii_only sel_str = true ->
        name = spec_report_filename obj selection (strftime now))
    /\ (include_sel sel_str = true ->
        sel_str <> "" /\ strip sel_str <> "" /\ lower sel_str <> "all")
    /\ (valid_datetime now -> timestamp_shape (strftime now) = true).
Proof.
  intros Env host obj selection report_path w e1 e2 e3 now Hex Hdir Hnow
         sel_str name.
  assert (Hname : name
                  = "rms_report_" +:+ take 30 (map_chars safe_char obj)
                    +:+ (if include_sel sel_str
                         then "_sel_" +:+ take 40 (strip_underscores
                                                     (spec_collapse
                                                        (map_chars safe_char sel_str)))
                         else "")
                    +:+ "_" +:+ strftime now +:+ ".txt").
  { subst name. unfold report_filename. fold sel_str.
    rewrite collapse_underscores_spec. reflexivity. }
  repeat apply conj.
  - unfold report_file_path, bind, host_call, host_query.
    rewrite Hex. cbn [host_state]. rewrite Hdir. cbn [host_state].
    rewrite Hnow. reflexivity.
  - exact Hname.
  - exact safe_char_kept.
  - intros Hobj Hsel. rewrite Hname. unfold spec_report_filename. fold sel_str.
    rewrite (map_safe_char_ascii obj Hobj), (map_safe_char_ascii sel_str Hsel).
    reflexivity.
  - apply include_sel_nontrivial.
  - apply strftime_shape.
Qed.

(** Witness of [export_filename_shape]: the object [1A1T] with the
    selection [chain A], exported to the existing directory [reports]. *)
Lemma export_filename_shape_witness :
  fst (report_file_path demo_host "1A1T" (Some "chain A") "reports" start)
  = Ok "reports/rms_report_1A1T_sel_chain_A_20240307_090500.txt".
Proof.
  exact (proj1 (export_filename_shape unit demo_host "1A1T" (Some "chain A")
                  "reports" start tt tt tt demo_now eq_refl eq_refl eq_refl)).
Defined.

(** With a trivial selection the name has no [_sel_] segment. *)
Example export_filename_trivial_selection :
  report_filename "1A1T" (Some "all") (strftime demo_now)
  = "rms_report_1A1T_20240307_090500.txt"
  /\ report_filename "1A1T" (Some " ALL ") (strftime demo_now)
     = "rms_report_1A1T_20240307_090500.txt"
  /\ report_filename "my obj!" (Some "resn A+G+C+U") (strftime demo_now)
     = "rms_report_my_obj__sel_resn_A_G_C_U_20240307_090500.txt".
Proof. repeat split; vm_compute; reflexivity. Qed.

(** C8 as stated fails: for the object name [e-acute] (U+00E9, outside
    [[A-Za-z0-9_-]]) the code keeps the character, since [str.isalnum]
    accepts it, where the claim has an underscore. *)
Lemma export_filename_counterexample :
  report_filename e_acute None (strftime demo_now)
  = "rms_report_" +:+ e_acute +:+ "_20240307_090500.txt"
  /\ spec_report_filename e_acute None (strftime demo_now)
     = "rms_report___20240307_090500.txt"
  /\ report_filename e_acute None (strftime demo_now)
     <> spec_report_filename e_acute None (strftime demo_now).
Proof.
  repeat split; try (vm_compute; reflexivity).
  vm_compute. discriminate.
Qed.

(** ** The three levels of the report *)

Section ReportLevels.

Variables (selection : option string) (base_selection : string) (states : Z)
          (result : Result.t).

(** The report at each level, cut into its parts. *)
Lemma format_report_lines_level_0 :
  format_report_lines 0 selection base_selection states result
  = report_opening 0 ++ report_body selection base_selection states result
    ++ [note_level_0] ++ report_closing.
Proof.
  unfold format_report_lines, report_opening, report_body, level_line.
  cbn [Z.eqb Z.leb Z.compare Pos.compare Pos.compare_cont].
  rewrite <- !List.app_assoc. reflexivity.
Qed.

Lemma format_report_lines_level_1 :
  format_report_lines 1 selection base_selection states result
  = report_opening 1 ++ report_body selection base_selection states result
    ++ per_state_block states result ++ [note_level_1] ++ report_closing.
Proof.
  unfold format_report_lines, report_opening, report_body, level_line,
    per_state_block, per_state_table.
  cbn [Z.eqb Z.leb Z.compare Pos.compare Pos.compare_cont Pos.eqb].
  rewrite <- !List.app_assoc. reflexivity.
Qed.

Lemma format_report_lines_level_2 :
  format_report_lines 2 selection base_selection states result
  = report_opening 2 ++ report_body selection base_selection states result
    ++ per_state_block states result ++ detail_block states result
    ++ report_closing.
Proof.
  unfold format_report_lines, report_opening, report_body, level_line,
    per_state_block, per_state_table, detail_block.
  cbn [Z.eqb Z.leb Z.compare Pos.compare Pos.compare_cont Pos.eqb].
  rewrite <- !List.app_assoc. reflexivity.
Qed.

End ReportLevels.

(** *** Strings made of number characters *)

Lemma all_chars_append (p : ascii -> bool) (s t : string) :
  all_chars p (s +:+ t) = all_chars p s && all_chars p t.
Proof.
  induction s as [|c r IH]; simpl.
  - reflexivity.
  - rewrite IH, andb_assoc. reflexivity.
Qed.

Lemma all_chars_repeat_char (p : ascii -> bool) (c : ascii) (n : nat) :
  p c = true -> all_chars p (repeat_char c n) = true.
Proof.
  intros H. induction n as [|n IH]; simpl.
  - reflexivity.
  - rewrite H, IH. reflexivity.
Qed.

Lemma all_chars_take (p : ascii -> bool) (n : nat) (s : string) :
  all_chars p s = true -> all_chars p (take n s) = true.
Proof.
  revert s. induction n as [|n IH]; intros s H.
  - destruct s; reflexivity.
  - destruct s as [|c r]; [reflexivity|]. simpl in *.
    apply andb_true_iff in H as [Hc Hr]. rewrite Hc, (IH r Hr). reflexivity.
Qed.

Lemma all_chars_weaken (p q : ascii -> bool) (s : string) :
  (forall c, p c = true -> q c = true) ->
  all_chars p s = true -> all_chars q s = true.
Proof.
  intros Hpq. induction s as [|c r IH]; simpl; intros H.
  - reflexivity.
  - apply andb_true_iff in H as [Hc Hr]. rewrite (Hpq c Hc), (IH Hr). reflexivity.
Qed.

Lemma take_append (n : nat) (s t : string) :
  (n <= String.length s)%nat -> take n (s +:+ t) = take n s.
Proof.
  revert s. induction n as [|n IH]; intros s H.
  - destruct s; simpl; destruct t; reflexivity.
  - destruct s as [|c r]; [simpl in H; lia|]. simpl.
    rewrite IH by (simpl in H; lia). reflexivity.
Qed.

Lemma length_repeat_char (c : ascii) (n : nat) :
  String.length (repeat_char c n) = n.
Proof. induction n as [|n IH]; simpl; [reflexivity | rewrite IH; reflexivity]. Qed.

Lemma length_append (s t : string) :
  String.length (s +:+ t) = (String.length s + String.length t)%nat.
Proof. induction s as [|c r IH]; simpl; [reflexivity | rewrite IH; reflexivity]. Qed.

(** A line that begins with [s], all of whose characters are of the
    class [p], is not a line that has another character among its first
    [n], for [n] within [s]. *)
Lemma eqb_append_class (p : ascii -> bool) (n : nat) (x s rest : string) :
  all_chars p s = true ->
  (n <= String.length s)%nat ->
  all_chars p (take n x) = false ->
  String.eqb x (s +:+ rest) = false.
Proof.
  intros Hs Hn Hx. apply String.eqb_neq. intros ->.
  rewrite (take_append n s rest Hn) in Hx.
  rewrite (all_chars_take p n s Hs) in Hx. discriminate Hx.
Qed.

Lemma string_of_uint_digits (d : Decimal.uint) :
  all_chars is_int_char (NilEmpty.string_of_uint d) = true.
Proof. induction d; simpl; try reflexivity; exact IHd. Qed.

(** [str(z)] is made of digits and the minus sign, and is not empty. *)
Lemma str_of_int_chars (z : Z) :
  all_chars is_int_char (str_of_int z) = true
  /\ (1 <= String.length (str_of_int z))%nat.
Proof.
  unfold str_of_int, NilZero.string_of_int.
  destruct (Z.to_int z) as [d|d].
  - destruct d; simpl; (split; [try reflexivity; apply string_of_uint_digits | lia]).
  - destruct d; simpl; (split; [try reflexivity; apply string_of_uint_digits | lia]).
Qed.

(** A right-justified int is made of number characters and fills its
    width. *)
Lemma rjust_int_chars (w : nat) (z : Z) :
  all_chars is_number_char (rjust w (str_of_int z)) = true
  /\ (w <= String.length (rjust w (str_of_int z)))%nat.
Proof.
  unfold rjust. split.
  - rewrite all_chars_append, all_chars_repeat_char by reflexivity.
    apply (all_chars_weaken is_int_char).
    + intros c Hc. unfold is_number_char. rewrite Hc. reflexivity.
    + apply str_of_int_chars.
  - rewrite length_append, length_repeat_char. lia.
Qed.

(** *** Counting the headers *)

Lemma count_lines_app (x : string) (a b : list string) :
  count_lines x (a ++ b) = (count_lines x a + count_lines x b)%nat.
Proof. unfold count_lines. rewrite List.filter_app, length_app. reflexivity. Qed.

Lemma count_lines_cons_ne (x l : string) (ls : list string) :
  String.eqb x l = false -> count_lines x (l :: ls) = count_lines x ls.
Proof. unfold count_lines. simpl. intros ->. reflexivity. Qed.

Lemma count_lines_cons_eq (x : string) (ls : list string) :
  count_lines x (x :: ls) = S (count_lines x ls).
Proof. unfold count_lines. simpl. rewrite String.eqb_refl. reflexivity. Qed.

Lemma count_lines_map_none {A : Type} (x : string) (f : A -> string) (l : list A) :
  (forall a, String.eqb x (f a) = false) -> count_lines x (map f l) = 0%nat.
Proof.
  intros H. induction l as [|a l IH]; simpl.
  - reflexivity.
  - rewrite count_lines_cons_ne by apply H. exact IH.
Qed.

Lemma count_lines_concat_map {A : Type} (x : string) (f : A -> list string)
      (k : nat) (l : list A) :
  (forall a, count_lines x (f a) = k) ->
  count_lines x (concat (map f l)) = (k * length l)%nat.
Proof.
  intros H. induction l as [|a l IH]; simpl.
  - unfold count_lines. simpl. lia.
  - rewrite count_lines_app, H, IH, Nat.mul_succ_r. lia.
Qed.

(** A row of a per-state table is neither header. *)
Lemma per_state_row_not_header (mode : ModeResult) (s : Z) :
  String.eqb per_state_header (per_state_row mode s) = false
  /\ String.eqb per_pair_header (per_state_row mode s) = false.
Proof.
  unfold per_state_row.
  destruct (rjust_int_chars 5 s) as [Hc Hl]. split.
  - apply (eqb_append_class is_number_char 1); [exact Hc | lia | reflexivity].
  - apply (eqb_append_class is_number_char 2); [exact Hc | lia | reflexivity].
Qed.

(** No row of a per-pair table, and not its placeholder, is a header. *)
Lemma per_pair_rows_no_header (pairs : list float) :
  count_lines per_state_header (per_pair_rows pairs) = 0%nat
  /\ count_lines per_pair_header (per_pair_rows pairs) = 0%nat.
Proof.
  unfold per_pair_rows. destruct pairs as [|x l]; [split; reflexivity|].
  split; apply count_lines_map_none; intros [i val];
    destruct (rjust_int_chars 7 i) as [Hc Hl].
  - apply (eqb_append_class is_number_char 1); [exact Hc | lia | reflexivity].
  - apply (eqb_append_class is_number_char 2); [exact Hc | lia | reflexivity].
Qed.

Section ReportCounts.

Variables (selection : option string) (base_selection : string) (states : Z)
          (result : Result.t).

(** The metadata and the summary table hold no table header. *)
Lemma report_body_no_header :
  count_lines per_state_header
              (report_body selection base_selection states result) = 0%nat
  /\ count_lines per_pair_header
                 (report_body selection base_selection states result) = 0%nat.
Proof.
  unfold report_body.
  destruct (negb (selection_provided selection)); split; reflexivity.
Qed.

(** A per-state table holds its header once, and no per-pair header. *)
Lemma per_state_table_header (title : string) (mode : ModeResult) :
  String.eqb per_state_header title = false ->
  String.eqb per_pair_header title = false ->
  count_lines per_state_header (per_state_table title mode states) = 1%nat
  /\ count_lines per_pair_header (per_state_table title mode states) = 0%nat.
Proof.
  intros H1 H2. unfold per_state_table.
  rewrite !count_lines_app.
  rewrite !(count_lines_map_none _ (per_state_row mode))
    by (intros a; apply per_state_row_not_header).
  rewrite !(count_lines_cons_ne _ title) by assumption.
  rewrite count_lines_cons_eq.
  rewrite (count_lines_cons_ne per_pair_header per_state_header) by reflexivity.
  split; reflexivity.
Qed.

(** Lines 280-298 hold exactly two per-state tables, and no per-pair
    table. *)
Lemma per_state_block_header :
  count_lines per_state_header (per_state_block states result) = 2%nat
  /\ count_lines per_pair_header (per_state_block states result) = 0%nat.
Proof.
  unfold per_state_block.
  destruct (per_state_table_header "All atoms:" (Result.modes_all result)
              eq_refl eq_refl) as [A1 A2].
  destruct (per_state_table_header "Heavy atoms (no H):"
              (Result.modes_no_hydrogen result) eq_refl eq_refl) as [B1 B2].
  rewrite !count_lines_app, A1, A2, B1, B2. split; reflexivity.
Qed.

(** The heading of a state's detail is no header. *)
Lemma detail_heading_not_header (s : Z) (rest : string) :
  String.eqb per_state_header ("State " +:+ str_of_int s +:+ rest) = false
  /\ String.eqb per_pair_header ("State " +:+ str_of_int s +:+ rest) = false.
Proof.
  split; [|reflexivity].
  destruct (str_of_int_chars s) as [Hc Hl].
  change (String.eqb per_state_header ("State " +:+ str_of_int s +:+ rest))
    with (String.eqb "    Mean RMS     #pairs" (str_of_int s +:+ rest)).
  apply (eqb_append_class is_int_char 1); [exact Hc | lia | reflexivity].
Qed.

(** The four lines that open a per-pair table hold its header once. *)
Lemma detail_heading_block (s : Z) (rest : string) :
  count_lines per_state_header
              [ ""; "State " +:+ str_of_int s +:+ rest; per_pair_header;
                repeat_char "-" 22 ] = 0%nat
  /\ count_lines per_pair_header
                 [ ""; "State " +:+ str_of_int s +:+ rest; per_pair_header;
                   repeat_char "-" 22 ] = 1%nat.
Proof.
  split.
  - rewrite (count_lines_cons_ne _ "") by reflexivity.
    rewrite count_lines_cons_ne by apply detail_heading_not_header.
    reflexivity.
  - rewrite (count_lines_cons_ne _ "") by reflexivity.
    rewrite count_lines_cons_ne by apply detail_heading_not_header.
    reflexivity.
Qed.

(** The detail of one state holds two per-pair tables, one per mode,
    and no per-state table. *)
Lemma state_detail_header (s : Z) :
  count_lines per_state_header (state_detail result s) = 0%nat
  /\ count_lines per_pair_header (state_detail result s) = 2%nat.
Proof.
  unfold state_detail.
  rewrite !count_lines_app.
  destruct (per_pair_rows_no_header
              (default [] (per_state_pairs (Result.modes_all result) !! s)))
    as [A1 A2].
  destruct (per_pair_rows_no_header
              (default [] (per_state_pairs (Result.modes_no_hydrogen result) !! s)))
    as [B1 B2].
  rewrite A1, A2, B1, B2.
  match goal with
  | |- context [count_lines _ [ ""; "State " +:+ str_of_int s +:+ ?r;
                                per_pair_header; repeat_char "-" 22 ]] =>
      destruct (detail_heading_block s r) as [C1 C2]; rewrite C1, C2
  end.
  match goal with
  | |- context [count_lines _ [ ""; "State " +:+ str_of_int s +:+ ?r;
                                per_pair_header; repeat_char "-" 22 ]] =>
      destruct (detail_heading_block s r) as [D1 D2]; rewrite D1, D2
  end.
  split; reflexivity.
Qed.

(** Lines 302-325 hold two per-pair tables for every state. *)
Lemma detail_block_header :
  count_lines per_state_header (detail_block states result) = 0%nat
  /\ count_lines per_pair_header (detail_block states result)
     = (2 * Z.to_nat states)%nat.
Proof.
  unfold detail_block. rewrite !count_lines_app.
  rewrite (count_lines_concat_map per_state_header _ 0)
    by (intros a; apply state_detail_header).
  rewrite (count_lines_concat_map per_pair_header _ 2)
    by (intros a; apply state_detail_header).
  unfold range1. rewrite length_seqZ. split; reflexivity.
Qed.

End ReportCounts.

Lemma In_existsb (x : string) (l : list string) :
  In x l <-> existsb (String.eqb x) l = true.
Proof.
  rewrite List.existsb_exists. split.
  - intros H. exists x. split; [exact H | apply String.eqb_refl].
  - intros (y & Hy & E). apply String.eqb_eq in E. subst y. exact Hy.
Qed.

Lemma concat_map_infix {A B : Type} (f : A -> list B) (a : A) (l : list A) :
  In a l -> exists pre post, concat (map f l) = pre ++ f a ++ post.
Proof.
  intros H. apply List.in_split in H as (l1 & l2 & ->).
  exists (concat (map f l1)), (concat (map f l2)).
  rewrite List.map_app, List.concat_app. reflexivity.
Qed.

(** The openings differ in the level line only. *)
Lemma report_opening_In (d d' : Z) (l : string) :
  In l (report_opening d) -> l = level_line d \/ In l (report_opening d').
Proof.
  unfold report_opening. simpl. intros H.
  decompose [or] H; subst; try contradiction; tauto.
Qed.

(** C7, amended.  The report at level 0 is an opening, a body (the
    metadata and the summary table), a closing note and a closing; at
    level 1 it is the same with the level line and the note changed and
    the block of per-state tables put after the body; at level 2 it is
    the same with the level line changed and the per-pair detail in
    place of the note.  So: level 0 holds no per-state table and no
    per-pair table; level 1 holds every line of level 0 apart from the
    level line and the closing note, exactly one per-state table per mode
    with one row per state, and no per-pair table; level 2 holds every
    line of level 1 apart from the level line and the closing note, and
    the detail of every state, with one per-pair table per state and
    mode. *)
Theorem report_levels :
  forall (selection : option string) (base_selection : string) (states : Z)
         (result : Result.t),
    let lines d := format_report_lines d selection base_selection states result in
    let body := report_body selection base_selection states result in
    let tables := per_state_block states result in
    let detail := detail_block states result in
    (lines 0 = report_opening 0 ++ body ++ [note_level_0] ++ report_closing
     /\ lines 1 = report_opening 1 ++ body ++ tables ++ [note_level_1]
                  ++ report_closing
     /\ lines 2 = report_opening 2 ++ body ++ tables ++ detail ++ report_closing)
    /\ (count_lines per_state_header (lines 0) = 0%nat
        /\ count_lines per_pair_header (lines 0) = 0%nat)
    /\ (count_lines per_state_header (lines 1) = 2%nat
        /\ count_lines per_pair_header (lines 1) = 0%nat
        /\ forall s, 1 <= s <= states ->
             In (per_state_row (Result.modes_all result) s) (lines 1)
             /\ In (per_state_row (Result.modes_no_hydrogen result) s) (lines 1))
    /\ (count_lines per_state_header (lines 2) = 2%nat
        /\ count_lines per_pair_header (lines 2) = (2 * Z.to_nat states)%nat
        /\ forall s, 1 <= s <= states ->
             exists pre post, lines 2 = pre ++ state_detail result s ++ post)
    /\ (forall l, In l (lines 0) ->
          l = level_line 0 \/ l = note_level_0 \/ In l (lines 1))
    /\ (forall l, In l (lines 1) ->
          l = level_line 1 \/ l = note_level_1 \/ In l (lines 2)).
Proof.
  intros selection base_selection states result lines body tables detail.
  assert (L0 := format_report_lines_level_0 selection base_selection states result).
  assert (L1 := format_report_lines_level_1 selection base_selection states result).
  assert (L2 := format_report_lines_level_2 selection base_selection states result).
  fold (lines 0) in L0. fold (lines 1) in L1. fold (lines 2) in L2.
  fold body in L0, L1, L2. fold tables in L1, L2. fold detail in L2.
  destruct (report_body_no_header selection base_selection states result)
    as [B1 B2]. fold body in B1, B2.
  destruct (per_state_block_header states result) as [T1 T2].
  fold tables in T1, T2.
  destruct (detail_block_header states result) as [D1 D2].
  fold detail in D1, D2.
  assert (Hrange : forall s, 1 <= s <= states -> In s (range1 states)).
  { intros s Hs. apply list_elem_of_In, elem_of_seqZ. lia. }
  split; [auto|]. split; [|split; [|split; [|split]]].
  - rewrite L0, !count_lines_app, B1, B2. split; reflexivity.
  - rewrite L1, !count_lines_app, B1, B2, T1, T2.
    split; [reflexivity|]. split; [reflexivity|].
    intros s Hs. subst tables.
    unfold per_state_block, per_state_table.
    split; rewrite !List.in_app_iff.
    + right. right. left. right. left. right.
      apply List.in_map, Hrange, Hs.
    + right. right. left. right. right. right. left. right.
      apply List.in_map, Hrange, Hs.
  - rewrite L2, !count_lines_app, B1, B2, T1, T2, D1, D2.
    split; [reflexivity|]. split.
    { change (count_lines per_pair_header (report_opening 2)) with 0%nat.
      change (count_lines per_pair_header report_closing) with 0%nat. lia. }
    intros s Hs.
    destruct (concat_map_infix (state_detail result) s (range1 states)
                (Hrange s Hs)) as (pre & post & E).
    exists (report_opening 2 ++ body ++ tables
            ++ ["Detailed per-state individual pair RMS values:"] ++ pre),
      (post ++ report_closing).
    subst detail. unfold detail_block. rewrite E.
    rewrite <- !List.app_assoc. reflexivity.
  - intros l. rewrite L0, L1. rewrite !List.in_app_iff.
    intros [H | [H | [H | H]]].
    + destruct (report_opening_In 0 1 l H); tauto.
    + tauto.
    + simpl in H. destruct H as [<- | []]. tauto.
    + tauto.
  - intros l. rewrite L1, L2. rewrite !List.in_app_iff.
    intros [H | [H | [H | [H | H]]]].
    + destruct (report_opening_In 1 2 l H); tauto.
    + tauto.
    + tauto.
    + simpl in H. destruct H as [<- | []]. tauto.
    + tauto.
Qed.

(** C7 as stated fails: the level line and the closing note of the
    level-0 report are not lines of the level-1 report, and the level-0
    lines are no prefix of the level-1 lines. *)
Lemma report_levels_counterexample :
  In (level_line 0) (empty_report 0)
  /\ ~ In (level_line 0) (empty_report 1)
  /\ In note_level_0 (empty_report 0)
  /\ ~ In note_level_0 (empty_report 1)
  /\ ~ (exists k, empty_report 1 = empty_report 0 ++ k).
Proof.
  repeat split.
  - apply In_existsb. vm_compute. reflexivity.
  - rewrite In_existsb. vm_compute. discriminate.
  - apply In_existsb. vm_compute. reflexivity.
  - rewrite In_existsb. vm_compute. discriminate.
  - intros [k H].
    assert (E : nth_error (empty_report 1) 5 = nth_error (empty_report 0 ++ k) 5)
      by (rewrite H; reflexivity).
    vm_compute in E. discriminate E.
Qed.

(** ** A run with export, end to end *)

(** On the demonstration host, the level-2 run for the selection
    [chain A] with export to the directory [reports] writes one file,
    named as [report_filename] says, and stores its resolved path. *)
Example export_run :
  match calculate_rms_stats demo_host (Some "1A1T") (Some "chain A") true 2
                            true "reports" start with
  | (Ok (Analysis r), w') =>
      Result.report_file r
      = Some "/home/user/reports/rms_report_1A1T_sel_chain_A_20240307_090500.txt"
      /\ Result.error r = None
      /\ List.filter (fun c => match c with PathWriteText _ _ => true | _ => false end)
                     (calls w')
         = [ PathWriteText
               "reports/rms_report_1A1T_sel_chain_A_20240307_090500.txt"
               (join nl (format_report_lines 2 (Some "chain A")
                                             "(1A1T) and (chain A)" 3 demo_result)
                +:+ nl) ]
      /\ stdout w' = []
  | _ => False
  end.
Proof. vm_compute. repeat split; reflexivity. Qed.

(** ** Failures that are not contained *)

Section Escapes.

Context {Env : Type} (host : Host Env).

(** Line 387: [os.getcwd()] is called for the last line of advice,
    quiet or not, and outside every [try]. *)
Lemma export_or_hint_getcwd_raises quiet obj selection report_path
      report_lines r (w : world Env) exc :
  (forall e, exists e', os_getcwd host e = (Raise exc, e')) ->
  fst (export_or_hint host quiet false obj selection report_path
                      report_lines r w) = Raise exc.
Proof.
  intros H. unfold export_or_hint, bind. rewrite !_p_run.
  unfold host_call. cbn [host_state].
  destruct (H (host_state w)) as (e' & ->). reflexivity.
Qed.

(** Line 170: the conversion of a bare int is outside every [try]. *)
Lemma compute_state_overflow quiet sel acc k (w : world Env) z e' :
  cmd_intra_fit host sel k (host_state w) = (Ok (RmsInt z), e') ->
  of_int z = None ->
  compute_state host quiet sel acc k w
  = (Raise (OverflowError "int too large to convert to float"),
     {| host_state := e'; calls := calls w ++ [IntraFit sel k];
        stdout := stdout w |}).
Proof.
  intros Hv Hz. destruct acc as [[m a] p].
  unfold compute_state, bind, attempt, intra_fit, host_call, lift.
  rewrite Hv. unfold normalize, float_of_int. rewrite Hz. reflexivity.
Qed.

(** With a provider that answers [inf] for every state, every round
    of the loop appends one [inf] to [all_rms]. *)
Lemma for_each_compute_state_inf quiet sel (l : list Z) :
  (forall k e, exists e',
      cmd_intra_fit host sel k e = (Ok (RmsFloat inf), e')) ->
  forall m a p (w : world Env),
    exists m' p' w',
      for_each l (compute_state host quiet sel) (m, a, p) w
      = (Ok (m', a ++ repeat inf (length l), p'), w').
Proof.
  intros Hprov. induction l as [|k l IH]; intros m a p w; cbn [for_each].
  - exists m, p, w. cbn [length repeat]. rewrite List.app_nil_r. reflexivity.
  - destruct (Hprov k (host_state w)) as (e' & He').
    unfold bind at 1.
    rewrite (compute_state_returns host quiet sel m a p k w (RmsFloat inf) e'
               [inf] He' eq_refl).
    change (keep_non_negative [inf]) with [inf].
    cbv beta iota zeta.
    change (Statistics.mean [inf]) with (@Ok float inf).
    cbv beta iota zeta.
    destruct (IH (<[k := inf]> m) (a ++ [inf]) (<[k := [inf]]> p)
                 {| host_state := e'; calls := calls w ++ [IntraFit sel k];
                    stdout := stdout w |}) as (m' & p' & w' & ->).
    exists m', p', w'. cbn [length repeat].
    rewrite <- List.app_assoc. reflexivity.
Qed.

End Escapes.

(** Once a value that is not finite came in, the total of the values
    that are not finite stays. *)
Lemma nonfinite_total_some (l : list float) (t : float) :
  exists t',
    fold_left (fun acc x =>
                 if isfinite x then acc
                 else Some (match acc with
                            | None => x
                            | Some t => SFadd prec emax t x
                            end)) l (Some t) = Some t'.
Proof.
  revert t. induction l as [|x l IH]; intros t; simpl.
  - exists t. reflexivity.
  - destruct (isfinite x); apply IH.
Qed.

(** Line 203: [statistics.stdev] fails on two or more values that
    hold an infinity, and [summarize] with it. *)
Lemma summarize_inf md per_state pairs (n : nat) :
  summarize md per_state (repeat inf (S (S n))) pairs
  = Raise (AttributeError "'float' object has no attribute 'numerator'").
Proof.
  unfold summarize. cbn [repeat].
  assert (Hnf : exists t,
             Statistics.nonfinite_total (inf :: inf :: repeat inf n) = Some t).
  { unfold Statistics.nonfinite_total. cbn [fold_left isfinite inf].
    apply nonfinite_total_some. }
  destruct Hnf as (t & Hnf).
  unfold Statistics.mean. rewrite Hnf.
  cbn [length Nat.ltb Nat.leb].
  unfold Statistics.stdev, Statistics.count. rewrite Hnf.
  cbn [length].
  replace (Z.of_nat (S (S (length (repeat inf n)))) <? 2) with false
    by (symmetry; apply Z.ltb_ge; lia).
  reflexivity.
Qed.

Lemma without_cwd_tame {Env : Type} (host : Host Env) (exc : exn) :
  tame_provider host -> tame_provider (without_cwd host exc).
Proof. intros H sel i e v e' Hv. exact (H sel i e v e' Hv). Qed.

Lemma demo_host_tame : tame_provider demo_host.
Proof.
  intros sel i e v e' H. simpl in H. unfold demo_rms in H.
  destruct (i =? 1); [inversion H; reflexivity|].
  destruct (i =? 2); inversion H; reflexivity.
Qed.

(** The run up to the two atom counts, which never raise. *)
Ltac after_the_counts host Hvalid Hcs :=
  unfold calculate_rms_stats; rewrite Hvalid; cbn [negb];
  unfold bind at 1; rewrite attempt_run;
  unfold count_states, host_call; rewrite Hcs; cbn [fst snd];
  unfold bind at 1;
  match goal with |- context [try_count_atoms host ?quiet ?s ?w0] =>
    let n_all := fresh "n_all" in
    let w2 := fresh "w2" in
    let H2 := fresh "H2" in
    destruct (try_count_atoms_total host quiet s w0) as (n_all & w2 & H2);
    rewrite H2
  end;
  unfold bind at 1;
  match goal with |- context [try_count_atoms host ?quiet ?s ?w0] =>
    let n_no_h := fresh "n_no_h" in
    let w3 := fresh "w3" in
    let H3 := fresh "H3" in
    destruct (try_count_atoms_total host quiet s w0) as (n_no_h & w3 & H3);
    rewrite H3
  end.

(** C5, the divergence.  The state count is not the only failure that
    aborts the analysis.  After a successful state count and with a
    valid level, the function raises, and returns no result, in each of
    these cases: (1) without export, when [os.getcwd()] raises (line
    387, which is outside every [try] and runs even when quiet), although
    the provider is tame and the whole analysis was computed; (2) when
    the provider returns, for the first state, a bare int too large for a
    float (line 170, outside every [try], where the conversion of a
    sequence two lines below is inside one); (3) when the provider
    returns the bare number [inf] for each of two states or more
    ([statistics.stdev] at line 203, outside every [try]). *)
Theorem failures_after_the_state_count_escape :
  forall (Env : Type) (host : Host Env) (obj : string)
         (selection : option string) (quiet : bool) (display_level : Z)
         (export_report : bool) (report_path : string) (w : world Env)
         (n : Z) (e1 : Env),
    valid_display_level display_level = true ->
    cmd_count_states host obj (host_state w) = (Ok n, e1) ->
    let run := calculate_rms_stats host (Some obj) selection quiet display_level
                                   export_report report_path w in
    (forall exc : exn,
        export_report = false ->
        tame_provider host ->
        (forall e : Env, exists e' : Env, os_getcwd host e = (Raise exc, e')) ->
        fst run = Raise exc)
    /\ (forall z : Z,
          1 <= n ->
          of_int z = None ->
          (forall e : Env, exists e' : Env,
              cmd_intra_fit host (base_selection_of obj selection) 1 e
              = (Ok (RmsInt z), e')) ->
          fst run = Raise (OverflowError "int too large to convert to float"))
    /\ (2 <= n ->
        (forall (sel : string) (k : Z) (e : Env), exists e' : Env,
            cmd_intra_fit host sel k e = (Ok (RmsFloat inf), e')) ->
        fst run
        = Raise (AttributeError "'float' object has no attribute 'numerator'")).
Proof.
  intros Env host obj selection quiet display_level export_report report_path
         w n e1 Hvalid Hcs run.
  subst run. repeat apply conj.
  - intros exc -> Htame Hcwd.
    after_the_counts host Hvalid Hcs.
    unfold bind at 1.
    match goal with |- context [compute_mode host quiet n ?s ?w0] =>
      destruct (compute_mode_total host quiet n s w0 Htame)
        as (m1 & a1 & p1 & w4 & H4 & Hf1) end.
    rewrite H4. unfold bind at 1.
    match goal with |- context [compute_mode host quiet n ?s ?w0] =>
      destruct (compute_mode_total host quiet n s w0 Htame)
        as (m2 & a2 & p2 & w5 & H5 & Hf2) end.
    rewrite H5.
    match goal with |- context [summarize ?md m1 a1 p1] =>
      destruct (summarize_total md m1 a1 p1 Hf1) as (md1 & Hs1) end.
    unfold bind at 1. unfold lift at 1. rewrite Hs1.
    match goal with |- context [summarize ?md m2 a2 p2] =>
      destruct (summarize_total md m2 a2 p2 Hf2) as (md2 & Hs2) end.
    unfold bind at 1. unfold lift at 1. rewrite Hs2.
    unfold bind at 1.
    match goal with |- context [for_each ?ls (fun _ ln => _p quiet ln) tt ?w0] =>
      destruct (print_lines_total quiet ls w0) as (w6 & H6) end.
    rewrite H6. unfold bind at 1.
    match goal with
      |- context [export_or_hint host quiet false obj selection report_path
                                 ?ls ?r0 ?w0] =>
      pose proof (export_or_hint_getcwd_raises host quiet obj selection
                    report_path ls r0 w0 exc Hcwd) as H7;
      destruct (export_or_hint host quiet false obj selection report_path
                               ls r0 w0) as [res7 w7]
    end.
    cbn [fst] in H7. rewrite H7. reflexivity.
  - intros z Hn Hz Hprov.
    after_the_counts host Hvalid Hcs.
    unfold bind at 1. unfold compute_mode at 1, range1.
    rewrite (seqZ_cons 1 n) by lia. cbn [for_each].
    unfold bind at 1.
    match goal with |- context [compute_state host quiet ?s ?acc 1 ?w0] =>
      destruct (Hprov (host_state w0)) as (e' & He');
      rewrite (compute_state_overflow host quiet s acc 1 w0 z e' He' Hz)
    end.
    reflexivity.
  - intros Hn Hprov.
    after_the_counts host Hvalid Hcs.
    unfold bind at 1. unfold compute_mode at 1, range1.
    match goal with |- context [for_each ?l (compute_state host quiet ?s) (?m, ?a, ?p) ?w0] =>
      destruct (for_each_compute_state_inf host quiet s l (Hprov s) m a p w0)
        as (m1 & p1 & w4 & H4) end.
    rewrite H4. unfold bind at 1. unfold compute_mode at 1, range1.
    match goal with |- context [for_each ?l (compute_state host quiet ?s) (?m, ?a, ?p) ?w0] =>
      destruct (for_each_compute_state_inf host quiet s l (Hprov s) m a p w0)
        as (m2 & p2 & w5 & H5) end.
    rewrite H5. unfold bind at 1. unfold lift at 1.
    rewrite length_seqZ. cbn [app].
    destruct (Z.to_nat n) as [|[|k]] eqn:Hk; try lia.
    rewrite summarize_inf. reflexivity.
Qed.

(** Witness of [failures_after_the_state_count_escape]: the host whose
    working directory is gone, the host whose provider returns
    [2 ** 1024], and the host whose provider returns [inf]. *)
Lemma failures_after_the_state_count_escape_witness :
  fst (calculate_rms_stats no_cwd_host (Some "1A1T") (Some "all") true 1 false
                           "." start)
  = Raise (HostError "[Errno 2] No such file or directory")
  /\ fst (calculate_rms_stats huge_host (Some "1A1T") (Some "all") true 1 false
                              "." start)
     = Raise (OverflowError "int too large to convert to float")
  /\ fst (calculate_rms_stats infinite_host (Some "1A1T") (Some "all") true 1
                              true "reports" start)
     = Raise (AttributeError "'float' object has no attribute 'numerator'").
Proof.
  split; [|split].
  - apply (proj1 (failures_after_the_state_count_escape unit no_cwd_host "1A1T"
                    (Some "all") true 1 false "." start 3 tt eq_refl eq_refl)).
    + reflexivity.
    + apply without_cwd_tame, demo_host_tame.
    + intros e. exists e. reflexivity.
  - apply (proj1 (proj2 (failures_after_the_state_count_escape unit huge_host
                           "1A1T" (Some "all") true 1 false "." start 1 tt
                           eq_refl eq_refl)) (2 ^ 1024)).
    + lia.
    + vm_compute. reflexivity.
    + intros []. exists tt. reflexivity.
  - apply (proj2 (proj2 (failures_after_the_state_count_escape unit
                           infinite_host "1A1T" (Some "all") true 1 true
                           "reports" start 2 tt eq_refl eq_refl))).
    + lia.
    + intros sel k []. exists tt. reflexivity.
Defined.
(** * Further properties of the run, the report and the export *)

(** ** What a computation appends *)

Section Appends.

Context {Env X : Type} (field : world Env -> list X) (P : X -> Prop).

Lemma appends_ret {A : Type} (a : A) : appends field P (@ret Env A a).
Proof. intros w. exists []. rewrite List.app_nil_r. split; [reflexivity | constructor]. Qed.

Lemma appends_raise {A : Type} (e : exn) : appends field P (@raise Env A e).
Proof. intros w. exists []. rewrite List.app_nil_r. split; [reflexivity | constructor]. Qed.

Lemma appends_lift {A : Type} (r : res A) : appends field P (@lift Env A r).
Proof. intros w. exists []. rewrite List.app_nil_r. split; [reflexivity | constructor]. Qed.

Lemma appends_bind {A B : Type} (c : M Env A) (k : A -> M Env B) :
  appends field P c -> (forall a, appends field P (k a)) ->
  appends field P (bind c k).
Proof.
  intros Hc Hk w. unfold bind.
  destruct (Hc w) as (t1 & E1 & F1).
  destruct (c w) as [[a|e] w1]; cbn [snd] in *.
  - destruct (Hk a w1) as (t2 & E2 & F2).
    exists (t1 ++ t2). rewrite E2, E1, List.app_assoc.
    split; [reflexivity | apply Forall_app; split; assumption].
  - exists t1. split; assumption.
Qed.

Lemma appends_attempt {A : Type} (c : M Env A) :
  appends field P c -> appends field P (attempt c).
Proof.
  intros Hc w. rewrite attempt_run. cbn [snd]. exact (Hc w).
Qed.

Lemma appends_for_each {A B : Type} (f : B -> A -> M Env B) (l : list A) :
  (forall b a, appends field P (f b a)) ->
  forall b, appends field P (for_each l f b).
Proof.
  intros Hf. induction l as [|a l IH]; intros b; cbn [for_each].
  - apply appends_ret.
  - apply appends_bind; [apply Hf | exact IH].
Qed.

End Appends.

Lemma appends_weaken {Env A X : Type} (field : world Env -> list X)
      (P Q : X -> Prop) (c : M Env A) :
  (forall x, P x -> Q x) -> appends field P c -> appends field Q c.
Proof.
  intros HPQ Hc w. destruct (Hc w) as (t & E & F).
  exists t. split; [exact E|]. eapply List.Forall_impl; [exact HPQ | exact F].
Qed.

Section AppendsCalls.

Context {Env : Type} (P : call -> Prop).

Lemma calls_host_call {A : Type} (c : call) (op : Env -> res A * Env) :
  P c -> appends calls P (host_call c op).
Proof.
  intros Hc w. unfold host_call. destruct (op (host_state w)) as [r e'].
  exists [c]. split; [reflexivity | repeat constructor; exact Hc].
Qed.

Lemma calls_host_query {A : Type} (c : call) (op : Env -> A * Env) :
  P c -> appends calls P (host_query c op).
Proof.
  intros Hc w. unfold host_query. destruct (op (host_state w)) as [r e'].
  exists [c]. split; [reflexivity | repeat constructor; exact Hc].
Qed.

Lemma calls__p (quiet : bool) (s : string) : appends calls P (@_p Env quiet s).
Proof.
  intros w. rewrite _p_run. exists []. rewrite List.app_nil_r.
  split; [reflexivity | constructor].
Qed.

Lemma calls_print_lines (quiet : bool) (lines : list string) :
  appends calls P (for_each lines (fun _ ln => @_p Env quiet ln) tt).
Proof. apply appends_for_each. intros b a. apply calls__p. Qed.

End AppendsCalls.

Section AppendsStdout.

Context {Env : Type} (P : string -> Prop).

Lemma stdout_host_call {A : Type} (c : call) (op : Env -> res A * Env) :
  appends stdout P (host_call c op).
Proof.
  intros w. unfold host_call. destruct (op (host_state w)) as [r e'].
  exists []. rewrite List.app_nil_r. split; [reflexivity | constructor].
Qed.

Lemma stdout_host_query {A : Type} (c : call) (op : Env -> A * Env) :
  appends stdout P (host_query c op).
Proof.
  intros w. unfold host_query. destruct (op (host_state w)) as [r e'].
  exists []. rewrite List.app_nil_r. split; [reflexivity | constructor].
Qed.

Lemma stdout__p (quiet : bool) (s : string) :
  P s -> appends stdout P (@_p Env quiet s).
Proof.
  intros Hs w. rewrite _p_run. cbn [snd stdout]. destruct quiet.
  - exists []. rewrite List.app_nil_r. split; [reflexivity | constructor].
  - exists [s]. split; [reflexivity | repeat constructor; exact Hs].
Qed.

End AppendsStdout.

(** ** The steps of a run *)

Section Steps.

Context {Env : Type} (host : Host Env).

(** Printing the report: nothing but the console changes. *)
Lemma print_lines_run quiet (lines : list string) (w : world Env) :
  for_each lines (fun _ ln => _p quiet ln) tt w
  = (Ok tt, after_report quiet lines w).
Proof.
  unfold after_report. revert w.
  induction lines as [|ln lines IH]; intros w; cbn [for_each].
  - unfold ret. destruct quiet, w; cbn; rewrite ?List.app_nil_r; reflexivity.
  - unfold bind. rewrite _p_run, IH. cbn [host_state calls stdout].
    destruct quiet; [reflexivity|].
    rewrite <- List.app_assoc. reflexivity.
Qed.

(** An atom count: one call, whatever comes of it; the count when the
    host gives one, [None] when it raises. *)
Lemma try_count_atoms_run quiet sel (w : world Env) :
  exists out,
    try_count_atoms host quiet sel w
    = (Ok (match fst (cmd_count_atoms host sel (host_state w)) with
           | Ok k => Some k
           | Raise _ => None
           end),
       {| host_state := snd (cmd_count_atoms host sel (host_state w));
          calls := calls w ++ [CountAtoms sel];
          stdout := stdout w ++ out |})
    /\ Forall (fun l => String.prefix "Warning: " l = true) out
    /\ (quiet = true -> out = []).
Proof.
  unfold try_count_atoms, bind. rewrite attempt_run.
  unfold count_atoms, host_call.
  destruct (cmd_count_atoms host sel (host_state w)) as [[k|exc] e']; cbn [fst snd].
  - exists []. rewrite List.app_nil_r. unfold ret.
    split; [reflexivity|]. split; [constructor | reflexivity].
  - rewrite _p_run. cbn [host_state calls stdout]. unfold ret. destruct quiet.
    + exists []. rewrite List.app_nil_r.
      split; [reflexivity|]. split; [constructor | reflexivity].
    + eexists [_]. split; [reflexivity|].
      split; [repeat constructor | discriminate].
Qed.

(** One round of the loop makes one call to the provider, whatever its
    outcome, and prints at most warnings. *)
Lemma compute_state_footprint quiet sel acc k (w : world Env) :
  exists out,
    calls (snd (compute_state host quiet sel acc k w))
    = calls w ++ [IntraFit sel k]
    /\ stdout (snd (compute_state host quiet sel acc k w)) = stdout w ++ out
    /\ Forall (fun l => String.prefix "Warning: " l = true) out
    /\ (quiet = true -> out = []).
Proof.
  destruct acc as [[m a] p].
  unfold compute_state, bind. rewrite attempt_run.
  unfold intra_fit, host_call.
  destruct (cmd_intra_fit host sel k (host_state w)) as [[v|exc] e']; cbn [fst snd].
  - exists []. rewrite List.app_nil_r. unfold lift.
    destruct (normalize v) as [l|e]; [|repeat split; constructor].
    destruct (keep_non_negative l) as [|x kept]; [repeat split; constructor|].
    destruct (Statistics.mean (x :: kept)); repeat split; constructor.
  - rewrite _p_run. cbn [snd ret calls stdout]. destruct quiet.
    + exists []. rewrite List.app_nil_r. repeat split; constructor.
    + eexists [_]. repeat split; [repeat constructor | discriminate].
Qed.

(** A mode that completes has asked the provider once per state, in
    ascending order, and printed at most warnings. *)
Lemma for_each_compute_state_footprint quiet sel (l : list Z) :
  forall acc (w : world Env) acc' w',
    for_each l (compute_state host quiet sel) acc w = (Ok acc', w') ->
    exists out,
      calls w' = calls w ++ map (IntraFit sel) l
      /\ stdout w' = stdout w ++ out
      /\ Forall (fun l => String.prefix "Warning: " l = true) out
      /\ (quiet = true -> out = []).
Proof.
  induction l as [|k l IH]; intros acc w acc' w' H; cbn [for_each] in H.
  - apply ret_inv in H as [_ ->]. exists []. rewrite !List.app_nil_r.
    repeat split; constructor.
  - apply bind_inv in H as (acc1 & w1 & Hstep & H).
    destruct (compute_state_footprint quiet sel acc k w) as (o1 & C1 & S1 & F1 & Q1).
    rewrite Hstep in C1, S1. cbn [snd] in C1, S1.
    apply IH in H as (o2 & C2 & S2 & F2 & Q2).
    exists (o1 ++ o2). rewrite C2, C1, S2, S1, <- !List.app_assoc.
    repeat split.
    + apply Forall_app. split; assumption.
    + intros Hq. rewrite (Q1 Hq), (Q2 Hq). reflexivity.
Qed.

Lemma compute_mode_footprint quiet n sel (w : world Env) acc w' :
  compute_mode host quiet n sel w = (Ok acc, w') ->
  exists out,
    calls w' = calls w ++ map (IntraFit sel) (seqZ 1 n)
    /\ stdout w' = stdout w ++ out
    /\ Forall (fun l => String.prefix "Warning: " l = true) out
    /\ (quiet = true -> out = []).
Proof. apply for_each_compute_state_footprint. Qed.

(** A run that got its state count and returned went through these
    steps. *)
Lemma calculate_rms_stats_steps obj selection quiet display_level
      export_report report_path (w : world Env) r w' n e1 :
  cmd_count_states host obj (host_state w) = (Ok n, e1) ->
  calculate_rms_stats host (Some obj) selection quiet display_level
                      export_report report_path w = (Ok (Analysis r), w') ->
  exists n_all w2 n_no_h w3 acc_all w4 acc_no_h w5 m_all m_no_h,
    try_count_atoms host quiet (base_selection_of obj selection)
      {| host_state := e1; calls := calls w ++ [CountStates obj];
         stdout := stdout w |} = (Ok n_all, w2)
    /\ try_count_atoms host quiet
         (base_selection_of obj selection +:+ " and (not hydro)") w2
       = (Ok n_no_h, w3)
    /\ compute_mode host quiet n (base_selection_of obj selection) w3
       = (Ok acc_all, w4)
    /\ compute_mode host quiet n
         (base_selection_of obj selection +:+ " and (not hydro)") w4
       = (Ok acc_no_h, w5)
    /\ summarize empty_mode (fst (fst acc_all)) (snd (fst acc_all)) (snd acc_all)
       = Ok m_all
    /\ summarize empty_mode (fst (fst acc_no_h)) (snd (fst acc_no_h))
                 (snd acc_no_h) = Ok m_no_h
    /\ export_or_hint host quiet export_report obj selection report_path
         (format_report_lines display_level selection
            (base_selection_of obj selection) n
            (result_before_export (base_selection_of obj selection) n
               n_all n_no_h m_all m_no_h))
         (result_before_export (base_selection_of obj selection) n
            n_all n_no_h m_all m_no_h)
         (after_report quiet
            (format_report_lines display_level selection
               (base_selection_of obj selection) n
               (result_before_export (base_selection_of obj selection) n
                  n_all n_no_h m_all m_no_h)) w5)
       = (Ok r, w').
Proof.
  unfold calculate_rms_stats. intros Hcs H.
  destruct (valid_display_level display_level); [|discriminate H].
  cbn [negb] in H.
  apply bind_inv in H as (rs & w1 & Hrs & H).
  rewrite attempt_run in Hrs. unfold count_states, host_call in Hrs.
  rewrite Hcs in Hrs. cbn [fst snd] in Hrs. inversion Hrs; subst rs w1; clear Hrs.
  apply bind_inv in H as (n_all & w2 & Hn1 & H).
  apply bind_inv in H as (n_no_h & w3 & Hn2 & H).
  apply bind_inv in H as ([[per_all all_rms_all] per_pairs_all] & w4 & Hall & H).
  apply bind_inv in H as ([[per_no_h all_rms_no_h] per_pairs_no_h] & w5 & Hnoh & H).
  apply bind_inv in H as (m_all & w6 & Hsa & H).
  apply lift_inv in Hsa as [Hsa ->].
  apply bind_inv in H as (m_no_h & w7 & Hsn & H).
  apply lift_inv in Hsn as [Hsn ->].
  apply bind_inv in H as (u & w8 & Hpr & H).
  rewrite print_lines_run in Hpr. inversion Hpr; subst w8; clear Hpr.
  apply bind_inv in H as (r1 & w9 & Hexp & H).
  apply ret_inv in H as [H ->]. inversion H; subst r1; clear H.
  exists n_all, w2, n_no_h, w3, (per_all, all_rms_all, per_pairs_all), w4,
    (per_no_h, all_rms_no_h, per_pairs_no_h), w5, m_all, m_no_h.
  repeat apply conj; try assumption.
Qed.

End Steps.

(** ** The order of the host calls *)

Section Footprint.

Context {Env : Type} (host : Host Env).

Lemma calls_try_count_atoms (P : call -> Prop) quiet sel :
  P (CountAtoms sel) -> appends calls P (try_count_atoms host quiet sel).
Proof.
  intros HP w. destruct (try_count_atoms_run host quiet sel w) as (out & E & _).
  rewrite E. cbn [snd calls]. exists [CountAtoms sel].
  split; [reflexivity | repeat constructor; exact HP].
Qed.

Lemma calls_compute_mode (P : call -> Prop) quiet n sel :
  (forall k, P (IntraFit sel k)) -> appends calls P (compute_mode host quiet n sel).
Proof.
  intros HP. unfold compute_mode. apply appends_for_each. intros acc k w.
  destruct (compute_state_footprint host quiet sel acc k w) as (out & E & _).
  exists [IntraFit sel k]. split; [exact E | repeat constructor; apply HP].
Qed.

(** The export touches the file system and the clock only. *)
Lemma calls_write_report quiet obj selection report_path report_lines :
  appends calls (fun c => touches_files c = true)
          (write_report host quiet obj selection report_path report_lines).
Proof.
  unfold write_report, report_file_path.
  repeat first
    [ apply appends_ret
    | apply calls__p
    | apply calls_host_call; reflexivity
    | apply calls_host_query; reflexivity
    | apply appends_bind; [|intros ?]
    | match goal with |- appends _ _ (if ?b then _ else _) => destruct b end ].
Qed.

(** Without export the last step asks for the working directory and
    nothing else. *)
Lemma export_or_hint_no_export quiet obj selection report_path report_lines r
      (w : world Env) :
  calls (snd (export_or_hint host quiet false obj selection report_path
                             report_lines r w))
  = calls w ++ [OsGetcwd].
Proof.
  unfold export_or_hint, bind. rewrite !_p_run. unfold host_call.
  cbn [host_state calls stdout].
  destruct (os_getcwd host (host_state w)) as [[cwd|exc] e']; [|reflexivity].
  rewrite _p_run. reflexivity.
Qed.

Lemma calls_export_or_hint quiet export_report obj selection report_path
      report_lines r :
  appends calls (fun c => is_cmd_call c = false)
          (export_or_hint host quiet export_report obj selection report_path
                          report_lines r).
Proof.
  destruct export_report.
  - unfold export_or_hint. apply appends_bind.
    + apply appends_attempt.
      apply (appends_weaken calls (fun c => touches_files c = true)).
      * intros [] H; first [reflexivity | discriminate H].
      * apply calls_write_report.
    + intros [resolved|exc].
      * apply appends_ret.
      * apply appends_bind; [apply calls__p | intros ?; apply appends_ret].
  - intros w. exists [OsGetcwd]. split.
    + apply export_or_hint_no_export.
    + repeat constructor.
Qed.

End Footprint.

(** X2.  A run that got its state count [n] and returned has called
    the host in this order: the state count; the atom count of the base
    selection, then of the selection without hydrogens, one query each
    whether or not the first fails; the RMS of the states 1 to [n] of the
    base selection, in ascending order, one query per state; the same
    for the selection without hydrogens; and after that no call to PyMOL
    any more: without export, the working directory and nothing else. *)
Theorem query_order :
  forall (Env : Type) (host : Host Env) (obj : string)
         (selection : option string) (quiet : bool) (display_level : Z)
         (export_report : bool) (report_path : string) (w : world Env)
         (r : Result.t) (w' : world Env) (n : Z) (e1 : Env),
    cmd_count_states host obj (host_state w) = (Ok n, e1) ->
    calculate_rms_stats host (Some obj) selection quiet display_level
                        export_report report_path w = (Ok (Analysis r), w') ->
    exists tail : list call,
      calls w'
      = calls w
        ++ [ CountStates obj;
             CountAtoms (base_selection_of obj selection);
             CountAtoms (base_selection_of obj selection +:+ " and (not hydro)") ]
        ++ map (IntraFit (base_selection_of obj selection)) (seqZ 1 n)
        ++ map (IntraFit (base_selection_of obj selection +:+ " and (not hydro)"))
               (seqZ 1 n)
        ++ tail
      /\ Forall (fun c => is_cmd_call c = false) tail
      /\ (export_report = false -> tail = [OsGetcwd]).
Proof.
  intros Env host obj selection quiet display_level export_report report_path
         w r w' n e1 Hcs Hrun.
  destruct (calculate_rms_stats_steps host _ _ _ _ _ _ _ _ _ _ _ Hcs Hrun)
    as (n_all & w2 & n_no_h & w3 & acc_all & w4 & acc_no_h & w5 & m_all & m_no_h
        & H2 & H3 & H4 & H5 & _ & _ & H6).
  match type of H2 with try_count_atoms _ _ ?s ?w0 = _ =>
    destruct (try_count_atoms_run host quiet s w0) as (o2 & E2 & _) end.
  rewrite E2 in H2. inversion H2 as [[En2 Ew2]]. clear H2 E2.
  destruct (try_count_atoms_run host quiet
              (base_selection_of obj selection +:+ " and (not hydro)") w2)
    as (o3 & E3 & _).
  rewrite E3 in H3. inversion H3 as [[En3 Ew3]]. clear H3 E3.
  apply compute_mode_footprint in H4 as (o4 & C4 & _).
  apply compute_mode_footprint in H5 as (o5 & C5 & _).
  match type of H6 with export_or_hint _ _ _ _ _ _ ?ls ?r0 ?w0 = _ =>
    pose proof (calls_export_or_hint host quiet export_report obj selection
                  report_path ls r0 w0) as (tail & C6 & F6);
    pose proof (export_or_hint_no_export host quiet obj selection report_path
                  ls r0 w0) as C6'
  end.
  rewrite H6 in C6. cbn [snd after_report calls] in C6.
  exists tail. split; [|split].
  - rewrite C6, C5, C4, <- Ew3. cbn [calls]. rewrite <- Ew2. cbn [calls].
    rewrite <- !List.app_assoc. reflexivity.
  - exact F6.
  - intros ->. rewrite H6 in C6'. cbn [snd after_report calls] in C6'.
    rewrite C6 in C6'. apply List.app_inv_head in C6'. exact C6'.
Qed.

(** Witness of [query_order]: the demonstration run, three states, no
    export. *)
Lemma query_order_witness :
  exists tail : list call,
    calls (snd demo_run)
    = calls start
      ++ [ CountStates "1A1T";
           CountAtoms (base_selection_of "1A1T" (Some "all"));
           CountAtoms (base_selection_of "1A1T" (Some "all") +:+ " and (not hydro)") ]
      ++ map (IntraFit (base_selection_of "1A1T" (Some "all"))) (seqZ 1 3)
      ++ map (IntraFit (base_selection_of "1A1T" (Some "all") +:+ " and (not hydro)"))
             (seqZ 1 3)
      ++ tail
    /\ Forall (fun c => is_cmd_call c = false) tail
    /\ (false = false -> tail = [OsGetcwd]).
Proof.
  exact (query_order unit demo_host "1A1T" (Some "all") true 1 false "." start
           demo_result (snd demo_run) 3 tt eq_refl demo_run_completes).
Defined.

(** X3.  Without export the function stays away from the file system
    and the clock, whatever its arguments and however the run ends:
    every call it adds to the log is a call to PyMOL or the query of the
    working directory. *)
Theorem no_file_access_without_export :
  forall (Env : Type) (host : Host Env) (obj_to_fit selection : option string)
         (quiet : bool) (display_level : Z) (report_path : string),
    appends calls (fun c => touches_files c = false)
            (calculate_rms_stats host obj_to_fit selection quiet display_level
                                 false report_path).
Proof.
  intros Env host obj_to_fit selection quiet display_level report_path.
  unfold calculate_rms_stats. destruct obj_to_fit as [obj|].
  2: { apply appends_bind; [|intros ?; apply appends_ret].
       destruct (negb quiet); [|apply appends_ret].
       intros w. exists []. rewrite List.app_nil_r.
       split; [reflexivity | constructor]. }
  destruct (negb (valid_display_level display_level)); [apply appends_raise|].
  apply appends_bind.
  { apply appends_attempt. apply calls_host_call. reflexivity. }
  intros [n|exc].
  2: { apply appends_bind; [apply calls__p | intros ?; apply appends_ret]. }
  apply appends_bind; [apply calls_try_count_atoms; reflexivity | intros n_all].
  apply appends_bind; [apply calls_try_count_atoms; reflexivity | intros n_no_h].
  apply appends_bind; [apply calls_compute_mode; reflexivity | intros [[? ?] ?]].
  apply appends_bind; [apply calls_compute_mode; reflexivity | intros [[? ?] ?]].
  apply appends_bind; [apply appends_lift | intros m_all].
  apply appends_bind; [apply appends_lift | intros m_no_h].
  apply appends_bind; [apply calls_print_lines | intros ?].
  apply appends_bind; [|intros ?; apply appends_ret].
  intros w. exists [OsGetcwd]. split.
  - apply export_or_hint_no_export.
  - repeat constructor.
Qed.

(** ** The export step *)

Section ExportStep.

Context {Env : Type} (host : Host Env).

Ltac host_cases :=
  repeat (cbn [host_state calls stdout fst snd negb];
          match goal with
          | |- context [path_exists host ?p ?e] =>
              destruct (path_exists host p e) as [[[|]|?] ?]
          | |- context [path_is_dir host ?p ?e] =>
              destruct (path_is_dir host p e) as [[[|]|?] ?]
          | |- context [datetime_now host ?e] =>
              destruct (datetime_now host e) as [? ?]
          | |- context [path_mkdir host ?p ?e] =>
              destruct (path_mkdir host p e) as [[[]|?] ?]
          | |- context [path_write_text host ?p ?c ?e] =>
              destruct (path_write_text host p c e) as [[[]|?] ?]
          | |- context [path_resolve host ?p ?e] =>
              destruct (path_resolve host p e) as [[?|?] ?]
          end).

(** The [try] block of the export: it writes at most one file, the
    report, at the destination or inside it; it has written one when it
    succeeds; and it prints the path of the file when it succeeds and
    the run is not quiet, and nothing otherwise. *)
Lemma write_report_run quiet obj selection report_path report_lines
      (w : world Env) :
  exists t,
    calls (snd (write_report host quiet obj selection report_path report_lines w))
    = calls w ++ t
    /\ Forall (writes_report_at host obj selection report_path
                 (join nl report_lines +:+ nl)) t
    /\ (length (List.filter is_write t) <= 1)%nat
    /\ (forall f,
          fst (write_report host quiet obj selection report_path report_lines w)
          = Ok f -> length (List.filter is_write t) = 1%nat)
    /\ stdout (snd (write_report host quiet obj selection report_path
                                 report_lines w))
       = stdout w
         ++ match fst (write_report host quiet obj selection report_path
                                    report_lines w) with
            | Ok f => if quiet then [] else ["Report exported to: " +:+ f]
            | Raise _ => []
            end.
Proof.
  unfold write_report, report_file_path, bind, host_call, host_query, ret.
  host_cases; rewrite ?_p_run; cbn [host_state calls stdout fst snd negb];
    destruct quiet; cbn [negb host_state calls stdout fst snd];
    rewrite ?_p_run; cbn [host_state calls stdout fst snd];
    rewrite <- ?List.app_assoc; rewrite ?List.app_nil_r;
    (eexists; split; [reflexivity|]);
    (split;
     [repeat (apply List.Forall_cons;
              [first [exact I
                     | split; [reflexivity
                              | first [left; reflexivity
                                      | right; eexists; reflexivity]]]|]);
      apply List.Forall_nil|]);
    cbn; repeat split; try lia; try discriminate.
Qed.

(** The export requested: the result gets the path of the file, or the
    message of the failure. *)
Lemma export_or_hint_export quiet obj selection report_path report_lines r0
      (w : world Env) r w' :
  export_or_hint host quiet true obj selection report_path report_lines r0 w
  = (Ok r, w') ->
  Result.error r0 = None ->
  exists t out,
    calls w' = calls w ++ t
    /\ stdout w' = stdout w ++ (if quiet then [] else [out])
    /\ Forall (writes_report_at host obj selection report_path
                 (join nl report_lines +:+ nl)) t
    /\ (length (List.filter is_write t) <= 1)%nat
    /\ ((exists f,
           r = Result.set_report_file r0 (Some f)
           /\ length (List.filter is_write t) = 1%nat
           /\ out = "Report exported to: " +:+ f)
        \/ (exists exc,
              r = Result.set_error r0 (Some out)
              /\ out = "Failed to write report to '" +:+ report_path +:+ "': "
                       +:+ exn_str exc)).
Proof.
  unfold export_or_hint. intros H Herr.
  apply bind_inv in H as (res & w1 & Hw & H).
  rewrite attempt_run in Hw. inversion Hw as [[Hres Hw1]]. clear Hw.
  destruct (write_report_run quiet obj selection report_path report_lines w)
    as (t & C & F & L1 & L2 & S).
  rewrite Hres, Hw1 in *. destruct res as [f|exc].
  - apply ret_inv in H as [-> ->].
    exists t, ("Report exported to: " +:+ f).
    repeat apply conj; try assumption.
    left. exists f. repeat split. apply (L2 f). reflexivity.
  - apply bind_inv in H as (u & w2 & Hp & H).
    rewrite _p_run in Hp. inversion Hp; subst w2; clear Hp.
    apply ret_inv in H as [-> ->]. cbn [calls stdout]. rewrite Herr.
    rewrite List.app_nil_r in S.
    exists t, ("Failed to write report to '" +:+ report_path +:+ "': "
               +:+ exn_str exc).
    repeat apply conj; try assumption.
    + rewrite S. destruct quiet; [|reflexivity].
      rewrite List.app_nil_r. reflexivity.
    + right. exists exc. split; reflexivity.
Qed.

(** No export requested: the result is left as it is, and three lines
    of advice go to [_p]. *)
Lemma export_or_hint_hint quiet obj selection report_path report_lines r0
      (w : world Env) r w' :
  export_or_hint host quiet false obj selection report_path report_lines r0 w
  = (Ok r, w') ->
  r = r0
  /\ calls w' = calls w ++ [OsGetcwd]
  /\ exists cwd,
       stdout w'
       = stdout w
         ++ (if quiet then []
             else [ "To export the report to a file, set export_report=True";
                    "Set a specified path with the 'report_path' argument.";
                    "In absence of a specified path, the report will be saved in the current working directory: " +:+ cwd ]).
Proof.
  unfold export_or_hint, bind. rewrite !_p_run. unfold host_call.
  cbn [host_state calls stdout].
  destruct (os_getcwd host (host_state w)) as [[cwd|exc] e']; [|discriminate].
  rewrite _p_run. unfold ret. intros H. inversion H; subst r w'; clear H.
  cbn [calls stdout]. repeat split. exists cwd.
  destruct quiet; [rewrite List.app_nil_r; reflexivity|].
  rewrite <- !List.app_assoc. reflexivity.
Qed.

End ExportStep.

(** The report reads the statistics and the atom counts of the result,
    not [report_file] or [error]. *)
Lemma format_report_lines_frame display_level selection base_selection states
      (r r' : Result.t) :
  Result.modes_all r' = Result.modes_all r ->
  Result.modes_no_hydrogen r' = Result.modes_no_hydrogen r ->
  Result.atom_counts_all r' = Result.atom_counts_all r ->
  Result.atom_counts_no_hydrogen r' = Result.atom_counts_no_hydrogen r ->
  format_report_lines display_level selection base_selection states r'
  = format_report_lines display_level selection base_selection states r.
Proof.
  destruct r, r'. cbn [Result.modes_all Result.modes_no_hydrogen
                       Result.atom_counts_all Result.atom_counts_no_hydrogen].
  intros -> -> -> ->. reflexivity.
Qed.

(** ** Completed demonstration runs *)

Lemma export_demo_run_completes :
  calculate_rms_stats demo_host (Some "1A1T") (Some "chain A") false 2 true
                      "reports" start
  = (Ok (Analysis export_demo_result), snd export_demo_run).
Proof. vm_compute. reflexivity. Qed.

Lemma flaky_demo_run_completes :
  calculate_rms_stats flaky_host (Some "1A1T") (Some "all") false 1 true
                      "reports" start
  = (Ok (Analysis flaky_demo_result), snd flaky_demo_run).
Proof. vm_compute. reflexivity. Qed.

Lemma stateless_run_completes :
  calculate_rms_stats stateless_host (Some "empty") None true 1 false "." start
  = (Ok (Analysis stateless_result), snd stateless_run).
Proof. vm_compute. reflexivity. Qed.

(** ** The entries of the states *)

(** X4.  After a completed analysis, in each mode [per_state_means]
    has an entry for exactly the states 1 to [states], as
    [per_state_pairs] has; the mean recorded for a state is a NaN exactly
    when no pair was kept for it, and otherwise it is [statistics.mean]
    of the pairs kept. *)
Theorem per_state_entries :
  forall (Env : Type) (host : Host Env) (obj_to_fit selection : option string)
         (quiet : bool) (display_level : Z) (export_report : bool)
         (report_path : string) (w : world Env) (r : Result.t) (w' : world Env),
    calculate_rms_stats host obj_to_fit selection quiet display_level
                        export_report report_path w = (Ok (Analysis r), w') ->
    forall m : ModeResult,
      m = Result.modes_all r \/ m = Result.modes_no_hydrogen r ->
      (forall k : Z,
          is_Some (per_state_means m !! k) <-> 1 <= k <= Result.states r)
      /\ (forall k : Z, 1 <= k <= Result.states r ->
            exists (mk : float) (pk : list float),
              per_state_means m !! k = Some mk
              /\ per_state_pairs m !! k = Some pk
              /\ (isnan mk = true <-> pk = [])
              /\ (pk <> [] -> Statistics.mean pk = Ok mk)).
Proof.
  intros Env host obj_to_fit selection quiet display_level export_report
         report_path w r w' Hrun m Hm.
  apply calculate_rms_stats_aggregated in Hrun as [Hall Hnoh].
  assert (Hagg : aggregated (Result.states r) m) by (destruct Hm; subst; assumption).
  clear Hall Hnoh Hm.
  destruct Hagg as (_ & Hin & Hout & _). unfold range1 in *. split.
  - intros k. split.
    + intros Hs. destruct (decide (k ∈ seqZ 1 (Result.states r))) as [Hk|Hk].
      * apply elem_of_seqZ in Hk. lia.
      * destruct (Hout k Hk) as [E _]. rewrite E in Hs.
        destruct Hs as [x Hx]. discriminate Hx.
    + intros Hk. destruct (Hin k) as (mk & pk & -> & _).
      * apply elem_of_seqZ. lia.
      * eexists. reflexivity.
  - intros k Hk. destruct (Hin k) as (mk & pk & Em & Ep & Hkept & Hnone & Hsome).
    { apply elem_of_seqZ. lia. }
    exists mk, pk. repeat apply conj; try assumption.
    + intros Hnan. destruct pk as [|x l]; [reflexivity|].
      destruct (mean_of_kept (x :: l)) as (mu & Hmu & Hnn);
        [discriminate | exact Hkept |].
      rewrite Hsome in Hmu by discriminate. inversion Hmu; subst mu.
      rewrite Hnn in Hnan. discriminate Hnan.
    + intros E. rewrite (Hnone E). reflexivity.
Qed.

(** Witness of [per_state_entries]: the demonstration run, mode "all". *)
Lemma per_state_entries_witness :
  (forall k : Z,
      is_Some (per_state_means (Result.modes_all demo_result) !! k)
      <-> 1 <= k <= Result.states demo_result)
  /\ (forall k : Z, 1 <= k <= Result.states demo_result ->
        exists (mk : float) (pk : list float),
          per_state_means (Result.modes_all demo_result) !! k = Some mk
          /\ per_state_pairs (Result.modes_all demo_result) !! k = Some pk
          /\ (isnan mk = true <-> pk = [])
          /\ (pk <> [] -> Statistics.mean pk = Ok mk)).
Proof.
  exact (per_state_entries unit demo_host (Some "1A1T") (Some "all") true 1
           false "." start demo_result (snd demo_run) demo_run_completes
           (Result.modes_all demo_result) (or_introl eq_refl)).
Defined.

(** ** An object without states *)

Lemma seqZ_nil (m n : Z) : n <= 0 -> seqZ m n = [].
Proof.
  intros H. unfold seqZ. replace (Z.to_nat n) with 0%nat by lia. reflexivity.
Qed.

(** X5.  When the state count is zero (or below), a run that returns
    has left both modes as they were initialised: no per-state entry, no
    value, NaN for the overall mean and deviation; and [states] holds the
    count as the host gave it. *)
Theorem no_states_no_data :
  forall (Env : Type) (host : Host Env) (obj : string)
         (selection : option string) (quiet : bool) (display_level : Z)
         (export_report : bool) (report_path : string) (w : world Env)
         (r : Result.t) (w' : world Env) (n : Z) (e1 : Env),
    cmd_count_states host obj (host_state w) = (Ok n, e1) ->
    n <= 0 ->
    calculate_rms_stats host (Some obj) selection quiet display_level
                        export_report report_path w = (Ok (Analysis r), w') ->
    Result.modes_all r = empty_mode
    /\ Result.modes_no_hydrogen r = empty_mode
    /\ Result.states r = n.
Proof.
  intros Env host obj selection quiet display_level export_report report_path
         w r w' n e1 Hcs Hn Hrun.
  destruct (calculate_rms_stats_steps host _ _ _ _ _ _ _ _ _ _ _ Hcs Hrun)
    as (n_all & w2 & n_no_h & w3 & acc_all & w4 & acc_no_h & w5 & m_all & m_no_h
        & _ & _ & H4 & H5 & S4 & S5 & H6).
  unfold compute_mode, range1 in H4, H5.
  rewrite (seqZ_nil 1 n Hn) in H4, H5. cbn [for_each] in H4, H5.
  apply ret_inv in H4 as [-> _]. apply ret_inv in H5 as [-> _].
  cbn in S4, S5. inversion S4; subst m_all. inversion S5; subst m_no_h.
  apply export_or_hint_frame in H6 as (E1 & E2 & E3 & _).
  rewrite E1, E2, E3. repeat split.
Qed.

(** Witness of [no_states_no_data]: an object without states. *)
Lemma no_states_no_data_witness :
  Result.modes_all stateless_result = empty_mode
  /\ Result.modes_no_hydrogen stateless_result = empty_mode
  /\ Result.states stateless_result = 0.
Proof.
  apply (no_states_no_data unit stateless_host "empty" None true 1 false "."
           start stateless_result (snd stateless_run) 0 tt eq_refl).
  - lia.
  - exact stateless_run_completes.
Defined.

(** ** The atom counts *)

(** X6.  The atom counts of a result are what the two queries gave,
    made in the host state the state count left behind: the count when
    the query returns, [None] when it raises, each independently of the
    other; and the report shows a count that failed as a question
    mark. *)
Theorem atom_counts_follow_the_queries :
  forall (Env : Type) (host : Host Env) (obj : string)
         (selection : option string) (quiet : bool) (display_level : Z)
         (export_report : bool) (report_path : string) (w : world Env)
         (r : Result.t) (w' : world Env) (n : Z) (e1 : Env),
    cmd_count_states host obj (host_state w) = (Ok n, e1) ->
    calculate_rms_stats host (Some obj) selection quiet display_level
                        export_report report_path w = (Ok (Analysis r), w') ->
    let sel_all := base_selection_of obj selection in
    let sel_no_h := sel_all +:+ " and (not hydro)" in
    let first := cmd_count_atoms host sel_all e1 in
    let second := cmd_count_atoms host sel_no_h (snd first) in
    Result.atom_counts_all r
    = match fst first with Ok k => Some k | Raise _ => None end
    /\ Result.atom_counts_no_hydrogen r
       = match fst second with Ok k => Some k | Raise _ => None end
    /\ In ("  All: " +:+ match fst first with
                         | Ok k => str_of_int k
                         | Raise _ => "?"
                         end)
          (format_report_lines display_level selection sel_all n r)
    /\ In ("  Heavy (no H): " +:+ match fst second with
                                  | Ok k => str_of_int k
                                  | Raise _ => "?"
                                  end)
          (format_report_lines display_level selection sel_all n r).
Proof.
  intros Env host obj selection quiet display_level export_report report_path
         w r w' n e1 Hcs Hrun sel_all sel_no_h first second.
  destruct (calculate_rms_stats_steps host _ _ _ _ _ _ _ _ _ _ _ Hcs Hrun)
    as (n_all & w2 & n_no_h & w3 & acc_all & w4 & acc_no_h & w5 & m_all & m_no_h
        & H2 & H3 & _ & _ & _ & _ & H6).
  match type of H2 with try_count_atoms _ _ ?s ?w0 = _ =>
    destruct (try_count_atoms_run host quiet s w0) as (o2 & E2 & _) end.
  rewrite E2 in H2. inversion H2 as [[En2 Ew2]]. clear H2 E2.
  destruct (try_count_atoms_run host quiet sel_no_h w2) as (o3 & E3 & _).
  fold sel_all sel_no_h in H3. rewrite E3 in H3.
  inversion H3 as [[En3 Ew3]]. clear H3 E3.
  rewrite <- Ew2 in En3. cbn [host_state] in En2, En3.
  fold sel_all first in En2, En3. fold second in En3.
  apply export_or_hint_frame in H6 as (_ & _ & _ & _ & E5 & E6).
  cbn [result_before_export Result.atom_counts_all
       Result.atom_counts_no_hydrogen] in E5, E6.
  assert (A1 : Result.atom_counts_all r
               = match fst first with Ok k => Some k | Raise _ => None end)
    by (rewrite E5, <- En2; reflexivity).
  assert (A2 : Result.atom_counts_no_hydrogen r
               = match fst second with Ok k => Some k | Raise _ => None end)
    by (rewrite E6, <- En3; reflexivity).
  split; [exact A1|]. split; [exact A2|].
  unfold format_report_lines. rewrite A1, A2.
  split; rewrite !List.in_app_iff; right; right; left.
  - destruct (fst first); simpl; tauto.
  - destruct (fst second); simpl; tauto.
Qed.

(** Witness of [atom_counts_follow_the_queries]: the host on which both
    atom counts fail. *)
Lemma atom_counts_follow_the_queries_witness :
  Result.atom_counts_all flaky_demo_result = None
  /\ Result.atom_counts_no_hydrogen flaky_demo_result = None
  /\ In "  All: ?"
        (format_report_lines 1 (Some "all") "(1A1T) and (all)" 3 flaky_demo_result)
  /\ In "  Heavy (no H): ?"
        (format_report_lines 1 (Some "all") "(1A1T) and (all)" 3 flaky_demo_result).
Proof.
  exact (atom_counts_follow_the_queries unit flaky_host "1A1T" (Some "all")
           false 1 true "reports" start flaky_demo_result (snd flaky_demo_run)
           3 tt eq_refl flaky_demo_run_completes).
Defined.

(** ** What the export leaves behind *)

(** X7.  In a run that got its state count and returned, the file
    system is written to at most once; what is written is the report of
    the returned result, its lines joined by line feeds and closed by
    one, at the destination itself or at a report name inside it; no
    file is written without [export_report]; and [report_file] is set
    only after a file was written. *)
Theorem exported_file_is_the_report :
  forall (Env : Type) (host : Host Env) (obj : string)
         (selection : option string) (quiet : bool) (display_level : Z)
         (export_report : bool) (report_path : string) (w : world Env)
         (r : Result.t) (w' : world Env) (n : Z) (e1 : Env),
    cmd_count_states host obj (host_state w) = (Ok n, e1) ->
    calculate_rms_stats host (Some obj) selection quiet display_level
                        export_report report_path w = (Ok (Analysis r), w') ->
    let report :=
      format_report_lines display_level selection
                          (base_selection_of obj selection) (Result.states r) r in
    exists t : list call,
      calls w' = calls w ++ t
      /\ Forall (writes_report_at host obj selection report_path
                   (join nl report +:+ nl)) t
      /\ (length (List.filter is_write t) <= 1)%nat
      /\ (export_report = false -> List.filter is_write t = [])
      /\ (Result.report_file r <> None ->
          length (List.filter is_write t) = 1%nat).
Proof.
  intros Env host obj selection quiet display_level export_report report_path
         w r w' n e1 Hcs Hrun report.
  destruct (calculate_rms_stats_steps host _ _ _ _ _ _ _ _ _ _ _ Hcs Hrun)
    as (n_all & w2 & n_no_h & w3 & acc_all & w4 & acc_no_h & w5 & m_all & m_no_h
        & H2 & H3 & H4 & H5 & _ & _ & H6).
  match type of H2 with try_count_atoms _ _ ?s ?w0 = _ =>
    destruct (try_count_atoms_run host quiet s w0) as (o2 & E2 & _) end.
  rewrite E2 in H2. inversion H2 as [[En2 Ew2]]. clear H2 E2.
  destruct (try_count_atoms_run host quiet
              (base_selection_of obj selection +:+ " and (not hydro)") w2)
    as (o3 & E3 & _).
  rewrite E3 in H3. inversion H3 as [[En3 Ew3]]. clear H3 E3.
  apply compute_mode_footprint in H4 as (o4 & C4 & _).
  apply compute_mode_footprint in H5 as (o5 & C5 & _).
  assert (C : calls w5
              = calls w
                ++ [ CountStates obj;
                     CountAtoms (base_selection_of obj selection);
                     CountAtoms (base_selection_of obj selection
                                 +:+ " and (not hydro)") ]
                ++ map (IntraFit (base_selection_of obj selection)) (seqZ 1 n)
                ++ map (IntraFit (base_selection_of obj selection
                                  +:+ " and (not hydro)")) (seqZ 1 n)).
  { rewrite C5, C4, <- Ew3. cbn [calls]. rewrite <- Ew2. cbn [calls].
    rewrite <- !List.app_assoc. reflexivity. }
  clear C4 C5 Ew2 Ew3 En2 En3.
  set (sel_all := base_selection_of obj selection) in *.
  set (sel_no_h := sel_all +:+ " and (not hydro)") in *.
  assert (Hfilter : forall l : list Z,
             List.filter is_write (map (IntraFit sel_all) l) = []
             /\ List.filter is_write (map (IntraFit sel_no_h) l) = []).
  { induction l as [|k l [IH1 IH2]]; split; try reflexivity; simpl; assumption. }
  assert (Hcmd : forall (P : call -> Prop) (l : list Z) (s : string),
             (forall k, P (IntraFit s k)) -> Forall P (map (IntraFit s) l)).
  { intros P l s HP. induction l; simpl; constructor; auto. }
  pose proof (export_or_hint_frame host _ _ _ _ _ _ _ _ _ _ H6)
    as (F1 & F2 & F3 & _ & F5 & F6).
  cbn [result_before_export Result.states] in F3.
  assert (Hreport : report
                    = format_report_lines display_level selection sel_all n
                        (result_before_export sel_all n n_all n_no_h m_all m_no_h)).
  { subst report. rewrite F3. apply format_report_lines_frame; assumption. }
  rewrite Hreport. clear Hreport report.
  destruct export_report.
  - apply export_or_hint_export in H6 as (t & out & Ct & _ & Ft & Lt & Hr);
      [|reflexivity].
    cbn [after_report calls] in Ct. rewrite C in Ct.
    eexists. split; [rewrite Ct, <- !List.app_assoc; reflexivity|].
    repeat apply conj.
    + repeat (apply Forall_app; split);
        try (apply Hcmd; intros k; exact I); try exact Ft.
      repeat constructor.
    + rewrite !List.filter_app, (proj1 (Hfilter _)), (proj2 (Hfilter _)).
      exact Lt.
    + discriminate.
    + rewrite !List.filter_app, (proj1 (Hfilter _)), (proj2 (Hfilter _)).
      destruct Hr as [(f & -> & L & _) | (exc & -> & _)].
      * intros _. exact L.
      * cbn. congruence.
  - apply export_or_hint_hint in H6 as (-> & Ct & _).
    cbn [after_report calls] in Ct. rewrite C in Ct.
    eexists. split; [rewrite Ct, <- !List.app_assoc; reflexivity|].
    repeat apply conj.
    + repeat (apply Forall_app; split);
        try (apply Hcmd; intros k; exact I); repeat constructor.
    + rewrite !List.filter_app, (proj1 (Hfilter _)), (proj2 (Hfilter _)).
      cbn. lia.
    + intros _.
      rewrite !List.filter_app, (proj1 (Hfilter _)), (proj2 (Hfilter _)).
      reflexivity.
    + cbn. congruence.
Qed.

(** Witness of [exported_file_is_the_report]: the run with export to
    the directory [reports]. *)
Lemma exported_file_is_the_report_witness :
  exists t : list call,
    calls (snd export_demo_run) = calls start ++ t
    /\ Forall (writes_report_at demo_host "1A1T" (Some "chain A") "reports"
                 (join nl (format_report_lines 2 (Some "chain A")
                             (base_selection_of "1A1T" (Some "chain A"))
                             (Result.states export_demo_result)
                             export_demo_result) +:+ nl)) t
    /\ (length (List.filter is_write t) <= 1)%nat
    /\ (true = false -> List.filter is_write t = [])
    /\ (Result.report_file export_demo_result <> None ->
        length (List.filter is_write t) = 1%nat).
Proof.
  exact (exported_file_is_the_report unit demo_host "1A1T" (Some "chain A")
           false 2 true "reports" start export_demo_result
           (snd export_demo_run) 3 tt eq_refl export_demo_run_completes).
Defined.

(** X8.  The two outcomes of a run never mix.  In a returned result
    [report_file] is set only when the export was requested, and then
    [error] is empty; [error] holds one message: that of the failed state
    count, in which case the result is the one returned at line 132, or
    that of the failed export; it never holds two messages. *)
Theorem error_or_report_file :
  forall (Env : Type) (host : Host Env) (obj : string)
         (selection : option string) (quiet : bool) (display_level : Z)
         (export_report : bool) (report_path : string) (w : world Env)
         (r : Result.t) (w' : world Env),
    calculate_rms_stats host (Some obj) selection quiet display_level
                        export_report report_path w = (Ok (Analysis r), w') ->
    (Result.report_file r <> None ->
     export_report = true /\ Result.error r = None)
    /\ (forall e : string, Result.error r = Some e ->
          Result.report_file r = None
          /\ ((exists exc : exn,
                  fst (cmd_count_states host obj (host_state w)) = Raise exc
                  /\ e = "Failed to determine states for '" +:+ obj +:+ "': "
                         +:+ exn_str exc
                  /\ r = failed_result obj selection exc)
              \/ (exists exc : exn,
                     export_report = true
                     /\ e = "Failed to write report to '" +:+ report_path
                            +:+ "': " +:+ exn_str exc))).
Proof.
  intros Env host obj selection quiet display_level export_report report_path
         w r w' Hrun.
  destruct (cmd_count_states host obj (host_state w)) as [[n|exc] e1] eqn:Hcs.
  - destruct (calculate_rms_stats_steps host _ _ _ _ _ _ _ _ _ _ _ Hcs Hrun)
      as (n_all & w2 & n_no_h & w3 & acc_all & w4 & acc_no_h & w5 & m_all
          & m_no_h & _ & _ & _ & _ & _ & _ & H6).
    destruct export_report.
    + apply export_or_hint_export in H6 as (t & out & _ & _ & _ & _ & Hr);
        [|reflexivity].
      destruct Hr as [(f & -> & _) | (exc & -> & ->)]; cbn; split.
      * intros _. split; reflexivity.
      * intros e He. discriminate He.
      * intros H. congruence.
      * intros e He. inversion He; subst e. split; [reflexivity|].
        right. exists exc. split; reflexivity.
    + apply export_or_hint_hint in H6 as (-> & _). cbn. split.
      * intros H. congruence.
      * intros e He. discriminate He.
  - apply calculate_rms_stats_inv in Hrun as (obj' & Hobj & _ & [H | H]).
    + destruct H as (exc' & e1' & Hcs' & ->). inversion Hobj; subst obj'.
      rewrite Hcs in Hcs'. inversion Hcs'; subst exc' e1'. cbn. split.
      * intros H. congruence.
      * intros e He. inversion He; subst e. split; [reflexivity|].
        left. exists exc. repeat split.
    + destruct H as (n & e1' & ? & ? & ? & ? & ? & Hcs' & _).
      inversion Hobj; subst obj'. rewrite Hcs in Hcs'. discriminate Hcs'.
Qed.

(** Witness of [error_or_report_file]: the run whose export fails for
    want of room on the disk. *)
Lemma error_or_report_file_witness :
  Result.error flaky_demo_result
  = Some "Failed to write report to 'reports': No space left on device"
  /\ Result.report_file flaky_demo_result = None.
Proof.
  pose proof (error_or_report_file unit flaky_host "1A1T" (Some "all") false 1
                true "reports" start flaky_demo_result (snd flaky_demo_run)
                flaky_demo_run_completes) as [_ H].
  assert (E : Result.error flaky_demo_result
              = Some "Failed to write report to 'reports': No space left on device")
    by (vm_compute; reflexivity).
  split; [exact E|].
  exact (proj1 (H _ E)).
Defined.

(** ** The console of a run that is not quiet *)

(** X9.  A run that is not quiet, got its state count and returned has
    printed, in this order: lines that each begin with [Warning: ] (what
    a failed atom count or RMS query prints); the lines of the report of the
    returned result, one [print] per line, the same lines the export
    writes; and a closing: the path of the exported file, or the message
    of the failed export, or, without export, three lines of advice that
    end with the working directory. *)
Theorem console_shows_the_report :
  forall (Env : Type) (host : Host Env) (obj : string)
         (selection : option string) (display_level : Z)
         (export_report : bool) (report_path : string) (w : world Env)
         (r : Result.t) (w' : world Env) (n : Z) (e1 : Env),
    cmd_count_states host obj (host_state w) = (Ok n, e1) ->
    calculate_rms_stats host (Some obj) selection false display_level
                        export_report report_path w = (Ok (Analysis r), w') ->
    exists (warnings closing : list string),
      stdout w'
      = stdout w ++ warnings
        ++ format_report_lines display_level selection
                               (base_selection_of obj selection)
                               (Result.states r) r
        ++ closing
      /\ Forall (fun l => String.prefix "Warning: " l = true) warnings
      /\ (export_report = true ->
          closing = [ match Result.report_file r with
                      | Some f => "Report exported to: " +:+ f
                      | None => default "" (Result.error r)
                      end ])
      /\ (export_report = false ->
          exists cwd : string,
            closing
            = [ "To export the report to a file, set export_report=True";
                "Set a specified path with the 'report_path' argument.";
                "In absence of a specified path, the report will be saved in the current working directory: " +:+ cwd ]).
Proof.
  intros Env host obj selection display_level export_report report_path
         w r w' n e1 Hcs Hrun.
  destruct (calculate_rms_stats_steps host _ _ _ _ _ _ _ _ _ _ _ Hcs Hrun)
    as (n_all & w2 & n_no_h & w3 & acc_all & w4 & acc_no_h & w5 & m_all & m_no_h
        & H2 & H3 & H4 & H5 & _ & _ & H6).
  match type of H2 with try_count_atoms _ _ ?s ?w0 = _ =>
    destruct (try_count_atoms_run host false s w0) as (o2 & E2 & W2 & _) end.
  rewrite E2 in H2. inversion H2 as [[En2 Ew2]]. clear H2 E2.
  destruct (try_count_atoms_run host false
              (base_selection_of obj selection +:+ " and (not hydro)") w2)
    as (o3 & E3 & W3 & _).
  rewrite E3 in H3. inversion H3 as [[En3 Ew3]]. clear H3 E3.
  apply compute_mode_footprint in H4 as (o4 & _ & S4 & W4 & _).
  apply compute_mode_footprint in H5 as (o5 & _ & S5 & W5 & _).
  assert (S : stdout w5 = stdout w ++ (o2 ++ o3 ++ o4 ++ o5)).
  { rewrite S5, S4, <- Ew3. cbn [stdout]. rewrite <- Ew2. cbn [stdout].
    rewrite <- !List.app_assoc. reflexivity. }
  assert (W : Forall (fun l => String.prefix "Warning: " l = true)
                     (o2 ++ o3 ++ o4 ++ o5)).
  { repeat (apply Forall_app; split); assumption. }
  clear S4 S5 Ew2 Ew3 En2 En3 W2 W3 W4 W5.
  set (sel_all := base_selection_of obj selection) in *.
  pose proof (export_or_hint_frame host _ _ _ _ _ _ _ _ _ _ H6)
    as (F1 & F2 & F3 & _ & F5 & F6).
  cbn [result_before_export Result.states] in F3.
  assert (Hreport : format_report_lines display_level selection sel_all
                                        (Result.states r) r
                    = format_report_lines display_level selection sel_all n
                        (result_before_export sel_all n n_all n_no_h m_all m_no_h)).
  { rewrite F3. apply format_report_lines_frame; assumption. }
  rewrite Hreport. clear Hreport.
  exists (o2 ++ o3 ++ o4 ++ o5).
  destruct export_report.
  - apply export_or_hint_export in H6 as (t & out & _ & St & _ & _ & Hr);
      [|reflexivity].
    cbn [after_report stdout] in St. rewrite S in St.
    exists [out]. split; [rewrite St, <- !List.app_assoc; reflexivity|].
    split; [exact W|]. split; [|discriminate].
    intros _. destruct Hr as [(f & -> & _ & ->) | (exc & -> & _)]; reflexivity.
  - apply export_or_hint_hint in H6 as (-> & _ & cwd & St).
    cbn [after_report stdout] in St. rewrite S in St.
    eexists. split; [rewrite St, <- !List.app_assoc; reflexivity|].
    split; [exact W|]. split; [discriminate|].
    intros _. exists cwd. reflexivity.
Qed.

(** Witness of [console_shows_the_report]: the run with export to the
    directory [reports], which is not quiet. *)
Lemma console_shows_the_report_witness :
  exists (warnings closing : list string),
    stdout (snd export_demo_run)
    = stdout start ++ warnings
      ++ format_report_lines 2 (Some "chain A")
                             (base_selection_of "1A1T" (Some "chain A"))
                             (Result.states export_demo_result)
                             export_demo_result
      ++ closing
    /\ Forall (fun l => String.prefix "Warning: " l = true) warnings
    /\ (true = true ->
        closing = [ match Result.report_file export_demo_result with
                    | Some f => "Report exported to: " +:+ f
                    | None => default "" (Result.error export_demo_result)
                    end ])
    /\ (true = false ->
        exists cwd : string,
          closing
          = [ "To export the report to a file, set export_report=True";
              "Set a specified path with the 'report_path' argument.";
              "In absence of a specified path, the report will be saved in the current working directory: " +:+ cwd ]).
Proof.
  exact (console_shows_the_report unit demo_host "1A1T" (Some "chain A") 2 true
           "reports" start export_demo_result (snd export_demo_run) 3 tt
           eq_refl export_demo_run_completes).
Defined.

(** ** The characters and the length of the export file name *)

Lemma safe_char_filename (c : ascii) : is_filename_char (safe_char c) = true.
Proof. destruct c as [[] [] [] [] [] [] [] []]; vm_compute; reflexivity. Qed.

Lemma filename_char_no_separator (c : ascii) :
  is_filename_char c = true -> negb (is_separator_or_space c) = true.
Proof.
  destruct c as [[] [] [] [] [] [] [] []]; intros H;
    first [discriminate H | vm_compute; reflexivity].
Qed.

Lemma int_char_filename (c : ascii) :
  is_int_char c = true -> is_filename_char c = true.
Proof.
  destruct c as [[] [] [] [] [] [] [] []]; intros H;
    first [discriminate H | vm_compute; reflexivity].
Qed.

Lemma all_chars_map_safe_char (s : string) :
  all_chars is_filename_char (map_chars safe_char s) = true.
Proof.
  induction s as [|c r IH]; cbn [map_chars all_chars].
  - reflexivity.
  - rewrite safe_char_filename, IH. reflexivity.
Qed.

Lemma all_chars_spec_collapse (p : ascii -> bool) (s : string) :
  all_chars p s = true -> all_chars p (spec_collapse s) = true.
Proof.
  induction s as [|c r IH]; intros H.
  - reflexivity.
  - rewrite spec_collapse_cons. cbn [all_chars] in H.
    apply andb_true_iff in H as [Hc Hr].
    destruct (is_underscore c && starts_with_underscore r).
    + apply IH, Hr.
    + cbn [all_chars]. rewrite Hc, (IH Hr). reflexivity.
Qed.

Lemma all_chars_lstrip_by (p q : ascii -> bool) (s : string) :
  all_chars p s = true -> all_chars p (lstrip_by q s) = true.
Proof.
  induction s as [|c r IH]; intros H.
  - reflexivity.
  - cbn [lstrip_by]. destruct (q c); [|exact H].
    cbn [all_chars] in H. apply andb_true_iff in H as [_ Hr]. apply IH, Hr.
Qed.

Lemma all_chars_rstrip_by (p q : ascii -> bool) (s : string) :
  all_chars p s = true -> all_chars p (rstrip_by q s) = true.
Proof.
  induction s as [|c r IH]; intros H.
  - reflexivity.
  - cbn [all_chars] in H. apply andb_true_iff in H as [Hc Hr].
    specialize (IH Hr). cbn [rstrip_by].
    destruct (rstrip_by q r) as [|d r'].
    + destruct (q c); [reflexivity|]. cbn [all_chars]. rewrite Hc. reflexivity.
    + cbn [all_chars] in *. rewrite Hc, IH. reflexivity.
Qed.

Lemma all_chars_zfill (w : nat) (z : Z) :
  all_chars is_filename_char (zfill w z) = true.
Proof.
  unfold zfill. rewrite all_chars_append.
  rewrite all_chars_repeat_char by reflexivity.
  apply (all_chars_weaken is_int_char); [exact int_char_filename|].
  apply str_of_int_chars.
Qed.

Lemma all_chars_strftime (t : datetime) :
  all_chars is_filename_char (strftime t) = true.
Proof.
  unfold strftime. rewrite !all_chars_append, !all_chars_zfill. reflexivity.
Qed.

(** The selection segment of the name, before it is cut. *)
Lemma all_chars_sel_segment (sel_str : string) :
  all_chars is_filename_char
            (strip_underscores (collapse_underscores (map_chars safe_char sel_str)))
  = true.
Proof.
  unfold strip_underscores, strip_by.
  apply all_chars_rstrip_by, all_chars_lstrip_by.
  rewrite collapse_underscores_spec.
  apply all_chars_spec_collapse, all_chars_map_safe_char.
Qed.

(** X10.  Whatever the object name, the selection and the time, the
    name of the exported file is made of characters that [str.isalnum]
    accepts, hyphens, underscores and dots: it holds no path separator
    and no white space. *)
Theorem export_filename_is_safe :
  forall (obj : string) (selection : option string) (now : datetime),
    all_chars is_filename_char (report_filename obj selection (strftime now))
    = true
    /\ all_chars (fun c => negb (is_separator_or_space c))
                 (report_filename obj selection (strftime now)) = true.
Proof.
  intros obj selection now.
  assert (H : all_chars is_filename_char
                        (report_filename obj selection (strftime now)) = true).
  { unfold report_filename. rewrite !all_chars_append.
    rewrite (all_chars_take _ 30 _ (all_chars_map_safe_char obj)).
    rewrite all_chars_strftime.
    destruct (include_sel _).
    - rewrite all_chars_append.
      rewrite (all_chars_take _ 40 _ (all_chars_sel_segment _)). reflexivity.
    - reflexivity. }
  split; [exact H|].
  apply (all_chars_weaken is_filename_char);
    [exact filename_char_no_separator | exact H].
Qed.

Lemma length_take (n : nat) (s : string) :
  (String.length (take n s) <= n)%nat.
Proof.
  revert s. induction n as [|n IH]; intros s.
  - destruct s; simpl; lia.
  - destruct s as [|c r]; simpl; [lia|]. specialize (IH r). lia.
Qed.

Lemma timestamp_shape_length (s : string) :
  timestamp_shape s = true -> String.length s = 15%nat.
Proof.
  unfold timestamp_shape. intros H.
  apply andb_true_iff in H as [_ H]. apply Nat.eqb_eq, H.
Qed.

(** X11.  The cuts keep the name short: for a date of the years 1000
    to 9999 the name of the exported file has between 31 and 106
    characters, whatever the lengths of the object name and of the
    selection. *)
Theorem export_filename_length :
  forall (obj : string) (selection : option string) (now : datetime),
    valid_datetime now ->
    (31 <= String.length (report_filename obj selection (strftime now)) <= 106)%nat.
Proof.
  intros obj selection now Hnow.
  pose proof (timestamp_shape_length _ (strftime_shape now Hnow)) as Ht.
  unfold report_filename. rewrite !length_append, Ht.
  pose proof (length_take 30 (map_chars safe_char obj)) as Ho.
  change (String.length "rms_report_") with 11%nat.
  change (String.length "_") with 1%nat.
  change (String.length ".txt") with 4%nat.
  destruct (include_sel _).
  - rewrite length_append. change (String.length "_sel_") with 5%nat.
    match goal with |- context [take 40 ?s] => pose proof (length_take 40 s) end.
    lia.
  - change (String.length "") with 0%nat. lia.
Qed.

(** Witness of [export_filename_length]: a long object name and a long
    selection at the demonstration time. *)
Lemma export_filename_length_witness :
  (31 <= String.length
           (report_filename "a_rather_long_object_name_that_goes_on_and_on"
              (Some "chain A and resi 1-200 and not (resn HOH or resn LDP)")
              (strftime demo_now)) <= 106)%nat.
Proof.
  apply (export_filename_length
           "a_rather_long_object_name_that_goes_on_and_on"
           (Some "chain A and resi 1-200 and not (resn HOH or resn LDP)")
           demo_now).
  unfold valid_datetime. simpl. lia.
Defined.

(** ** The selection segment of the name *)

Lemma has_double_underscore_tail (c : ascii) (r : string) :
  has_double_underscore (String c r) = false ->
  (is_underscore c && starts_with_underscore r = false)
  /\ has_double_underscore r = false.
Proof.
  rewrite has_double_underscore_cons. intros H.
  apply orb_false_iff in H. exact H.
Qed.

Lemma starts_lstrip (s : string) :
  starts_with_underscore (lstrip_by is_underscore s) = false.
Proof.
  induction s as [|c r IH]; [reflexivity|].
  cbn [lstrip_by]. destruct (is_underscore c) eqn:E; [exact IH|].
  cbn [starts_with_underscore]. exact E.
Qed.

Lemma has_double_underscore_lstrip (q : ascii -> bool) (s : string) :
  has_double_underscore s = false ->
  has_double_underscore (lstrip_by q s) = false.
Proof.
  induction s as [|c r IH]; intros H; [reflexivity|].
  cbn [lstrip_by]. destruct (q c); [|exact H].
  apply IH. apply (has_double_underscore_tail c r H).
Qed.

Lemma rstrip_by_cons (q : ascii -> bool) (c : ascii) (r : string) :
  rstrip_by q (String c r)
  = match rstrip_by q r with
    | EmptyString => if q c then EmptyString else String c EmptyString
    | r' => String c r'
    end.
Proof. reflexivity. Qed.

(** What [rstrip] leaves begins as the string did. *)
Lemma starts_rstrip (q : ascii -> bool) (s : string) :
  starts_with_underscore (rstrip_by q s) = true ->
  starts_with_underscore s = true.
Proof.
  destruct s as [|c r]; [discriminate|].
  rewrite rstrip_by_cons. destruct (rstrip_by q r) as [|d r'].
  - destruct (q c); [discriminate | exact (fun H => H)].
  - exact (fun H => H).
Qed.

Lemma has_double_underscore_rstrip (q : ascii -> bool) (s : string) :
  has_double_underscore s = false ->
  has_double_underscore (rstrip_by q s) = false.
Proof.
  induction s as [|c r IH]; intros H; [reflexivity|].
  apply has_double_underscore_tail in H as [Hc Hr].
  specialize (IH Hr). rewrite rstrip_by_cons.
  pose proof (starts_rstrip q r) as Hs.
  destruct (rstrip_by q r) as [|d r'].
  - destruct (q c); reflexivity.
  - rewrite has_double_underscore_cons, IH, orb_false_r.
    destruct (is_underscore c); [|reflexivity]. cbn [andb] in *.
    destruct (starts_with_underscore (String d r')); [|reflexivity].
    rewrite Hs in Hc by reflexivity. discriminate Hc.
Qed.

Lemma ends_rstrip (s : string) :
  ends_with_underscore (rstrip_by is_underscore s) = false.
Proof.
  induction s as [|c r IH]; [reflexivity|].
  rewrite rstrip_by_cons. destruct (rstrip_by is_underscore r) as [|d r'].
  - destruct (is_underscore c) eqn:E; [reflexivity|].
    cbn [ends_with_underscore]. exact E.
  - exact IH.
Qed.

Lemma starts_take (n : nat) (s : string) :
  starts_with_underscore (take n s) = true -> starts_with_underscore s = true.
Proof.
  destruct n as [|n], s as [|c r]; try discriminate. exact (fun H => H).
Qed.

Lemma has_double_underscore_take (n : nat) (s : string) :
  has_double_underscore s = false -> has_double_underscore (take n s) = false.
Proof.
  revert s. induction n as [|n IH]; intros s H.
  - destruct s; reflexivity.
  - destruct s as [|c r]; [reflexivity|].
    apply has_double_underscore_tail in H as [Hc Hr].
    cbn [take]. rewrite has_double_underscore_cons, (IH r Hr), orb_false_r.
    destruct (is_underscore c); [|reflexivity]. cbn [andb] in *.
    pose proof (starts_take n r) as Hs.
    destruct (starts_with_underscore (take n r)); [|reflexivity].
    rewrite Hs in Hc by reflexivity. discriminate Hc.
Qed.

(** X12.  For a selection that goes into the name, the segment after
    [_sel_] is the first 40 characters of a body that holds no two
    underscores in a row and neither begins nor ends with an underscore;
    the segment itself has at most 40 characters, holds no two
    underscores in a row and does not begin with one. *)
Theorem selection_segment_is_tidy :
  forall (obj sel_str timestamp : string),
    include_sel sel_str = true ->
    let body :=
      strip_underscores (collapse_underscores (map_chars safe_char sel_str)) in
    report_filename obj (Some sel_str) timestamp
    = "rms_report_" +:+ take 30 (map_chars safe_char obj)
      +:+ "_sel_" +:+ take 40 body +:+ "_" +:+ timestamp +:+ ".txt"
    /\ has_double_underscore body = false
    /\ starts_with_underscore body = false
    /\ ends_with_underscore body = false
    /\ (String.length (take 40 body) <= 40)%nat
    /\ has_double_underscore (take 40 body) = false
    /\ starts_with_underscore (take 40 body) = false.
Proof.
  intros obj sel_str timestamp Hinc body.
  assert (Hdd : has_double_underscore body = false).
  { subst body. unfold strip_underscores, strip_by.
    apply has_double_underscore_rstrip, has_double_underscore_lstrip,
      collapse_underscores_done. }
  assert (Hst : starts_with_underscore body = false).
  { subst body. unfold strip_underscores, strip_by.
    match goal with |- starts_with_underscore (rstrip_by ?q (lstrip_by _ ?s)) = _ =>
      pose proof (starts_rstrip q (lstrip_by is_underscore s)) as H;
      rewrite starts_lstrip in H
    end.
    match goal with |- ?x = false => destruct x; [|reflexivity] end.
    discriminate (H eq_refl). }
  repeat apply conj.
  - unfold report_filename. rewrite Hinc. fold body.
    reflexivity.
  - exact Hdd.
  - exact Hst.
  - subst body. apply ends_rstrip.
  - apply length_take.
  - apply has_double_underscore_take, Hdd.
  - pose proof (starts_take 40 body) as H.
    destruct (starts_with_underscore (take 40 body)); [|reflexivity].
    rewrite H in Hst by reflexivity. discriminate Hst.
Qed.

(** Witness of [selection_segment_is_tidy]: a selection full of
    characters that become underscores. *)
Lemma selection_segment_is_tidy_witness :
  report_filename "1A1T" (Some "(chain A) & !(resn HOH)") "20240307_090500"
  = "rms_report_1A1T_sel_chain_A_resn_HOH_20240307_090500.txt".
Proof.
  pose proof (selection_segment_is_tidy "1A1T" "(chain A) & !(resn HOH)"
                "20240307_090500" eq_refl) as [H _].
  rewrite H. vm_compute. reflexivity.
Defined.

(** ** The note on a missing selection *)

Lemma per_state_row_not_note (mode : ModeResult) (s : Z) :
  String.eqb selection_note (per_state_row mode s) = false.
Proof.
  unfold per_state_row. destruct (rjust_int_chars 5 s) as [Hc Hl].
  apply (eqb_append_class is_number_char 1); [exact Hc | lia | reflexivity].
Qed.

Lemma per_pair_rows_no_note (pairs : list float) :
  count_lines selection_note (per_pair_rows pairs) = 0%nat.
Proof.
  unfold per_pair_rows. destruct pairs as [|x l]; [reflexivity|].
  apply count_lines_map_none. intros [i val].
  destruct (rjust_int_chars 7 i) as [Hc Hl].
  apply (eqb_append_class is_number_char 1); [exact Hc | lia | reflexivity].
Qed.

Lemma state_detail_no_note (result : Result.t) (s : Z) :
  count_lines selection_note (state_detail result s) = 0%nat.
Proof.
  unfold state_detail. rewrite !count_lines_app, !per_pair_rows_no_note.
  reflexivity.
Qed.

(** The note is in the report once when no selection was provided, and
    not at all otherwise. *)
Lemma count_selection_note display_level selection base_selection states result :
  count_lines selection_note
              (format_report_lines display_level selection base_selection
                                   states result)
  = if selection_provided selection then 0%nat else 1%nat.
Proof.
  unfold format_report_lines. rewrite !count_lines_app.
  assert (H1 : forall x : string,
             count_lines selection_note
               [ ""; "*****************************";
                 "* RMS Statistics Calculator *";
                 "*****************************"; "";
                 "The level of detail in this report has been set to => " +:+ x;
                 ""; "############ Data selection ############" ] = 0%nat)
    by (intros x; reflexivity).
  rewrite H1. clear H1.
  assert (H4 : count_lines selection_note
                 (if 1 <=? display_level
                  then [ "Average RMS per state (showing NaN where unavailable):";
                         ""; "All atoms:"; per_state_header; repeat_char "-" 34 ]
                       ++ map (per_state_row (Result.modes_all result))
                              (range1 states)
                       ++ [ ""; "Heavy atoms (no H):"; per_state_header;
                            repeat_char "-" 34 ]
                       ++ map (per_state_row (Result.modes_no_hydrogen result))
                              (range1 states)
                       ++ [ rule60 ]
                  else []) = 0%nat).
  { destruct (1 <=? display_level); [|reflexivity].
    rewrite !count_lines_app.
    rewrite !(count_lines_map_none selection_note (per_state_row _))
      by (intros a; apply per_state_row_not_note).
    reflexivity. }
  rewrite H4. clear H4.
  assert (H5 : count_lines selection_note
                 (if 2 <=? display_level
                  then [ "Detailed per-state individual pair RMS values:" ]
                       ++ concat (map (state_detail result) (range1 states))
                  else if display_level =? 0
                       then [ "(Average RMS per state and detailed per-pair output suppressed; set display_level>=1 to enable per-state means or display_level==2 for full detail)" ]
                       else if display_level =? 1
                            then [ "(Detailed per-pair output suppressed; set display_level==2 to enable)" ]
                            else []) = 0%nat).
  { destruct (2 <=? display_level).
    - rewrite count_lines_app.
      rewrite (count_lines_concat_map selection_note _ 0)
        by (intros a; apply state_detail_no_note).
      reflexivity.
    - destruct (display_level =? 0); [reflexivity|].
      destruct (display_level =? 1); reflexivity. }
  rewrite H5. clear H5.
  destruct (selection_provided selection); reflexivity.
Qed.

Lemma count_lines_In (x : string) (l : list string) :
  In x l <-> count_lines x l <> 0%nat.
Proof.
  unfold count_lines. induction l as [|y l IH]; simpl.
  - split; [contradiction | congruence].
  - destruct (String.eqb x y) eqn:E.
    + apply String.eqb_eq in E. subst y. split; [simpl; lia | auto].
    + apply String.eqb_neq in E. rewrite <- IH. split; [|tauto].
      intros [H | H]; [congruence | exact H].
Qed.

Lemma append_cancel_l (s a b : string) : s +:+ a = s +:+ b -> a = b.
Proof.
  induction s as [|c r IH]; simpl; intros H; [exact H|].
  inversion H. apply IH. assumption.
Qed.

(** Lines 235 and 353-354 agree on what a missing selection is. *)
Lemma selection_provided_include_sel (selection : option string) :
  selection_provided selection
  = include_sel (match selection with None => "" | Some s => s end).
Proof. destruct selection; reflexivity. Qed.

(** X13.  The report and the file name agree on what a missing
    selection is: the note "no explicit selection was provided" is in
    the report, and then once, exactly when the name of the exported
    file has no [_sel_] segment, which is when the test of line 235
    ([selection_provided]) fails. *)
Theorem selection_note_matches_file_name :
  forall (display_level : Z) (selection : option string)
         (base_selection : string) (states : Z) (result : Result.t)
         (obj timestamp : string),
    let report :=
      format_report_lines display_level selection base_selection states result in
    (In selection_note report
     <-> report_filename obj selection timestamp
         = "rms_report_" +:+ take 30 (map_chars safe_char obj)
           +:+ "_" +:+ timestamp +:+ ".txt")
    /\ (In selection_note report <-> selection_provided selection = false)
    /\ (count_lines selection_note report <= 1)%nat.
Proof.
  intros display_level selection base_selection states result obj timestamp
         report.
  pose proof (count_selection_note display_level selection base_selection
                states result) as Hc.
  fold report in Hc.
  assert (Hin : In selection_note report <-> selection_provided selection = false).
  { rewrite count_lines_In, Hc.
    destruct (selection_provided selection); split; congruence. }
  split; [|split; [exact Hin|]].
  - rewrite Hin, selection_provided_include_sel. unfold report_filename.
    destruct (include_sel _).
    + split; [discriminate|]. intros H.
      apply append_cancel_l, append_cancel_l in H.
      apply (f_equal String.length) in H.
      rewrite !length_append in H. simpl in H. lia.
    + split; [reflexivity | reflexivity].
  - rewrite Hc. destruct (selection_provided selection); lia.
Qed.

(** ** What becomes of the provider's answer *)

Lemma floats_of_items_rejected (xs : list item) :
  existsb rejected_by_float xs = true ->
  exists exc, floats_of_items xs = Raise exc.
Proof.
  induction xs as [|x xs IH]; simpl; [discriminate|].
  unfold rejected_by_float at 1.
  destruct (float_of_item x) as [f|e]; cbn [orb].
  - intros H. destruct (IH H) as (exc & ->). exists exc. reflexivity.
  - intros _. exists e. reflexivity.
Qed.

(** X14.  When the provider returns a sequence in which one item is
    no number (or an int too large for a float), the whole sequence is
    dropped, its valid values included: the state is recorded with no
    pair and a NaN mean, [all_rms] is left as it was, and nothing is
    printed, whether the run is quiet or not. *)
Theorem unconvertible_item_voids_the_state :
  forall (Env : Type) (host : Host Env) (quiet : bool) (sel : string)
         (m : gmap Z float) (a : list float) (p : gmap Z (list float))
         (k : Z) (w : world Env) (xs : list item) (e' : Env),
    cmd_intra_fit host sel k (host_state w) = (Ok (RmsSeq xs), e') ->
    existsb rejected_by_float xs = true ->
    compute_state host quiet sel (m, a, p) k w
    = (Ok (<[k := nan]> m, a, <[k := []]> p),
       {| host_state := e'; calls := calls w ++ [IntraFit sel k];
          stdout := stdout w |}).
Proof.
  intros Env host quiet sel m a p k w xs e' Hv Hbad.
  destruct (floats_of_items_rejected xs Hbad) as (exc & Hexc).
  rewrite (compute_state_returns host quiet sel m a p k w (RmsSeq xs) e' [] Hv).
  - reflexivity.
  - unfold normalize. rewrite Hexc. reflexivity.
Qed.

(** Witness of [unconvertible_item_voids_the_state]: the sequence
    [[1.0, object(), 2.0]]. *)
Lemma unconvertible_item_voids_the_state_witness :
  compute_state mixed_host false "(1A1T) and (all)" (∅, [], ∅) 1 start
  = (Ok (<[1 := nan]> ∅, [], <[1 := []]> ∅),
     {| host_state := tt; calls := [IntraFit "(1A1T) and (all)" 1];
        stdout := [] |}).
Proof.
  exact (unconvertible_item_voids_the_state unit mixed_host false
           "(1A1T) and (all)" ∅ [] ∅ 1 start
           [IFloat f1_0; IOther; IFloat f2_0] tt eq_refl eq_refl).
Defined.

Section Provider.

Context {Env : Type} (host : Host Env).

(** What one round of the loop records, from the provider's answer. *)
Lemma compute_state_entry quiet sel m a p k (w : world Env) m1 a1 p1 w1 :
  compute_state host quiet sel (m, a, p) k w = (Ok (m1, a1, p1), w1) ->
  match fst (cmd_intra_fit host sel k (host_state w)) with
  | Raise _ => m1 = <[k := nan]> m /\ a1 = a /\ p1 = <[k := []]> p
  | Ok v =>
      exists fl, normalize v = Ok fl
                 /\ a1 = a ++ keep_non_negative fl
                 /\ p1 = <[k := keep_non_negative fl]> p
  end.
Proof.
  unfold compute_state. intros H.
  apply bind_inv in H as (r & w0 & Hr & H).
  rewrite attempt_run in Hr. unfold intra_fit, host_call in Hr.
  destruct (cmd_intra_fit host sel k (host_state w)) as [ans e'].
  cbn [fst snd] in *. inversion Hr; subst r w0; clear Hr.
  destruct ans as [v|exc].
  - apply bind_inv in H as (fl & w2 & Hfl & H).
    apply lift_inv in Hfl as [Hfl ->]. exists fl. split; [exact Hfl|].
    destruct (keep_non_negative fl) as [|x kept].
    + apply ret_inv in H as [H _]. inversion H; subst.
      rewrite List.app_nil_r. split; reflexivity.
    + apply bind_inv in H as (mu & w3 & _ & H).
      apply ret_inv in H as [H _]. inversion H; subst. split; reflexivity.
  - apply bind_inv in H as (u & w2 & _ & H).
    apply ret_inv in H as [H _]. inversion H; subst. repeat split.
Qed.

(** The entry of a state is what the round of that state recorded: no
    later round touches it. *)
Lemma for_each_entry quiet sel (k : Z) (answer : res rms_return) (l : list Z) :
  (forall e, fst (cmd_intra_fit host sel k e) = answer) ->
  NoDup l -> k ∈ l ->
  forall m a p (w : world Env) m' a' p' w',
    for_each l (compute_state host quiet sel) (m, a, p) w = (Ok (m', a', p'), w') ->
    match answer with
    | Raise _ => m' !! k = Some nan /\ p' !! k = Some []
    | Ok v =>
        exists fl, normalize v = Ok fl
                   /\ p' !! k = Some (keep_non_negative fl)
    end.
Proof.
  intros Hans. induction l as [|j l IH]; intros Hnd Hk m a p w m' a' p' w' H.
  - inversion Hk.
  - cbn [for_each] in H.
    apply bind_inv in H as ([[m1 a1] p1] & w1 & Hstep & H).
    apply NoDup_cons in Hnd as [Hj Hnd].
    destruct (decide (k = j)) as [<- | Hne].
    + apply compute_state_entry in Hstep. rewrite Hans in Hstep.
      apply for_each_compute_state in H as (_ & Hout & _); [|exact Hnd].
      destruct (Hout k Hj) as [Em Ep]. rewrite Em, Ep.
      destruct answer as [v|exc].
      * destruct Hstep as (fl & Hfl & _ & ->). exists fl.
        split; [exact Hfl | apply lookup_insert_eq].
      * destruct Hstep as (-> & _ & ->).
        split; apply lookup_insert_eq.
    + apply elem_of_cons in Hk as [Hk | Hk]; [contradiction|].
      exact (IH Hnd Hk _ _ _ _ _ _ _ _ H).
Qed.

End Provider.

(** X15.  In a returned result the entry of a state is what the
    provider answered for that state and that mode's selection, when the
    answer does not depend on the state of the host: a failure of the
    query gives a NaN mean and no pair; a value gives, as pairs, its
    conversion to floats with the values below zero (and the NaNs) taken
    out, in the order of the provider. *)
Theorem state_entry_follows_the_provider :
  forall (Env : Type) (host : Host Env) (obj : string)
         (selection : option string) (quiet : bool) (display_level : Z)
         (export_report : bool) (report_path : string) (w : world Env)
         (r : Result.t) (w' : world Env) (k : Z),
    calculate_rms_stats host (Some obj) selection quiet display_level
                        export_report report_path w = (Ok (Analysis r), w') ->
    1 <= k <= Result.states r ->
    forall (sel : string) (m : ModeResult),
      (sel = base_selection_of obj selection /\ m = Result.modes_all r)
      \/ (sel = base_selection_of obj selection +:+ " and (not hydro)"
          /\ m = Result.modes_no_hydrogen r) ->
      forall answer : res rms_return,
        (forall e : Env, fst (cmd_intra_fit host sel k e) = answer) ->
        match answer with
        | Raise _ =>
            per_state_means m !! k = Some nan
            /\ per_state_pairs m !! k = Some []
        | Ok v =>
            exists fl : list float,
              normalize v = Ok fl
              /\ per_state_pairs m !! k
                 = Some (List.filter (fun x => ge x zero) fl)
        end.
Proof.
  intros Env host obj selection quiet display_level export_report report_path
         w r w' k Hrun Hk sel m Hm answer Hans.
  apply calculate_rms_stats_inv in Hrun as (obj' & Hobj & _ & [H | H]).
  { destruct H as (exc & e1 & _ & ->). cbn in Hk. lia. }
  destruct H as (n & e1 & w2 & w3 & w4 & [[m1 a1] p1] & [[m2 a2] p2]
                 & _ & Hn & Hc1 & Hc2 & Hs1 & Hs2).
  inversion Hobj; subst obj'. cbn [fst snd] in Hs1, Hs2.
  apply summarize_ok in Hs1 as (Em1 & Ep1 & _).
  apply summarize_ok in Hs2 as (Em2 & Ep2 & _).
  assert (Hin : k ∈ seqZ 1 n) by (apply elem_of_seqZ; lia).
  unfold compute_mode, range1 in Hc1, Hc2.
  destruct Hm as [[-> ->] | [-> ->]].
  - rewrite Em1, Ep1.
    exact (for_each_entry host quiet _ k answer _ Hans (NoDup_seqZ 1 n) Hin
             _ _ _ _ _ _ _ _ Hc1).
  - rewrite Em2, Ep2.
    exact (for_each_entry host quiet _ k answer _ Hans (NoDup_seqZ 1 n) Hin
             _ _ _ _ _ _ _ _ Hc2).
Qed.

(** Witness of [state_entry_follows_the_provider]: state 2 of the host
    whose provider fails there. *)
Lemma state_entry_follows_the_provider_witness :
  per_state_means (Result.modes_all flaky_demo_result) !! 2 = Some nan
  /\ per_state_pairs (Result.modes_all flaky_demo_result) !! 2 = Some [].
Proof.
  apply (state_entry_follows_the_provider unit flaky_host "1A1T" (Some "all")
           false 1 true "reports" start flaky_demo_result (snd flaky_demo_run)
           2 flaky_demo_run_completes)
    with (sel := "(1A1T) and (all)") (answer := Raise (HostError "fit failed")).
  - vm_compute. split; discriminate.
  - left. split; reflexivity.
  - intros e. reflexivity.
Defined.

(** ** NaN in the report *)





